(** * Worker lookup, date normalisation and the connectivity probe

    A shallow embedding of the TypeScript modules of the repository:

    - [src/unnamed/part_000]: the first lookup module
      ([searchWorkerInGoogleSheet] reading the body with [response.json()],
      [parseFrenchDate] built on [new Date]);
    - [src/unnamed/part_001]: the second lookup module (body read as text
      and parsed, [parseFrenchDate] with the canonical, date-time and
      slash rules; a date-time value is cut at the time separator);
    - [src/client/lib/firebase.ts]: the Firebase bootstrap with
      [testFirebaseConnection], the recovery of the connection and the
      clearing of the browser's storage, followed by the gender-aware
      lookup module
      (its [parseFrenchDate] shifts a date-time value by one hour) and by a
      third lookup module whose [searchWorkerInGoogleSheet] is that of
      part_000 with the endpoint of part_001 and whose [parseFrenchDate]
      is that of part_001; it is not embedded a second time.

    JavaScript strings are sequences of UTF-16 code units; the numbers the
    code computes with are integers, NaN or the infinities. What the
    ECMAScript standard leaves to the engine, or what lives outside the
    repository (the JSON parser, the URI encoder, the upstream service,
    the Firestore client), is a field of the class [Host] or an explicit
    environment argument. *)

From Stdlib Require Import ZArith NArith List String Ascii Bool Lia.
From Stdlib Require Import DecimalString.
From Equations Require Import Equations.
Import ListNotations.

Local Open Scope string_scope.
Local Open Scope list_scope.
Local Open Scope Z_scope.

(** ** JavaScript strings *)

Module JS.

(** A string is the list of its UTF-16 code units. *)
Definition jsstring := list N.

Definition js (s : string) : jsstring :=
  map N_of_ascii (list_ascii_of_string s).

Definition cu (a : ascii) : N := N_of_ascii a.

Definition jsstring_eqb (a b : jsstring) : bool :=
  if list_eq_dec N.eq_dec a b then true else false.

(** [WhiteSpace] and [LineTerminator] of ECMAScript: what [trim] strips
    and what [parseInt] skips. *)
Definition is_whitespace (c : N) : bool :=
  ((9 <=? c) && (c <=? 13)                (* TAB LF VT FF CR *)
   || (c =? 32)                           (* SP *)
   || (c =? 160)                          (* NBSP *)
   || (c =? 5760)                         (* U+1680 *)
   || ((8192 <=? c) && (c <=? 8202))      (* U+2000 .. U+200A *)
   || (c =? 8232) || (c =? 8233)          (* LS PS *)
   || (c =? 8239)                         (* U+202F *)
   || (c =? 8287)                         (* U+205F *)
   || (c =? 12288)                        (* U+3000 *)
   || (c =? 65279))%N.                    (* U+FEFF *)

(** [\d] without the unicode flag: the ten ASCII digits. *)
Definition is_digit (c : N) : bool := ((48 <=? c) && (c <=? 57))%N.

Definition digit_value (c : N) : Z := Z.of_N c - 48.

Fixpoint dropWhile (p : N -> bool) (s : jsstring) : jsstring :=
  match s with
  | [] => []
  | c :: r => if p c then dropWhile p r else s
  end.

Fixpoint takeWhile (p : N -> bool) (s : jsstring) : jsstring :=
  match s with
  | [] => []
  | c :: r => if p c then c :: takeWhile p r else []
  end.

Definition trimStart (s : jsstring) : jsstring := dropWhile is_whitespace s.

Definition trimEnd (s : jsstring) : jsstring :=
  rev (dropWhile is_whitespace (rev s)).

(** [String.prototype.trim] *)
Definition trim (s : jsstring) : jsstring := trimEnd (trimStart s).

(** [s.split(c)] for a one-character separator: never an empty array. *)
Fixpoint split (c : N) (s : jsstring) : list jsstring :=
  match s with
  | [] => [[]]
  | x :: r =>
      if (x =? c)%N then [] :: split c r
      else match split c r with
           | h :: t => (x :: h) :: t
           | [] => [[x]]
           end
  end.

(** [s.startsWith(p)] *)
Fixpoint startsWith (p s : jsstring) : bool :=
  match p, s with
  | [], _ => true
  | _ :: _, [] => false
  | a :: p', b :: s' => (a =? b)%N && startsWith p' s'
  end.

(** [s.includes(p)] *)
Fixpoint includes (p s : jsstring) : bool :=
  startsWith p s ||
  match s with
  | [] => false
  | _ :: r => includes p r
  end.

(** The filler of [padStart]: [fill] repeated and cut to [n] units. *)
Fixpoint filler (n : nat) (fill cur : jsstring) : jsstring :=
  match n with
  | O => []
  | S n' =>
      match cur with
      | c :: r => c :: filler n' fill r
      | [] => match fill with
              | c :: r => c :: filler n' fill r
              | [] => []
              end
      end
  end.

(** [s.padStart(targetLength, fill)] *)
Definition padStart (s : jsstring) (targetLength : nat) (fill : jsstring)
  : jsstring :=
  if (targetLength <=? List.length s)%nat then s
  else filler (targetLength - List.length s) fill fill ++ s.

(** Regular expressions of the shapes the code uses: a sequence of
    [\d] and literal characters, anchored at the start. *)
Inductive atom := Digit | Lit (c : N).

Definition atom_matches (a : atom) (c : N) : bool :=
  match a with
  | Digit => is_digit c
  | Lit l => (c =? l)%N
  end.

(** The rest of the string after the pattern, when the string starts
    with a match. *)
Fixpoint match_prefix (pat : list atom) (s : jsstring) : option jsstring :=
  match pat with
  | [] => Some s
  | a :: pat' =>
      match s with
      | [] => None
      | c :: r => if atom_matches a c then match_prefix pat' r else None
      end
  end.

Definition digits (n : nat) : list atom := repeat Digit n.

(** [\d{4}-\d{2}-\d{2}] *)
Definition date_pattern : list atom :=
  digits 4 ++ [Lit (cu "-")] ++ digits 2 ++ [Lit (cu "-")] ++ digits 2.

(** [/^\d{4}-\d{2}-\d{2}$/.test(s)] *)
Definition test_canonical (s : jsstring) : bool :=
  match match_prefix date_pattern s with
  | Some [] => true
  | _ => false
  end.

(** [/^\d{4}-\d{2}-\d{2}T/.test(s)] *)
Definition test_datetime (s : jsstring) : bool :=
  match match_prefix (date_pattern ++ [Lit (cu "T")]) s with
  | Some _ => true
  | None => false
  end.

(** *** Numbers

    The numbers of these modules are integers (results of [parseInt],
    date components, lengths), NaN or an infinity. *)
Inductive number := NaN | PosInf | NegInf | Int (z : Z).

(** [a >= b] and [a <= b] against an integer constant; false on NaN. *)
Definition ge_int (a : number) (b : Z) : bool :=
  match a with
  | NaN | NegInf => false
  | PosInf => true
  | Int z => b <=? z
  end.

Definition le_int (a : number) (b : Z) : bool :=
  match a with
  | NaN | PosInf => false
  | NegInf => true
  | Int z => z <=? b
  end.

(** [a + k] for an integer constant [k] (exact in the range of dates). *)
Definition add_int (a : number) (k : Z) : number :=
  match a with
  | Int z => Int (z + k)
  | other => other
  end.

(** Decimal digits of an integer, with a leading minus sign. *)
Definition decimal (z : Z) : jsstring :=
  js (NilZero.string_of_int (Z.to_int z)).

(** The value of a run of decimal digits. *)
Definition mathInt (ds : jsstring) : Z :=
  fold_left (fun acc c => 10 * acc + digit_value c) ds 0.

Definition MAX_SAFE : Z := 2 ^ 53.

End JS.

Export JS.
Coercion js : string >-> jsstring.

(** ** Values decoded from JSON *)

(** A JSON document, with its numbers in the type [num] of the engine's
    doubles; an object keeps its members in source order. *)
#[warnings="-register-all"]
Inductive json (num : Type) : Type :=
| JNull
| JBool (b : bool)
| JNum (n : num)
| JStr (s : jsstring)
| JArr (items : list (json num))
| JObj (members : list (jsstring * json num)).

Arguments JNull {num}.
Arguments JBool {num} b.
Arguments JNum {num} n.
Arguments JStr {num} s.
Arguments JArr {num} items.
Arguments JObj {num} members.

(** ** The host: what the engine and the platform provide *)

Class Host := {
  (** the doubles that occur in a parsed JSON document, with their
      truthiness (false on zero) and [String(n)] *)
  double : Type;
  double_truthy : double -> bool;
  double_toString : double -> jsstring;
  (** [JSON.parse]; [None] when it throws a SyntaxError, as it does on
      the empty text *)
  JSON_parse : jsstring -> option (json double);
  JSON_parse_empty : JSON_parse [] = None;
  (** [encodeURIComponent]; [None] when it throws a URIError *)
  encodeURIComponent : jsstring -> option jsstring;
  (** [String.prototype.toUpperCase] *)
  toUpperCase : jsstring -> jsstring;
  (** the double [parseInt] returns for an integer beyond 2^53 *)
  approxInt : Z -> number;
  (** [String(n)] for an integer double of magnitude 10^21 or more *)
  exponential : Z -> jsstring;
  (** [LocalTZA(t, false)]: the local offset in ms at local time [t] *)
  LocalTZA : Z -> Z;
  (** [Date.parse] on a string outside the date-time string format of
      the standard: engine-specific; [None] is NaN *)
  Date_parse_legacy : jsstring -> option Z
}.

Module Num.
Section WithHost.
Context {host : Host}.

(** The double for the integer [z]. *)
Definition ofZ (z : Z) : number :=
  if Z.abs z <=? MAX_SAFE then Int z else approxInt z.

(** [String(n)] *)
Definition toString (n : number) : jsstring :=
  match n with
  | NaN => "NaN"
  | PosInf => "Infinity"
  | NegInf => "-Infinity"
  | Int z => if Z.abs z <? 10 ^ 21 then decimal z else exponential z
  end.

(** [parseInt(s, 10)]: skip leading white space, read a sign, then the
    longest run of digits; NaN when there is none. *)
Definition parseInt (s : jsstring) : number :=
  let s1 := trimStart s in
  let '(sign, s2) :=
    match s1 with
    | c :: r =>
        if (c =? cu "-")%N then (-1, r)
        else if (c =? cu "+")%N then (1, r)
        else (1, s1)
    | [] => (1, s1)
    end in
  match takeWhile is_digit s2 with
  | [] => NaN
  | ds => ofZ (sign * mathInt ds)
  end.

End WithHost.
End Num.

(** ** Dates: the time-value algorithms of ECMAScript *)

Module ESDate.

Definition msPerDay : Z := 86400000.
Definition msPerHour : Z := 3600000.
Definition msPerMinute : Z := 60000.
Definition msPerSecond : Z := 1000.

Definition Day (t : Z) : Z := t / msPerDay.
Definition TimeWithinDay (t : Z) : Z := t mod msPerDay.

Definition DaysInYear (y : Z) : Z :=
  if negb (y mod 4 =? 0) then 365
  else if negb (y mod 100 =? 0) then 366
  else if negb (y mod 400 =? 0) then 365
  else 366.

Definition DayFromYear (y : Z) : Z :=
  365 * (y - 1970) + (y - 1969) / 4 - (y - 1901) / 100 + (y - 1601) / 400.

Definition TimeFromYear (y : Z) : Z := msPerDay * DayFromYear y.

(** The largest [y] with [TimeFromYear y <= t]: an estimate from the mean
    year length, corrected by one year either way. *)
Definition YearFromTime (t : Z) : Z :=
  let d := Day t in
  let y := 1970 + d * 10000 / 3652425 in
  if d <? DayFromYear y then y - 1
  else if DayFromYear (y + 1) <=? d then y + 1
  else y.

Definition InLeapYear (t : Z) : Z :=
  if DaysInYear (YearFromTime t) =? 366 then 1 else 0.

Definition DayWithinYear (t : Z) : Z := Day t - DayFromYear (YearFromTime t).

(** Month number, 0 for January. *)
Definition MonthFromTime (t : Z) : Z :=
  let d := DayWithinYear t in
  let l := InLeapYear t in
  if d <? 31 then 0
  else if d <? 59 + l then 1
  else if d <? 90 + l then 2
  else if d <? 120 + l then 3
  else if d <? 151 + l then 4
  else if d <? 181 + l then 5
  else if d <? 212 + l then 6
  else if d <? 243 + l then 7
  else if d <? 273 + l then 8
  else if d <? 304 + l then 9
  else if d <? 334 + l then 10
  else 11.

(** Day of the month, from 1. *)
Definition DateFromTime (t : Z) : Z :=
  let d := DayWithinYear t in
  let l := InLeapYear t in
  match MonthFromTime t with
  | 0 => d + 1
  | 1 => d - 30
  | 2 => d - 58 - l
  | 3 => d - 89 - l
  | 4 => d - 119 - l
  | 5 => d - 150 - l
  | 6 => d - 180 - l
  | 7 => d - 211 - l
  | 8 => d - 242 - l
  | 9 => d - 272 - l
  | 10 => d - 303 - l
  | _ => d - 333 - l
  end.

Definition HourFromTime (t : Z) : Z := (t / msPerHour) mod 24.
Definition MinFromTime (t : Z) : Z := (t / msPerMinute) mod 60.
Definition SecFromTime (t : Z) : Z := (t / msPerSecond) mod 60.
Definition msFromTime (t : Z) : Z := t mod msPerSecond.

Definition MakeTime (hour min sec ms : Z) : Z :=
  hour * msPerHour + min * msPerMinute + sec * msPerSecond + ms.

(** Days before the first of month [m] (0 for January) in a year with
    [l] leap days. *)
Definition daysBeforeMonth (m l : Z) : Z :=
  match m with
  | 0 => 0
  | 1 => 31
  | 2 => 59 + l
  | 3 => 90 + l
  | 4 => 120 + l
  | 5 => 151 + l
  | 6 => 181 + l
  | 7 => 212 + l
  | 8 => 243 + l
  | 9 => 273 + l
  | 10 => 304 + l
  | _ => 334 + l
  end.

Definition DaysInMonth (y m : Z) : Z :=
  let l := if DaysInYear y =? 366 then 1 else 0 in
  match m with
  | 1 => 28 + l
  | 3 | 5 | 8 | 10 => 30
  | _ => 31
  end.

Definition MakeDay (year month date : Z) : Z :=
  let ym := year + month / 12 in
  let mn := month mod 12 in
  let l := if DaysInYear ym =? 366 then 1 else 0 in
  DayFromYear ym + daysBeforeMonth mn l + date - 1.

Definition MakeDate (day time : Z) : Z := day * msPerDay + time.

(** [TimeClip]: NaN beyond 8.64e15 ms on either side of the epoch. *)
Definition TimeClip (t : Z) : option Z :=
  if Z.abs t <=? 8640000000000000 then Some t else None.

(** *** The date-time string format

    [YYYY-MM-DD], alone (a UTC date) or followed by [THH:mm],
    [THH:mm:ss] or [THH:mm:ss.sss] and then by nothing (local time),
    [Z] or a [+HH:mm] / [-HH:mm] offset. *)

Definition readDigits (n : nat) (s : jsstring) : option (Z * jsstring) :=
  match match_prefix (digits n) s with
  | Some rest => Some (mathInt (firstn n s), rest)
  | None => None
  end.

Definition expect (c : N) (s : jsstring) : option jsstring :=
  match s with
  | x :: r => if (x =? c)%N then Some r else None
  | [] => None
  end.

(** The offset east of UTC, in ms; [Some None] when there is none. *)
Definition parseZone (s : jsstring) : option (option Z) :=
  match s with
  | [] => Some None
  | c :: r =>
      if (c =? cu "Z")%N then
        match r with
        | [] => Some (Some 0)
        | _ :: _ => None
        end
      else if ((c =? cu "+") || (c =? cu "-"))%N then
        match readDigits 2 r with
        | Some (h, r1) =>
            match expect (cu ":") r1 with
            | Some r2 =>
                match readDigits 2 r2 with
                | Some (m, []) =>
                    if (h <=? 23) && (m <=? 59) then
                      let off := h * msPerHour + m * msPerMinute in
                      Some (Some (if (c =? cu "-")%N then - off else off))
                    else None
                | _ => None
                end
            | None => None
            end
        | None => None
        end
      else None
  end.

(** Seconds and milliseconds after [HH:mm], and what is left. *)
Definition parseSeconds (s : jsstring) : option (Z * Z * jsstring) :=
  match expect (cu ":") s with
  | None => Some (0, 0, s)
  | Some r =>
      match readDigits 2 r with
      | None => None
      | Some (sec, r1) =>
          match expect (cu ".") r1 with
          | None => Some (sec, 0, r1)
          | Some r2 =>
              match readDigits 3 r2 with
              | Some (ms, r3) => Some (sec, ms, r3)
              | None => None
              end
          end
      end
  end.

(** The time of day in ms and the offset, from what follows the [T]. *)
Definition parseTime (s : jsstring) : option (Z * option Z) :=
  match readDigits 2 s with
  | Some (h, r1) =>
      match expect (cu ":") r1 with
      | Some r2 =>
          match readDigits 2 r2 with
          | Some (m, r3) =>
              match parseSeconds r3 with
              | Some (sec, ms, r4) =>
                  match parseZone r4 with
                  | Some zone =>
                      if (h <=? 23) && (m <=? 59) && (sec <=? 59)
                         || (h =? 24) && (m =? 0) && (sec =? 0) && (ms =? 0)
                      then Some (MakeTime h m sec ms, zone)
                      else None
                  | None => None
                  end
              | None => None
              end
          | None => None
          end
      | None => None
      end
  | None => None
  end.

Section WithHost.
Context {host : Host}.

(** The time value of a string in the format, before [TimeClip]; [None]
    for a string outside the format or with a field out of range. *)
Definition parseFormat (s : jsstring) : option Z :=
  match readDigits 4 s with
  | Some (y, r1) =>
      match expect (cu "-") r1 with
      | Some r2 =>
          match readDigits 2 r2 with
          | Some (mo, r3) =>
              match expect (cu "-") r3 with
              | Some r4 =>
                  match readDigits 2 r4 with
                  | Some (d, r5) =>
                      if (1 <=? mo) && (mo <=? 12) && (1 <=? d)
                         && (d <=? DaysInMonth y (mo - 1))
                      then
                        let day := MakeDay y (mo - 1) d in
                        match r5 with
                        | [] => Some (MakeDate day 0)
                        | c :: r6 =>
                            if (c =? cu "T")%N then
                              match parseTime r6 with
                              | Some (time, Some off) =>
                                  Some (MakeDate day time - off)
                              | Some (time, None) =>
                                  let t := MakeDate day time in
                                  Some (t - LocalTZA t)
                              | None => None
                              end
                            else None
                        end
                      else None
                  | None => None
                  end
              | None => None
              end
          | None => None
          end
      | None => None
      end
  | None => None
  end.

(** [Date.parse(s)], also the time value of [new Date(s)]; [None] is
    NaN, an invalid date. *)
Definition Date_parse (s : jsstring) : option Z :=
  match parseFormat s with
  | Some t => TimeClip t
  | None =>
      match Date_parse_legacy s with
      | Some t => TimeClip t
      | None => None
      end
  end.

(** A [Date] object is its time value. *)
Definition Date := option Z.

(** [new Date(s)] for a string [s] *)
Definition Date_of_string (s : jsstring) : Date := Date_parse s.

(** [new Date(n)] for a number [n] *)
Definition Date_of_number (n : number) : Date :=
  match n with
  | Int t => TimeClip t
  | _ => None
  end.

Definition getTime (d : Date) : number :=
  match d with
  | Some t => Int t
  | None => NaN
  end.

Definition getUTCFullYear (d : Date) : number :=
  match d with
  | Some t => Int (YearFromTime t)
  | None => NaN
  end.

Definition getUTCMonth (d : Date) : number :=
  match d with
  | Some t => Int (MonthFromTime t)
  | None => NaN
  end.

Definition getUTCDate (d : Date) : number :=
  match d with
  | Some t => Int (DateFromTime t)
  | None => NaN
  end.

(** A non-negative integer in at least [n] decimal digits. *)
Definition padded (n : nat) (z : Z) : jsstring :=
  padStart (decimal z) n "0".

(** The year of [toISOString]: four digits, or a sign and six digits
    outside 0..9999. *)
Definition isoYear (y : Z) : jsstring :=
  if (0 <=? y) && (y <=? 9999) then padded 4 y
  else js (if y <? 0 then "-" else "+") ++ padded 6 (Z.abs y).

(** [d.toISOString()] of the valid date with time value [t] (on an
    invalid date the method throws a RangeError). *)
Definition toISOString (t : Z) : jsstring :=
  isoYear (YearFromTime t)
  ++ js "-" ++ padded 2 (MonthFromTime t + 1)
  ++ js "-" ++ padded 2 (DateFromTime t)
  ++ js "T" ++ padded 2 (HourFromTime t)
  ++ js ":" ++ padded 2 (MinFromTime t)
  ++ js ":" ++ padded 2 (SecFromTime t)
  ++ js "." ++ padded 3 (msFromTime t) ++ js "Z".

End WithHost.

End ESDate.

(** ** The date normaliser, [parseFrenchDate], in its three versions

    The diagnostics written to the console are not part of the model. *)

(** [!s] for a string: true on the empty string only. *)
Definition isEmpty (s : jsstring) : bool :=
  match s with
  | [] => true
  | _ :: _ => false
  end.

(** [a[0]] of the array a [split] returns, which is never empty. *)
Definition first (parts : list jsstring) : jsstring := hd [] parts.

(** *** src/unnamed/part_000, lines 88-103 *)
Module Part000Date.
Section WithHost.
Context {host : Host}.

Definition parseFrenchDate (dateStr : jsstring) : option jsstring :=
  if isEmpty dateStr then None
  else
    match split (cu "/") dateStr with
    | [day; month; year] =>
        let date := ESDate.Date_of_string (year ++ js "-" ++ month ++ js "-" ++ day) in
        match date with
        | None => None                               (* isNaN(date.getTime()) *)
        | Some t => Some (first (split (cu "T") (ESDate.toISOString t)))
        end
    | _ => None
    end.

End WithHost.
End Part000Date.

(** The slash rule shared, word for word, by part_001 (lines 133-148)
    and firebase.ts (lines 463-478). *)
Section SlashRule.
Context {host : Host}.

Definition slashRule (trimmed : jsstring) : option jsstring :=
  match split (cu "/") trimmed with
  | [day; month; year] =>
      let dayNum := Num.parseInt day in
      let monthNum := Num.parseInt month in
      let yearNum := Num.parseInt year in
      if ge_int dayNum 1 && le_int dayNum 31
         && ge_int monthNum 1 && le_int monthNum 12
         && ge_int yearNum 1900
      then
        let paddedMonth := padStart (Num.toString monthNum) 2 "0" in
        let paddedDay := padStart (Num.toString dayNum) 2 "0" in
        Some (Num.toString yearNum ++ js "-" ++ paddedMonth
              ++ js "-" ++ paddedDay)
      else None
  | _ => None
  end.

End SlashRule.

(** *** src/unnamed/part_001, lines 115-152: a date-time value is cut at
    the time separator *)
Module Part001Date.
Section WithHost.
Context {host : Host}.

Definition parseFrenchDate (dateStr : jsstring) : option jsstring :=
  if isEmpty dateStr then None
  else
    let trimmed := trim dateStr in
    if isEmpty trimmed then None
    else if test_canonical trimmed then Some trimmed
    else if test_datetime trimmed then Some (first (split (cu "T") trimmed))
    else slashRule trimmed.

End WithHost.
End Part001Date.

(** *** src/client/lib/firebase.ts, lines 424-482: a date-time value is
    read as an instant and moved one hour ahead *)
Module FirebaseDate.
Section WithHost.
Context {host : Host}.

Definition shiftedDate (trimmed : jsstring) : jsstring :=
  let date := ESDate.Date_of_string trimmed in
  let moroccoDayMs := add_int (ESDate.getTime date) (1 * 60 * 60 * 1000) in
  let moroccoDate := ESDate.Date_of_number moroccoDayMs in
  let year := ESDate.getUTCFullYear moroccoDate in
  let month :=
    padStart (Num.toString (add_int (ESDate.getUTCMonth moroccoDate) 1)) 2 "0" in
  let day := padStart (Num.toString (ESDate.getUTCDate moroccoDate)) 2 "0" in
  Num.toString year ++ js "-" ++ month ++ js "-" ++ day.

Definition parseFrenchDate (dateStr : jsstring) : option jsstring :=
  if isEmpty dateStr then None
  else
    let trimmed := trim dateStr in
    if isEmpty trimmed then None
    else if test_canonical trimmed then Some trimmed
    else if test_datetime trimmed then Some (shiftedDate trimmed)
    else slashRule trimmed.

End WithHost.
End FirebaseDate.

(** ** Asynchronous code: a log of the remote calls, and exceptions *)

Module Eff.

Inductive Completion (E A : Type) : Type :=
| Normal (a : A)
| Throw (e : E).

Arguments Normal {E A} a.
Arguments Throw {E A} e.

(** A computation extends the log of the events of type [Ev] it caused
    and completes normally or throws a value of type [E]. *)
Record M (Ev E A : Type) : Type := Make {
  exec : list Ev -> Completion E A * list Ev
}.

Arguments Make {Ev E A} exec.
Arguments exec {Ev E A} m log.

Definition ret {Ev E A} (a : A) : M Ev E A :=
  Make (fun log => (Normal a, log)).

Definition throw {Ev E A} (e : E) : M Ev E A :=
  Make (fun log => (Throw e, log)).

Definition bind {Ev E A B} (m : M Ev E A) (k : A -> M Ev E B) : M Ev E B :=
  Make (fun log =>
    match exec m log with
    | (Normal a, log') => exec (k a) log'
    | (Throw e, log') => (Throw e, log')
    end).

(** [try { m } catch (error) { h error }] *)
Definition try_catch {Ev E A} (m : M Ev E A) (h : E -> M Ev E A)
  : M Ev E A :=
  Make (fun log =>
    match exec m log with
    | (Normal a, log') => (Normal a, log')
    | (Throw e, log') => exec (h e) log'
    end).

(** The same, where what the handler throws is of another kind than
    what it catches. *)
Definition try_handle {Ev E E' A} (m : M Ev E A) (h : E -> M Ev E' A)
  : M Ev E' A :=
  Make (fun log =>
    match exec m log with
    | (Normal a, log') => (Normal a, log')
    | (Throw e, log') => exec (h e) log'
    end).

Definition emit {Ev E} (e : Ev) : M Ev E unit :=
  Make (fun log => (Normal tt, log ++ [e])).

(** A value that may fail to be computed, as a computation. *)
Definition orThrow {Ev E A} (e : E) (o : option A) : M Ev E A :=
  match o with
  | Some a => ret a
  | None => throw e
  end.

(** The settled promise an [async] function returns, from an empty log. *)
Definition run {Ev E A} (m : M Ev E A) : Completion E A * list Ev :=
  exec m [].

End Eff.

Notation "x <- m ;; k" := (Eff.bind m (fun x => k))
  (at level 61, m at next level, right associativity).

(** ** The worker lookup *)

Module Lookup.

(** The request [fetch] sends. *)
Record Request := {
  url : jsstring;
  method : jsstring;
  accept : jsstring
}.

(** What comes back: the status and the body as text ([None] when
    reading the body fails). *)
Record Response := {
  status : Z;
  body : option jsstring
}.

(** [response.ok]: a status from 200 to 299. *)
Definition ok (r : Response) : bool :=
  (200 <=? status r) && (status r <=? 299).

(** The upstream service: a network error (the promise of [fetch]
    rejects with a TypeError) or a response. *)
Definition Upstream := Request -> option Response.

(** What the code can catch. *)
Inductive Exn := TypeError | SyntaxError | URIError | ReadError.

(** An asynchronous step of the lookup. *)
Definition Async (A : Type) : Type := Eff.M Request Exn A.

Section WithHost.
Context {host : Host}.

Definition value := json double.

(** [fetch(u, { method: 'GET', headers: { 'Accept': 'application/json' } })] *)
Definition fetch (net : Upstream) (u : jsstring) : Async Response :=
  let req := {| url := u; method := "GET"; accept := "application/json" |} in
  _ <- Eff.emit req ;;
  Eff.orThrow TypeError (net req).

(** [await response.text()] *)
Definition text (r : Response) : Async jsstring :=
  Eff.orThrow ReadError (body r).

(** [JSON.parse(t)] *)
Definition parse (t : jsstring) : Async value :=
  Eff.orThrow SyntaxError (JSON_parse t).

(** [await response.json()]: the body, read and parsed. *)
Definition json_of (r : Response) : Async value :=
  t <- text r ;;
  parse t.

(** [Array.isArray(v)] *)
Definition isArray (v : value) : bool :=
  match v with
  | JArr _ => true
  | _ => false
  end.

(** The elements of an array. *)
Definition items (v : value) : list value :=
  match v with
  | JArr l => l
  | _ => []
  end.

(** Truthiness of a value. *)
Definition truthy (v : value) : bool :=
  match v with
  | JNull => false
  | JBool b => b
  | JNum n => double_truthy n
  | JStr s => negb (isEmpty s)
  | JArr _ | JObj _ => true
  end.

(** [row[i]]; [None] is [undefined]. *)
Definition index (row : list value) (i : nat) : option value :=
  nth_error row i.

(** [v || ''] *)
Definition orEmpty (v : option value) : value :=
  match v with
  | Some x => if truthy x then x else JStr []
  | None => JStr []
  end.

Definition hasKey (k : jsstring) (members : list (jsstring * value)) : bool :=
  existsb (fun m => jsstring_eqb (fst m) k) members.

(** [String(v)]. An array is joined with commas, [null] items left
    blank; an object gives its default text unless a member shadows
    [toString], and then the conversion throws a TypeError ([None]). *)
Fixpoint toStr (v : value) : option jsstring :=
  match v with
  | JNull => Some (js "null")
  | JBool b => Some (js (if b then "true" else "false"))
  | JNum n => Some (double_toString n)
  | JStr s => Some s
  | JArr items =>
      (fix join (l : list value) : option jsstring :=
         match l with
         | [] => Some []
         | x :: r =>
             let item := match x with
                         | JNull => Some []
                         | _ => toStr x
                         end in
             match item, r with
             | None, _ => None
             | Some sx, [] => Some sx
             | Some sx, _ :: _ =>
                 match join r with
                 | Some sr => Some (sx ++ js "," ++ sr)
                 | None => None
                 end
             end
         end) items
  | JObj members =>
      if hasKey "toString" members then None else Some (js "[object Object]")
  end.

Definition String_ (v : value) : Async jsstring :=
  Eff.orThrow TypeError (toStr v).

(** The endpoint with the trimmed term as its [search] parameter. *)
Definition searchUrl (base searchValue : jsstring) : Async jsstring :=
  q <- Eff.orThrow URIError (encodeURIComponent (trim searchValue)) ;;
  Eff.ret (base ++ js "?search=" ++ q).

End WithHost.
End Lookup.

(** *** src/unnamed/part_000, lines 1-81 *)
Module Part000.
Import Lookup.

Record GoogleSheetWorker := {
  matricule : jsstring;
  nom_complet : jsstring;
  cin : jsstring;
  date_entree : jsstring
}.

Definition GOOGLE_SCRIPT_URL : jsstring :=
  "https://script.google.com/macros/s/AKfycbwWdJe14BQLOrmwbwerjU6HyGQh-G13nKS1g1JHBk6VY8-4BdE7VzkthtR1fBvD5M3s-g/exec".

Section WithHost.
Context {host : Host}.

(** Lines 47-76: from the parsed document to the record. *)
Definition workerOf (data : value) : Async (option GoogleSheetWorker) :=
  if negb (truthy data) || negb (isArray data)
     || (List.length (items data) =? 0)%nat
  then Eff.ret None
  else
    match index (items data) 0 with
    | Some (JArr row) =>
        if (List.length row <? 14)%nat then Eff.ret None
        else
          m <- String_ (orEmpty (index row 0)) ;;
          n <- String_ (orEmpty (index row 2)) ;;
          c <- String_ (orEmpty (index row 3)) ;;
          d <- String_ (orEmpty (index row 13)) ;;
          let worker := {| matricule := m; nom_complet := n; cin := c;
                           date_entree := d |} in
          if isEmpty (matricule worker) && isEmpty (cin worker)
          then Eff.ret None
          else Eff.ret (Some worker)
    | _ => Eff.ret None                              (* !Array.isArray(row) *)
    end.

Definition searchWorkerInGoogleSheet (net : Upstream) (searchValue : jsstring)
  : Async (option GoogleSheetWorker) :=
  if isEmpty searchValue || (List.length (trim searchValue) =? 0)%nat
  then Eff.ret None
  else
    Eff.try_catch
      (u <- searchUrl GOOGLE_SCRIPT_URL searchValue ;;
       response <- fetch net u ;;
       if negb (ok response) then Eff.ret None
       else
         data <- json_of response ;;
         workerOf data)
      (fun error => Eff.ret None).

End WithHost.
End Part000.

(** *** src/unnamed/part_001, lines 1-107 *)
Module Part001.
Import Lookup.

Record GoogleSheetWorker := {
  matricule : jsstring;
  nom_complet : jsstring;
  cin : jsstring;
  date_entree : jsstring
}.

Definition GOOGLE_SCRIPT_URL : jsstring :=
  "https://script.google.com/macros/s/AKfycby9HLiqYrDEV8yKeNji3UIFsm3DeeKgiAgBVygCOP7Vl2YG8VFeDUXQepfgcgYau8tHSg/exec".

Section WithHost.
Context {host : Host}.

(** Lines 65-95: from the parsed document to the record. *)
Definition workerOf (data : value) : Async (option GoogleSheetWorker) :=
  if negb (truthy data) || negb (isArray data)
     || (List.length (items data) =? 0)%nat
  then Eff.ret None
  else
    match index (items data) 0 with
    | Some (JArr row) =>
        if (List.length row <? 14)%nat then Eff.ret None
        else
          m <- String_ (orEmpty (index row 0)) ;;
          n <- String_ (orEmpty (index row 2)) ;;
          c <- String_ (orEmpty (index row 3)) ;;
          d <- String_ (orEmpty (index row 13)) ;;
          let worker := {| matricule := m; nom_complet := n; cin := c;
                           date_entree := d |} in
          if isEmpty (matricule worker) && isEmpty (cin worker)
          then Eff.ret None
          else Eff.ret (Some worker)
    | _ => Eff.ret None                              (* !Array.isArray(row) *)
    end.

Definition searchWorkerInGoogleSheet (net : Upstream) (searchValue : jsstring)
  : Async (option GoogleSheetWorker) :=
  if isEmpty searchValue || (List.length (trim searchValue) =? 0)%nat
  then Eff.ret None
  else
    Eff.try_catch
      (u <- searchUrl GOOGLE_SCRIPT_URL searchValue ;;
       response <- fetch net u ;;
       if negb (ok response) then Eff.ret None
       else
         t <- text response ;;
         if isEmpty t then Eff.ret None
         else
           data <- parse t ;;
           workerOf data)
      (fun error => Eff.ret None).

End WithHost.
End Part001.

(** *** src/client/lib/firebase.ts, lines 290-416: the gender-aware
    lookup *)
Module GenderLookup.
Import Lookup.

Record GoogleSheetWorker := {
  matricule : jsstring;
  nom_complet : jsstring;
  cin : jsstring;
  sexe : jsstring;
  date_entree : jsstring
}.

Definition GOOGLE_SCRIPT_URL : jsstring :=
  "https://script.google.com/macros/s/AKfycby9HLiqYrDEV8yKeNji3UIFsm3DeeKgiAgBVygCOP7Vl2YG8VFeDUXQepfgcgYau8tHSg/exec".

Section WithHost.
Context {host : Host}.

Definition convertGenderCode (code : value) : Async jsstring :=
  s <- String_ (orEmpty (Some code)) ;;
  let upperCode := trim (toUpperCase s) in
  if jsstring_eqb upperCode "H" then Eff.ret (js "homme")
  else if jsstring_eqb upperCode "M" then Eff.ret (js "femme")
  else Eff.ret (js "").

(** Lines 367-404: from the parsed document to the record. *)
Definition workerOf (data : value) : Async (option GoogleSheetWorker) :=
  if negb (truthy data) || negb (isArray data)
     || (List.length (items data) =? 0)%nat
  then Eff.ret None
  else
    match index (items data) 0 with
    | Some (JArr row) =>
        if (List.length row <? 14)%nat then Eff.ret None
        else
          m <- String_ (orEmpty (index row 0)) ;;
          n <- String_ (orEmpty (index row 2)) ;;
          c <- String_ (orEmpty (index row 3)) ;;
          g <- convertGenderCode (orEmpty (index row 4)) ;;
          d <- String_ (orEmpty (index row 13)) ;;
          let worker := {| matricule := m; nom_complet := n; cin := c;
                           sexe := g; date_entree := d |} in
          if isEmpty (matricule worker) && isEmpty (cin worker)
          then Eff.ret None
          else Eff.ret (Some worker)
    | _ => Eff.ret None                              (* !Array.isArray(row) *)
    end.

Definition searchWorkerInGoogleSheet (net : Upstream) (searchValue : jsstring)
  : Async (option GoogleSheetWorker) :=
  if isEmpty searchValue || (List.length (trim searchValue) =? 0)%nat
  then Eff.ret None
  else
    Eff.try_catch
      (u <- searchUrl GOOGLE_SCRIPT_URL searchValue ;;
       response <- fetch net u ;;
       if negb (ok response) then Eff.ret None
       else
         t <- text response ;;
         if isEmpty t then Eff.ret None
         else
           data <- parse t ;;
           workerOf data)
      (fun error => Eff.ret None).

End WithHost.
End GenderLookup.

(** ** The connectivity probe: src/client/lib/firebase.ts, lines 60-156 *)

Module Firebase.

(** An error object, with optional [code], [message] and [name]: each
    is absent (undefined or null) or a string, as in the errors of the
    Firestore client and of the timer. An object with a field of
    another kind is outside the model. *)
Record ProbeError := {
  code : option jsstring;
  message : option jsstring;
  name : option jsstring
}.

(** How the race of [getDoc] against the 30 second timer settles: it
    is fulfilled, or rejected with an error object, or rejected with
    null or undefined. *)
Inductive Settled := Fulfilled | Rejected (e : ProbeError) | RejectedNullish.

(** What a [catch] receives ([error: any]): an error object, or null or
    undefined. *)
Inductive Caught := Nullish | ErrorObject (e : ProbeError).

(** What escapes a function: the TypeError the engine throws when a
    handler reads a property of null or undefined. *)
Inductive Escaped := PropertyOfNullish.

(** The rejection of the timer: [new Error('Connection timeout')]. *)
Definition timeoutError : ProbeError :=
  {| code := None; message := Some (js "Connection timeout");
     name := Some (js "Error") |}.

(** What one attempt finds: [navigator.onLine], whether
    [auth.currentUser] is set, and how the race would settle. *)
Record Observation := {
  onLine : bool;
  currentUser : bool;
  race : Settled
}.

(** The platform, attempt by attempt, indexed by [retryCount]. *)
Definition Platform := nat -> Observation.

(** The remote read and the pause between attempts. *)
Inductive Event :=
| GetDoc (collection document : jsstring)
| Wait (ms : Z).

Record Result := {
  success : bool;
  error : option jsstring
}.

Definition Async (A : Type) : Type := Eff.M Event Escaped A.

(** The body of a [try]. *)
Definition Tried (A : Type) : Type := Eff.M Event Caught A.

Definition succeeded : Result := {| success := true; error := None |}.

Definition failed (msg : jsstring) : Result :=
  {| success := false; error := Some msg |}.

(** [await Promise.race([getDoc(testDoc), timeoutPromise])] *)
Definition getDocRace (o : Observation) : Tried unit :=
  _ <- Eff.emit (GetDoc "app_config" "connection_test") ;;
  match race o with
  | Fulfilled => Eff.ret tt
  | Rejected e => Eff.throw (ErrorObject e)
  | RejectedNullish => Eff.throw Nullish
  end.

(** [error.code === c] *)
Definition codeIs (e : ProbeError) (c : jsstring) : bool :=
  match code e with
  | Some x => jsstring_eqb x c
  | None => false
  end.

(** [error.name === n] *)
Definition nameIs (e : ProbeError) (n : jsstring) : bool :=
  match name e with
  | Some x => jsstring_eqb x n
  | None => false
  end.

(** [error.message?.includes(p)], as a condition *)
Definition messageIncludes (e : ProbeError) (p : jsstring) : bool :=
  match message e with
  | Some m => includes p m
  | None => false
  end.

Definition maxRetries : nat := 3.

(** Lines 130-142 *)
Definition errorMessageOf (e : ProbeError) : jsstring :=
  match code e with
  | Some (c :: r) => js "Firebase error: " ++ (c :: r)
  | _ =>
      if messageIncludes e "timeout"
      then js "Connection timeout - server may be slow, retrying..."
      else if messageIncludes e "fetch" || messageIncludes e "Failed to fetch"
      then js "Network connectivity issue - check your internet connection"
      else if nameIs e "TypeError" && messageIncludes e "fetch"
      then js "Network error - try refreshing the page"
      else js "Connection failed"
  end.

(** The condition of line 145 on the error. *)
Definition transient (e : ProbeError) : bool :=
  messageIncludes e "timeout" || messageIncludes e "fetch"
  || messageIncludes e "Failed to fetch".

(** [2000 * Math.pow(2, retryCount)] *)
Definition delay (retryCount : nat) : Z := 2000 * 2 ^ Z.of_nat retryCount.

(** Lines 64-96: the body of the [try]. *)
Definition attempt (o : Observation) : Tried Result :=
  if negb (onLine o) then Eff.ret (failed "Device is offline")
  else if negb (currentUser o) then Eff.ret succeeded
  else
    _ <- getDocRace o ;;
    Eff.ret succeeded.

Equations? testFirebaseConnection (platform : Platform) (retryCount : nat)
  : Async Result by wf (maxRetries - retryCount)%nat lt :=
testFirebaseConnection platform retryCount :=
  Eff.try_handle
    (attempt (platform retryCount))
    (fun caught =>
       match caught with
       | Nullish => Eff.throw PropertyOfNullish      (* [error.code] *)
       | ErrorObject error =>
           if codeIs error "permission-denied" then
             Eff.ret (failed
               "Firestore rules not deployed. Deploy rules via Firebase Console.")
           else if codeIs error "failed-precondition" then
             Eff.ret (failed
               "Firestore database not created - please initialize database in Firebase Console")
           else if codeIs error "unavailable" then
             Eff.ret (failed
               "Firebase backend temporarily unavailable. Client will operate in offline mode.")
           else
             let errorMessage := errorMessageOf error in
             match transient error, lt_dec retryCount maxRetries with
             | true, left _ =>
                 _ <- Eff.emit (Wait (delay retryCount)) ;;
                 testFirebaseConnection platform (retryCount + 1)
             | _, _ => Eff.ret (failed errorMessage)
             end
       end).
Proof.
  unfold maxRetries in *.
  destruct retryCount as [|[|[|n]]]; simpl; lia.
Qed.

End Firebase.

(** ** Vocabulary of the statements *)

(** The rule of [parseFrenchDate] (part_001 and firebase.ts) an input
    falls under: the tests of the function, in its order. *)
Inductive Shape := Blank | Canonical | DateTime | Slash | Other.

Definition shapeOf (s : jsstring) : Shape :=
  let trimmed := trim s in
  if isEmpty trimmed then Blank
  else if test_canonical trimmed then Canonical
  else if test_datetime trimmed then DateTime
  else if (List.length (split (cu "/") trimmed) =? 3)%nat then Slash
  else Other.

(** The range test of the slash rule. *)
Definition inRange (dayNum monthNum yearNum : number) : bool :=
  ge_int dayNum 1 && le_int dayNum 31
  && ge_int monthNum 1 && le_int monthNum 12
  && ge_int yearNum 1900.

(** A number below 100 in two decimal digits. *)
Definition twoDigits (n : Z) : jsstring :=
  [Z.to_N (48 + n / 10); Z.to_N (48 + n mod 10)].

(** [parseFrenchDate] applied to a result of [parseFrenchDate]: [null]
    is falsy and gives [null]. *)
Definition again (f : jsstring -> option jsstring) (r : option jsstring)
  : option jsstring :=
  match r with
  | Some y => f y
  | None => None
  end.

(** The UTC calendar date of a time value, as [YYYY-MM-DD]. *)
Definition calendarDate {host : Host} (t : Z) : jsstring :=
  Num.toString (Int (ESDate.YearFromTime t))
  ++ js "-" ++ twoDigits (ESDate.MonthFromTime t + 1)
  ++ js "-" ++ twoDigits (ESDate.DateFromTime t).

(** A decimal digit as a code unit. *)
Definition digitChar (n : Z) : N := Z.to_N (48 + n).

(** A number below 1000 in three digits, below 10000 in four. *)
Definition threeDigits (n : Z) : jsstring :=
  [digitChar (n / 100); digitChar (n / 10 mod 10); digitChar (n mod 10)].

Definition fourDigits (n : Z) : jsstring :=
  [digitChar (n / 1000); digitChar (n / 100 mod 10);
   digitChar (n / 10 mod 10); digitChar (n mod 10)].

(** A UTC timestamp as [toISOString] writes it:
    [YYYY-MM-DDTHH:mm:ss.sssZ]. *)
Definition stamp (y mo d hh mi ss ms : Z) : jsstring :=
  fourDigits y ++ js "-" ++ twoDigits mo ++ js "-" ++ twoDigits d
  ++ js "T" ++ twoDigits hh ++ js ":" ++ twoDigits mi ++ js ":"
  ++ twoDigits ss ++ js "." ++ threeDigits ms ++ js "Z".

(** Its fields name a day of the calendar and a time of that day. *)
Definition validStamp (y mo d hh mi ss ms : Z) : Prop :=
  0 <= y <= 9999 /\ 1 <= mo <= 12 /\ 1 <= d <= ESDate.DaysInMonth y (mo - 1)
  /\ 0 <= hh <= 23 /\ 0 <= mi <= 59 /\ 0 <= ss <= 59 /\ 0 <= ms <= 999.

(** The day after a date. *)
Definition nextDay (y mo d : Z) : Z * Z * Z :=
  if d <? ESDate.DaysInMonth y (mo - 1) then (y, mo, d + 1)
  else if mo <? 12 then (y, mo + 1, 1)
  else (y + 1, 1, 1).

(** A date as the template of firebase.ts writes it: the year as a
    number, month and day in two digits. *)
Definition dateText {host : Host} (y mo d : Z) : jsstring :=
  Num.toString (Int y) ++ js "-" ++ twoDigits mo ++ js "-" ++ twoDigits d.

(** The largest time value. *)
Definition maxTime : Z := 8640000000000000.

(** What every character matched by the date pattern satisfies. *)
Definition date_char (c : N) : bool := is_digit c || (c =? cu "-")%N.

(** The number of separators [c] in a string. *)
Definition occurrences (c : N) (s : jsstring) : nat :=
  List.length (filter (fun x => (x =? c)%N) s).

(** What a [catch] that returns [null] makes of a settled body. *)
Definition caught {A : Type}
  (c : Eff.Completion Lookup.Exn (option A) * list Lookup.Request)
  : Eff.Completion Lookup.Exn (option A) * list Lookup.Request :=
  match c with
  | (Eff.Normal a, log) => (Eff.Normal a, log)
  | (Eff.Throw _, log) => (Eff.Normal None, log)
  end.

(** A document that is no array of rows with a long enough first row. *)
Definition rowsRejected {host : Host} (d : Lookup.value) : Prop :=
  Lookup.isArray d = false
  \/ d = JArr []
  \/ (exists row rest, d = JArr (JArr row :: rest)
                       /\ (List.length row < 14)%nat)
  \/ (exists x rest, d = JArr (x :: rest) /\ Lookup.isArray x = false).

(** The error codes the probe reports at once, without a retry. *)
Definition terminalCode (e : Firebase.ProbeError) : bool :=
  Firebase.codeIs e "permission-denied"
  || Firebase.codeIs e "failed-precondition"
  || Firebase.codeIs e "unavailable".

(** An error the probe retries on: no terminal code, and a message
    that names a timeout or a fetch failure. *)
Definition retryable (e : Firebase.ProbeError) : bool :=
  negb (terminalCode e) && Firebase.transient e.

(** A timeout or transport failure, by what the error says: its message
    mentions a timeout or a fetch. *)
Definition timeoutOrTransport (e : Firebase.ProbeError) : bool :=
  match Firebase.message e with
  | Some m => includes "timeout" m || includes "fetch" m
  | None => false
  end.

(** The error carries one of the codes [cs]. *)
Definition codeAmong (e : Firebase.ProbeError) (cs : list jsstring) : bool :=
  match Firebase.code e with
  | Some c => existsb (jsstring_eqb c) cs
  | None => false
  end.

(** The three codes with a diagnostic of their own. *)
Definition configurationCodes : list jsstring :=
  [js "permission-denied"; js "failed-precondition"; js "unavailable"].

(** The pauses in a log, in order. *)
Definition waits (log : list Firebase.Event) : list Z :=
  flat_map (fun ev => match ev with
                      | Firebase.Wait ms => [ms]
                      | Firebase.GetDoc _ _ => []
                      end) log.

(** The remote reads in a log. *)
Definition reads (log : list Firebase.Event) : nat :=
  List.length (filter (fun ev => match ev with
                                 | Firebase.GetDoc _ _ => true
                                 | Firebase.Wait _ => false
                                 end) log).

(** The three diagnostics of the terminal codes, and the offline one. *)
Definition rulesMessage : jsstring :=
  "Firestore rules not deployed. Deploy rules via Firebase Console.".

Definition databaseMessage : jsstring :=
  "Firestore database not created - please initialize database in Firebase Console".

Definition unavailableMessage : jsstring :=
  "Firebase backend temporarily unavailable. Client will operate in offline mode.".

(** An attempt that gets as far as the remote read and fails there with
    an error the probe retries on. *)
Definition failsRetryably (o : Firebase.Observation) : Prop :=
  Firebase.onLine o = true /\ Firebase.currentUser o = true
  /\ exists e, Firebase.race o = Firebase.Rejected e /\ retryable e = true.

(** An attempt that gets as far as the remote read and fails there with
    a timeout or transport failure that carries none of the three
    codes. *)
Definition failsInTransport (o : Firebase.Observation) : Prop :=
  Firebase.onLine o = true /\ Firebase.currentUser o = true
  /\ exists e, Firebase.race o = Firebase.Rejected e
               /\ timeoutOrTransport e = true
               /\ codeAmong e configurationCodes = false.

(** The one remote read of an attempt. *)
Definition theRead : Firebase.Event :=
  Firebase.GetDoc "app_config" "connection_test".

(** The reads and pauses of [n] failed attempts from [retryCount] on. *)
Definition retries (retryCount n : nat) : list Firebase.Event :=
  flat_map (fun k => [theRead; Firebase.Wait (Firebase.delay k)])
    (seq retryCount n).

(** ** Sample hosts and environments *)

(** The request of a lookup for the encoded term [q] at [base]. *)
Definition lookupRequest (base q : jsstring) : Lookup.Request :=
  {| Lookup.url := base ++ js "?search=" ++ q;
     Lookup.method := "GET";
     Lookup.accept := "application/json" |}.

(** The failure conditions of the lookup, on what the upstream answers. *)
Inductive Failure {host : Host} : option Lookup.Response -> Prop :=
| NonOkStatus (r : Lookup.Response) :
    Lookup.ok r = false -> Failure (Some r)
| EmptyBody (r : Lookup.Response) :
    Lookup.body r = Some [] -> Failure (Some r)
| MalformedJson (r : Lookup.Response) (t : jsstring) :
    Lookup.body r = Some t -> JSON_parse t = None -> Failure (Some r)
| NotAnArray (r : Lookup.Response) (t : jsstring) (d : Lookup.value) :
    Lookup.body r = Some t -> JSON_parse t = Some d ->
    Lookup.isArray d = false -> Failure (Some r)
| EmptyArray (r : Lookup.Response) (t : jsstring) :
    Lookup.body r = Some t -> JSON_parse t = Some (JArr []) ->
    Failure (Some r)
| ShortRow (r : Lookup.Response) (t : jsstring)
    (row rest : list Lookup.value) :
    Lookup.body r = Some t ->
    JSON_parse t = Some (JArr (JArr row :: rest)) ->
    (List.length row < 14)%nat -> Failure (Some r)
| RowNotArray (r : Lookup.Response) (t : jsstring) (x : Lookup.value)
    (rest : list Lookup.value) :
    Lookup.body r = Some t ->
    JSON_parse t = Some (JArr (x :: rest)) ->
    Lookup.isArray x = false -> Failure (Some r).

(** ** Sample hosts and environments *)

(** A host for running examples: integer doubles, a JSON parser that
    knows no document, identity encoders, UTC as the local zone. *)
Definition plainHost : Host := {|
  double := Z;
  double_truthy := fun z => negb (z =? 0);
  double_toString := decimal;
  JSON_parse := fun _ => None;
  JSON_parse_empty := eq_refl;
  encodeURIComponent := fun s => Some s;
  toUpperCase := fun s => s;
  approxInt := Int;
  exponential := decimal;
  LocalTZA := fun _ => 0;
  Date_parse_legacy := fun _ => None
|}.

(** The JSON text of a document whose strings need no escape. *)
Fixpoint stringify (v : json Z) : jsstring :=
  match v with
  | JNull => js "null"
  | JBool b => js (if b then "true" else "false")
  | JNum n => decimal n
  | JStr s => [34%N] ++ s ++ [34%N]
  | JArr l =>
      js "[" ++
      (fix elements (l : list (json Z)) : jsstring :=
         match l with
         | [] => []
         | [x] => stringify x
         | x :: r => stringify x ++ js "," ++ elements r
         end) l
      ++ js "]"
  | JObj ms =>
      js "{" ++
      (fix members (ms : list (jsstring * json Z)) : jsstring :=
         match ms with
         | [] => []
         | [(k, x)] => [34%N] ++ k ++ [34%N] ++ js ":" ++ stringify x
         | (k, x) :: r =>
             [34%N] ++ k ++ [34%N] ++ js ":" ++ stringify x ++ js ","
             ++ members r
         end) ms
      ++ js "}"
  end.

(** The row of the specification's example: fourteen fields. *)
Definition sampleRow : list (json Z) :=
  [JStr "M123"; JStr "x"; JStr "Jane Doe"; JStr "CIN99"; JStr "H";
   JNull; JNull; JNull; JNull; JNull; JNull; JNull; JNull;
   JStr "15/06/2020"].

Definition sampleRows : json Z := JArr [JArr sampleRow].

Definition sampleDocuments : list (json Z) :=
  [sampleRows;
   JArr [];
   JArr [JArr [JStr "M123"; JStr "x"; JStr "Jane Doe"; JStr "CIN99"]];
   JArr [JStr "M123"];
   JObj [(js "error", JStr "no sheet")]].

(** A host whose JSON parser reads the sample documents, each from its
    own text, and nothing else. *)
Definition sampleHost : Host := {|
  double := Z;
  double_truthy := fun z => negb (z =? 0);
  double_toString := decimal;
  JSON_parse := fun t =>
    find (fun d => jsstring_eqb (stringify d) t) sampleDocuments;
  JSON_parse_empty := eq_refl;
  encodeURIComponent := fun s => Some s;
  toUpperCase := fun s => s;
  approxInt := Int;
  exponential := decimal;
  LocalTZA := fun _ => 0;
  Date_parse_legacy := fun _ => None
|}.

(** An upstream that answers every request with one status and body. *)
Definition answering (st : Z) (text : jsstring) : Lookup.Upstream :=
  fun _ => Some {| Lookup.status := st; Lookup.body := Some text |}.

(** A platform on which every attempt times out. *)
Definition timingOut : Firebase.Platform :=
  fun _ => {| Firebase.onLine := true;
              Firebase.currentUser := true;
              Firebase.race := Firebase.Rejected Firebase.timeoutError |}.

(** A platform on which the read is refused with the error code [c]. *)
Definition refusing (c : jsstring) : Firebase.Platform :=
  fun _ => {| Firebase.onLine := true;
              Firebase.currentUser := true;
              Firebase.race := Firebase.Rejected
                {| Firebase.code := Some c;
                   Firebase.message := Some (js "Missing or insufficient permissions.");
                   Firebase.name := Some (js "FirebaseError") |} |}.

(** A platform on which every read is rejected with the error [e]. *)
Definition failingWith (e : Firebase.ProbeError) : Firebase.Platform :=
  fun _ => {| Firebase.onLine := true;
              Firebase.currentUser := true;
              Firebase.race := Firebase.Rejected e |}.

(** The error of a [fetch] that fails, and an error of the client with
    the code [unavailable] whose message names that failure. *)
Definition fetchError : Firebase.ProbeError :=
  {| Firebase.code := None;
     Firebase.message := Some (js "Failed to fetch");
     Firebase.name := Some (js "TypeError") |}.

Definition unavailableError : Firebase.ProbeError :=
  {| Firebase.code := Some (js "unavailable");
     Firebase.message := Some (js "Failed to fetch");
     Firebase.name := Some (js "FirebaseError") |}.

(** A platform that is online with nobody signed in. *)
Definition signedOut : Firebase.Platform :=
  fun _ => {| Firebase.onLine := true;
              Firebase.currentUser := false;
              Firebase.race := Firebase.Fulfilled |}.

(** ** Recovery of the connection: src/client/lib/firebase.ts,
    lines 158-196 *)

Module Recovery.
Import Firebase.

(** How the Firestore client settles a request to switch its network
    layer on or off: granted, refused with an error object, or refused
    with null or undefined. *)
Record Sdk := {
  enableNetwork : Settled;
  disableNetwork : Settled
}.

(** The calls on the client, and the events of a probe run inside. *)
Inductive Event :=
| EnableNetwork
| DisableNetwork
| Probe (e : Firebase.Event).

Definition Async (A : Type) : Type := Eff.M Event Escaped A.

(** A computation over one kind of event run inside another: its events
    are appended, tagged, to the log of the caller. *)
Definition embed {Ev Ev' E A : Type} (tag : Ev -> Ev') (m : Eff.M Ev E A)
  : Eff.M Ev' E A :=
  Eff.Make (fun log =>
    let '(c, events) := Eff.exec m [] in (c, log ++ map tag events)).

(** [await enableNetwork(db)] and [await disableNetwork(db)] *)
Definition call (ev : Event) (s : Settled) : Eff.M Event Caught unit :=
  _ <- Eff.emit ev ;;
  match s with
  | Fulfilled => Eff.ret tt
  | Rejected e => Eff.throw (ErrorObject e)
  | RejectedNullish => Eff.throw Nullish
  end.

(** Lines 159-172 *)
Definition attemptConnectionRecovery (sdk : Sdk) (platform : Platform)
  : Async Result :=
  _ <- Eff.try_handle (call EnableNetwork (enableNetwork sdk))
         (fun error => Eff.ret tt) ;;
  embed Probe (testFirebaseConnection platform 0).

(** [{ success: false, error: error.message }] in a [catch] *)
Definition failureOf (caught : Caught) : Async Result :=
  match caught with
  | Nullish => Eff.throw PropertyOfNullish           (* [error.message] *)
  | ErrorObject error =>
      Eff.ret {| success := false; error := message error |}
  end.

(** Lines 175-184 *)
Definition forceOfflineMode (sdk : Sdk) : Async Result :=
  Eff.try_handle
    (_ <- call DisableNetwork (disableNetwork sdk) ;;
     Eff.ret {| success := true; error := None |})
    failureOf.

(** Lines 187-196 *)
Definition forceOnlineMode (sdk : Sdk) : Async Result :=
  Eff.try_handle
    (_ <- call EnableNetwork (enableNetwork sdk) ;;
     Eff.ret {| success := true; error := None |})
    failureOf.

End Recovery.

(** ** Clearing the browser's storage: src/client/lib/firebase.ts,
    lines 211-287 *)

Module Reset.

(** An address: what precedes the query, the query as the list of its
    name-value pairs, and the fragment. *)
Record Url := {
  base : jsstring;
  query : list (jsstring * jsstring);
  fragment : jsstring
}.

(** [searchParams.delete(name)] *)
Definition removeParam (name : jsstring) (q : list (jsstring * jsstring))
  : list (jsstring * jsstring) :=
  filter (fun p => negb (jsstring_eqb (fst p) name)) q.

(** [searchParams.set(name, value)]: the first pair of that name takes
    the value and the others go; without one, a pair is appended. *)
Fixpoint setParam (name value : jsstring) (q : list (jsstring * jsstring))
  : list (jsstring * jsstring) :=
  match q with
  | [] => [(name, value)]
  | (n, v) :: r =>
      if jsstring_eqb n name then (name, value) :: removeParam name r
      else (n, v) :: setParam name value r
  end.

(** [searchParams.get(name)] *)
Definition getParam (name : jsstring) (q : list (jsstring * jsstring))
  : option jsstring :=
  match find (fun p => jsstring_eqb (fst p) name) q with
  | Some p => Some (snd p)
  | None => None
  end.

Definition withParam (name value : jsstring) (u : Url) : Url :=
  {| base := base u; query := setParam name value (query u);
     fragment := fragment u |}.

(** What the browser holds and how its operations settle: whether each
    [clear()] returns ([false]: it throws); for each of the three
    optional interfaces, [None] when the browser lacks it, [Some None]
    when its listing fails, and else what it lists, each item with
    whether its removal succeeds. *)
Record Browser := {
  localStorageClears : bool;
  sessionStorageClears : bool;
  indexedDB : option (option (list (jsstring * bool)));
  serviceWorker : option (option (list (jsstring * bool)));
  caches : option (option (list (jsstring * bool)));
  href : Url;
  now : Z
}.

Inductive Event :=
| ClearLocalStorage
| ClearSessionStorage
| Reload
| ListDatabases
| DeleteDatabase (name : jsstring)
| GetRegistrations
| Unregister (scope : jsstring)
| CacheKeys
| CacheDelete (name : jsstring)
| Navigate (target : Url).

(** What is thrown is only logged: one value stands for all of it. *)
Inductive Thrown := Failed.

Definition Run (A : Type) : Type := Eff.M Event Thrown A.

(** An operation that returns or throws. *)
Definition attempt (ev : Event) (okay : bool) : Run unit :=
  _ <- Eff.emit ev ;;
  if okay then Eff.ret tt else Eff.throw Failed.

(** Every request of a [map] goes out. *)
Fixpoint requests (evs : list Event) : Run unit :=
  match evs with
  | [] => Eff.ret tt
  | ev :: r => _ <- Eff.emit ev ;; requests r
  end.

(** [await Promise.all(items.map(request))]: all requests go out, and
    the wait fails when one of them does. *)
Definition requestAll (request : jsstring -> Event)
  (items : list (jsstring * bool)) : Run unit :=
  _ <- requests (map (fun i => request (fst i)) items) ;;
  if forallb snd items then Eff.ret tt else Eff.throw Failed.

(** One of the optional interfaces: its listing, then the removal of
    all it lists. *)
Definition clearAll (listing : Event) (request : jsstring -> Event)
  (interface : option (option (list (jsstring * bool)))) : Run unit :=
  match interface with
  | None => Eff.ret tt
  | Some listed =>
      _ <- Eff.emit listing ;;
      items <- Eff.orThrow Failed listed ;;
      requestAll request items
  end.

(** Lines 212-231 *)
Definition emergencyFirebaseRecovery (b : Browser) : Run unit :=
  _ <- Eff.try_catch (attempt ClearLocalStorage (localStorageClears b))
         (fun e => Eff.ret tt) ;;
  _ <- Eff.try_catch (attempt ClearSessionStorage (sessionStorageClears b))
         (fun e => Eff.ret tt) ;;
  Eff.emit Reload.

Section WithHost.
Context {host : Host}.

(** Lines 239-277 *)
Definition clearStorage (b : Browser) : Run unit :=
  Eff.try_catch
    (_ <- attempt ClearLocalStorage (localStorageClears b) ;;
     _ <- attempt ClearSessionStorage (sessionStorageClears b) ;;
     _ <- clearAll ListDatabases DeleteDatabase (indexedDB b) ;;
     _ <- clearAll GetRegistrations Unregister (serviceWorker b) ;;
     _ <- clearAll CacheKeys CacheDelete (caches b) ;;
     Eff.ret tt)
    (fun error => Eff.ret tt).

(** Lines 234-287 *)
Definition aggressiveFirebaseRecovery (b : Browser) : Run unit :=
  _ <- clearStorage b ;;
  let url := href b in
  let url := withParam "cache_bust" (Num.toString (Int (now b))) url in
  let url := withParam "force_reload" "true" url in
  Eff.emit (Navigate url).

End WithHost.
End Reset.

(** ** Vocabulary of the further statements *)

Section MoreVocabulary.
Context {host : Host}.

(** The text of field [i] of a row: [String(row[i] || '')]; [None] when
    the conversion throws. *)
Definition fieldText (row : list Lookup.value) (i : nat) : option jsstring :=
  Lookup.toStr (Lookup.orEmpty (Lookup.index row i)).

(** The first row of a document, when the document is an array whose
    first element is an array of at least 14 fields. *)
Definition firstRow (d : Lookup.value) : option (list Lookup.value) :=
  match d with
  | JArr (JArr row :: _) =>
      if (List.length row <? 14)%nat then None else Some row
  | _ => None
  end.

(** The text of the gender code of a row, as [convertGenderCode] reads
    it. *)
Definition genderText (k : jsstring) : jsstring :=
  let upperCode := trim (toUpperCase k) in
  if jsstring_eqb upperCode "H" then js "homme"
  else if jsstring_eqb upperCode "M" then js "femme"
  else js "".

End MoreVocabulary.

(** The three values of the field [sexe]. *)
Definition genderValue (g : jsstring) : bool :=
  jsstring_eqb g "homme" || jsstring_eqb g "femme" || jsstring_eqb g "".

(** A UTF-16 surrogate. *)
Definition isSurrogate (c : N) : bool := ((55296 <=? c) && (c <=? 57343))%N.

(** Further documents: a second row after the sample row; a row with
    numbers in it; a row whose matricule and national id are falsy. *)
Definition blanks : list (json Z) :=
  [JNull; JNull; JNull; JNull; JNull; JNull; JNull; JNull].

Definition otherRow : list (json Z) :=
  [JStr "M999"; JStr "y"; JStr "John Roe"; JStr "CIN11"; JStr "M"]
  ++ blanks ++ [JStr "01/02/2021"].

Definition numericRow : list (json Z) :=
  [JNum 4521; JStr "x"; JStr "Jane Doe"; JNull; JStr " m "]
  ++ blanks ++ [JNum 0].

Definition falsyRow : list (json Z) :=
  [JNum 0; JStr "x"; JStr "Jane Doe"; JBool false; JStr "H"]
  ++ blanks ++ [JStr "15/06/2020"].

Definition moreDocuments : list (json Z) :=
  [JArr [JArr sampleRow; JArr otherRow];
   JArr [JArr numericRow];
   JArr [JArr falsyRow]].

(** Upper-casing of the letters a to z. *)
Definition asciiUpper (s : jsstring) : jsstring :=
  map (fun c => if ((97 <=? c) && (c <=? 122))%N then (c - 32)%N else c) s.

(** A host like [sampleHost] that reads the further documents too,
    whose URI encoder refuses a term with a surrogate in it, and that
    upper-cases the letters a to z. *)
Definition strictHost : Host := {|
  double := Z;
  double_truthy := fun z => negb (z =? 0);
  double_toString := decimal;
  JSON_parse := fun t =>
    find (fun d => jsstring_eqb (stringify d) t)
      (sampleDocuments ++ moreDocuments);
  JSON_parse_empty := eq_refl;
  encodeURIComponent := fun s => if existsb isSurrogate s then None else Some s;
  toUpperCase := asciiUpper;
  approxInt := Int;
  exponential := decimal;
  LocalTZA := fun _ => 0;
  Date_parse_legacy := fun _ => None
|}.

(** An upstream that cannot be reached. *)
Definition unreachable : Lookup.Upstream := fun _ => None.

(** An upstream whose body cannot be read. *)
Definition unreadable : Lookup.Upstream :=
  fun _ => Some {| Lookup.status := 200; Lookup.body := None |}.

(** A date as [dd/MM/yyyy] and as [YYYY-MM-DD]. *)
Definition frenchDate (d m y : Z) : jsstring :=
  twoDigits d ++ js "/" ++ twoDigits m ++ js "/" ++ fourDigits y.

Definition isoDate (y m d : Z) : jsstring :=
  fourDigits y ++ js "-" ++ twoDigits m ++ js "-" ++ twoDigits d.

(** The string goes on with a digit. *)
Definition startsWithDigit (s : jsstring) : bool :=
  match s with
  | c :: _ => is_digit c
  | [] => false
  end.

(** The parsed year of an input of three slash-separated parts is at most
    [hi]; true of every other input. *)
Definition slashYearAtMost {host : Host} (hi : Z) (s : jsstring) : bool :=
  match split (cu "/") (trim s) with
  | [_; _; year] => le_int (Num.parseInt year) hi
  | _ => true
  end.

(** A part that [parseInt] reads as [n]: white space, a run of digits
    of value [n], and a rest that does not go on with a digit. *)
Definition leadingNumber (part : jsstring) (n : Z) : Prop :=
  exists ws ds rest,
    part = ws ++ ds ++ rest
    /\ forallb is_whitespace ws = true
    /\ forallb is_digit ds = true /\ isEmpty ds = false
    /\ startsWithDigit rest = false
    /\ mathInt ds = n.

(** A timestamp without zone, [YYYY-MM-DDTHH:mm:ss]: local time. *)
Definition localStamp (y mo d hh mi ss : Z) : jsstring :=
  isoDate y mo d ++ js "T" ++ twoDigits hh ++ js ":" ++ twoDigits mi
  ++ js ":" ++ twoDigits ss.

(** A host like [plainHost] in a zone one hour east of UTC. *)
Definition casablancaHost : Host := {|
  double := Z;
  double_truthy := fun z => negb (z =? 0);
  double_toString := decimal;
  JSON_parse := fun _ => None;
  JSON_parse_empty := eq_refl;
  encodeURIComponent := fun s => Some s;
  toUpperCase := fun s => s;
  approxInt := Int;
  exponential := decimal;
  LocalTZA := fun _ => 3600000;
  Date_parse_legacy := fun _ => None
|}.

(** An attempt after which the probe goes on: it reaches the remote
    read and fails there with an error the probe retries on. *)
Definition retryableFailure (o : Firebase.Observation) : bool :=
  Firebase.onLine o && Firebase.currentUser o
  && match Firebase.race o with
     | Firebase.Rejected e => retryable e
     | Firebase.Fulfilled | Firebase.RejectedNullish => false
     end.

(** The read of the attempt is rejected with null or undefined. *)
Definition rejectsNullish (o : Firebase.Observation) : bool :=
  match Firebase.race o with
  | Firebase.RejectedNullish => true
  | _ => false
  end.

(** A platform on which every read is rejected with null. *)
Definition rejectingNull : Firebase.Platform :=
  fun _ => {| Firebase.onLine := true;
              Firebase.currentUser := true;
              Firebase.race := Firebase.RejectedNullish |}.

(** The diagnostic of the last branch but one of lines 130-142. *)
Definition refreshMessage : jsstring :=
  "Network error - try refreshing the page".

(** A result as the probe builds it: success without a text, or failure
    with one. *)
Definition wellFormed (r : Firebase.Result) : bool :=
  match Firebase.error r with
  | None => Firebase.success r
  | Some _ => negb (Firebase.success r)
  end.

(** What the probe can report. *)
Inductive outcome : Firebase.Result -> Prop :=
| ReportsSuccess : outcome Firebase.succeeded
| ReportsOffline : outcome (Firebase.failed "Device is offline")
| ReportsRules : outcome (Firebase.failed rulesMessage)
| ReportsDatabase : outcome (Firebase.failed databaseMessage)
| ReportsUnavailable : outcome (Firebase.failed unavailableMessage)
| ReportsError (e : Firebase.ProbeError) :
    outcome (Firebase.failed (Firebase.errorMessageOf e)).

(** The address the aggressive recovery navigates to. *)
Definition target {host : Host} (b : Reset.Browser) : Reset.Url :=
  Reset.withParam "force_reload" "true"
    (Reset.withParam "cache_bust" (Num.toString (Int (Reset.now b)))
       (Reset.href b)).

(** The pairs of a query under the name [name]. *)
Definition occurrencesOf (name : jsstring) (q : list (jsstring * jsstring))
  : nat :=
  List.length (filter (fun p => jsstring_eqb (fst p) name) q).

(** The events of one optional interface when all goes well. *)
Definition clearing (listing : Reset.Event) (request : jsstring -> Reset.Event)
  (interface : option (option (list (jsstring * bool)))) : list Reset.Event :=
  match interface with
  | Some (Some items) => listing :: map (fun i => request (fst i)) items
  | Some None => [listing]
  | None => []
  end.

(** An interface that is absent, or lists its items and removes each. *)
Definition clears (interface : option (option (list (jsstring * bool))))
  : bool :=
  match interface with
  | Some (Some items) => forallb snd items
  | Some None => false
  | None => true
  end.

(** An event of the clearing, as opposed to a reload or a navigation. *)
Definition isClearing (ev : Reset.Event) : bool :=
  match ev with
  | Reset.Reload | Reset.Navigate _ => false
  | _ => true
  end.

(** A browser in which the first [clear()] throws, and one in which
    everything works. *)
Definition lockedBrowser : Reset.Browser :=
  {| Reset.localStorageClears := false;
     Reset.sessionStorageClears := true;
     Reset.indexedDB := Some (Some [(js "firestore", true)]);
     Reset.serviceWorker := None;
     Reset.caches := Some (Some [(js "v1", true)]);
     Reset.href := {| Reset.base := "https://example.org/app";
                      Reset.query := [(js "tab", js "workers")];
                      Reset.fragment := "" |};
     Reset.now := 1700000000000 |}.

Definition workingBrowser : Reset.Browser :=
  {| Reset.localStorageClears := true;
     Reset.sessionStorageClears := true;
     Reset.indexedDB := Some (Some [(js "firestore", true)]);
     Reset.serviceWorker := None;
     Reset.caches := Some (Some [(js "v1", true); (js "v2", true)]);
     Reset.href := {| Reset.base := "https://example.org/app";
                      Reset.query := [(js "force_reload", js "true");
                                      (js "tab", js "workers");
                                      (js "cache_bust", js "1600000000000")];
                      Reset.fragment := "" |};
     Reset.now := 1700000000000 |}.

(** A platform whose first two reads time out and whose third
    succeeds. *)
Definition slowPlatform : Firebase.Platform :=
  fun k => {| Firebase.onLine := true;
              Firebase.currentUser := true;
              Firebase.race := if (k <? 2)%nat
                               then Firebase.Rejected Firebase.timeoutError
                               else Firebase.Fulfilled |}.

(** * Properties *)

(** ** The model on known values *)

Section KnownValues.
Context {host : Host}.

Example trim_known :
  trim ([9%N; 32%N; 160%N] ++ js "12/ 3/2020" ++ [13%N; 10%N; 65279%N])
  = js "12/ 3/2020".
Proof. reflexivity. Qed.

Example split_known :
  split (cu "/") "a//b" = [js "a"; js ""; js "b"]
  /\ split (cu "/") "" = [js ""]
  /\ split (cu "T") "2025-11-30T23:00" = [js "2025-11-30"; js "23:00"].
Proof. repeat split. Qed.

Example padStart_known :
  padStart "5" 2 "0" = js "05" /\ padStart "12" 2 "0" = js "12"
  /\ padStart "NaN" 2 "0" = js "NaN" /\ padStart "7" 4 "ab" = js "aba7".
Proof. repeat split. Qed.

Example parseInt_known :
  Num.parseInt "08" = Int 8
  /\ Num.parseInt "  12abc" = Int 12
  /\ Num.parseInt "-5" = Int (-5)
  /\ Num.parseInt "+7" = Int 7
  /\ Num.parseInt "" = NaN
  /\ Num.parseInt "abc" = NaN
  /\ Num.parseInt "- 5" = NaN
  /\ Num.parseInt "9007199254740992" = Int 9007199254740992.
Proof. repeat split. Qed.

Example tests_known :
  test_canonical "2025-11-30" = true
  /\ test_canonical "2025-11-30 " = false
  /\ test_canonical "2025-1-30" = false
  /\ test_datetime "2025-11-30T" = true
  /\ test_datetime "2025-11-30 23:00" = false.
Proof. repeat split. Qed.

Example Date_parse_known :
  ESDate.Date_parse "1970-01-01T00:00:00.000Z" = Some 0
  /\ ESDate.Date_parse "2000-02-29T12:00:00Z" = Some 951825600000
  /\ ESDate.Date_parse "2025-11-30T23:00:00.000Z" = Some 1764543600000
  /\ ESDate.Date_parse "2025-11-30T23:00:00+01:00" = Some 1764540000000
  /\ ESDate.Date_parse "2020-06-15" = Some 1592179200000
  /\ ESDate.Date_parse "1969-12-31T23:59:59.999Z" = Some (-1).
Proof. repeat split. Qed.

Example toISOString_known :
  ESDate.toISOString 1764543600123 = js "2025-11-30T23:00:00.123Z"
  /\ ESDate.toISOString (-1) = js "1969-12-31T23:59:59.999Z"
  /\ ESDate.toISOString 951825600000 = js "2000-02-29T12:00:00.000Z".
Proof. repeat split. Qed.

(** The tests come in the order of the function: a date-time prefix
    is cut or shifted even when slashes follow. *)
Example rule_order_known :
  shapeOf "0015-11-30T/06/2020" = DateTime
  /\ Part001Date.parseFrenchDate "0015-11-30T/06/2020"
     = Some (js "0015-11-30")
  /\ shapeOf " 5/6/2020 " = Slash
  /\ Part001Date.parseFrenchDate " 5/6/2020 " = Some (js "2020-06-05").
Proof. repeat split. Qed.

(** The first version reads the slash form through [new Date]. *)
Example part000_known :
  Part000Date.parseFrenchDate "15/06/2020" = Some (js "2020-06-15")
  /\ Part000Date.parseFrenchDate "15-06-2020" = None.
Proof. repeat split. Qed.

End KnownValues.

(** ** Strings *)

Ltac bools :=
  repeat match goal with
  | H : (_ && _) = true |- _ => apply andb_true_iff in H; destruct H
  | H : (_ || _) = true |- _ => apply orb_true_iff in H; destruct H
  | H : (_ && _) = false |- _ => apply andb_false_iff in H; destruct H
  | H : (_ || _) = false |- _ => apply orb_false_iff in H; destruct H
  | H : negb _ = true |- _ => apply negb_true_iff in H
  | H : negb _ = false |- _ => apply negb_false_iff in H
  | H : (_ =? _)%N = true |- _ => apply N.eqb_eq in H
  | H : (_ =? _)%N = false |- _ => apply N.eqb_neq in H
  | H : (_ <=? _)%N = true |- _ => apply N.leb_le in H
  | H : (_ <=? _)%N = false |- _ => apply N.leb_gt in H
  | H : (_ =? _)%Z = true |- _ => apply Z.eqb_eq in H
  | H : (_ =? _)%Z = false |- _ => apply Z.eqb_neq in H
  | H : (_ <=? _)%Z = true |- _ => apply Z.leb_le in H
  | H : (_ <=? _)%Z = false |- _ => apply Z.leb_gt in H
  | H : (_ <? _)%Z = true |- _ => apply Z.ltb_lt in H
  | H : (_ <? _)%Z = false |- _ => apply Z.ltb_ge in H
  end.

Lemma dropWhile_all (p : N -> bool) (s : jsstring) :
  forallb p s = true -> dropWhile p s = [].
Proof.
  induction s as [|c r IH]; simpl; [reflexivity|].
  intros H. apply andb_true_iff in H. destruct H as [Hc Hr].
  rewrite Hc. auto.
Qed.

Lemma dropWhile_head (p : N -> bool) (c : N) (r : jsstring) :
  p c = false -> dropWhile p (c :: r) = c :: r.
Proof. intros H. simpl. rewrite H. reflexivity. Qed.

(** A string of white space trims to the empty string. *)
Lemma trim_blank (s : jsstring) :
  forallb is_whitespace s = true -> trim s = [].
Proof.
  intros H. unfold trim, trimStart, trimEnd.
  rewrite (dropWhile_all _ _ H). reflexivity.
Qed.

(** A string that neither starts nor ends with white space is its own
    trim. *)
Lemma trim_tight (c : N) (m : jsstring) (d : N) :
  is_whitespace c = false -> is_whitespace d = false ->
  trim (c :: m ++ [d]) = c :: m ++ [d].
Proof.
  intros Hc Hd. unfold trim, trimStart, trimEnd.
  rewrite (dropWhile_head _ _ _ Hc).
  change (c :: m ++ [d]) with ((c :: m) ++ [d]).
  rewrite rev_app_distr. set (R := rev (c :: m)).
  change (rev [d] ++ R) with (d :: R).
  rewrite (dropWhile_head _ _ _ Hd).
  change (d :: R) with (rev [d] ++ R). subst R.
  rewrite <- rev_app_distr. apply rev_involutive.
Qed.

Lemma digit_not_whitespace (c : N) :
  is_digit c = true -> is_whitespace c = false.
Proof.
  unfold is_digit, is_whitespace. intros H. bools.
  repeat (apply orb_false_iff; split);
    try apply andb_false_iff;
    try (apply N.eqb_neq; lia);
    try (left; apply N.leb_gt; lia);
    try (right; apply N.leb_gt; lia).
Qed.

Lemma split_nonempty (c : N) (s : jsstring) : split c s <> [].
Proof.
  induction s as [|x r IH]; simpl; [discriminate|].
  destruct (x =? c)%N; [discriminate|].
  destruct (split c r); [contradiction|discriminate].
Qed.

(** Without the separator there is one part, the string itself. *)
Lemma split_absent (c : N) (s : jsstring) :
  forallb (fun x => negb (x =? c)%N) s = true -> split c s = [s].
Proof.
  induction s as [|x r IH]; simpl; [reflexivity|].
  intros H. apply andb_true_iff in H. destruct H as [Hx Hr].
  apply negb_true_iff in Hx. rewrite Hx, (IH Hr). reflexivity.
Qed.

(** The first part ends at the first separator. *)
Lemma split_first (c : N) (a b : jsstring) :
  forallb (fun x => negb (x =? c)%N) a = true ->
  first (split c (a ++ c :: b)) = a.
Proof.
  induction a as [|x r IH]; simpl.
  - rewrite N.eqb_refl. reflexivity.
  - intros H. apply andb_true_iff in H. destruct H as [Hx Hr].
    apply negb_true_iff in Hx. rewrite Hx.
    specialize (IH Hr). unfold first in IH.
    destruct (split c (r ++ c :: b)) as [|h t] eqn:E.
    + exfalso. exact (split_nonempty _ _ E).
    + simpl in *. congruence.
Qed.

(** The parts of a string with a separator in it are more than one. *)
Lemma split_present (c : N) (s : jsstring) :
  existsb (fun x => (x =? c)%N) s = true ->
  (2 <= List.length (split c s))%nat.
Proof.
  induction s as [|x r IH]; simpl; [discriminate|].
  destruct (x =? c)%N eqn:E; simpl.
  - intros _. destruct (split c r) eqn:S; [exfalso; exact (split_nonempty _ _ S)|].
    simpl. lia.
  - intros H. specialize (IH H).
    destruct (split c r); simpl in *; lia.
Qed.

(** *** The two date patterns *)

(** A string starts with a match of [pat] exactly when it is a matched
    prefix, atom by atom, followed by the rest. *)
Lemma match_prefix_spec (pat : list atom) (s r : jsstring) :
  match_prefix pat s = Some r <->
  exists p, s = p ++ r /\ Forall2 (fun a c => atom_matches a c = true) pat p.
Proof.
  revert s. induction pat as [|a pat IH]; intros s; simpl.
  - split.
    + intros H. injection H as ->. exists []. split; [reflexivity|constructor].
    + intros (p & -> & F). inversion F. reflexivity.
  - destruct s as [|c s'].
    + split; [discriminate|].
      intros (p & E & F). inversion F; subst. discriminate.
    + destruct (atom_matches a c) eqn:M.
      * rewrite IH. split.
        -- intros (p & -> & F). exists (c :: p). split; [reflexivity|].
           constructor; assumption.
        -- intros (p & E & F). inversion F; subst. simpl in E.
           injection E as -> ->. eexists. split; [reflexivity|assumption].
      * split; [discriminate|].
        intros (p & E & F). inversion F; subst. simpl in E.
        injection E as -> ->. congruence.
Qed.

Lemma date_pattern_chars (p : jsstring) :
  Forall2 (fun a c => atom_matches a c = true) date_pattern p ->
  List.length p = 10%nat /\ forallb date_char p = true.
Proof.
  unfold date_pattern, digits. simpl. intros F.
  repeat match goal with
         | H : Forall2 _ (_ :: _) _ |- _ => inversion H; clear H; subst
         | H : Forall2 _ [] _ |- _ => inversion H; clear H; subst
         end.
  split; [reflexivity|].
  unfold date_char. simpl in *.
  repeat match goal with H : _ = true |- _ => rewrite H; clear H end.
  rewrite ?orb_true_r. reflexivity.
Qed.

Lemma date_char_not_whitespace (c : N) :
  date_char c = true -> is_whitespace c = false.
Proof.
  unfold date_char. intros H. apply orb_true_iff in H. destruct H as [H|H].
  - apply digit_not_whitespace. assumption.
  - apply N.eqb_eq in H. subst. reflexivity.
Qed.

Lemma date_char_not (k : N) (s : jsstring) :
  date_char k = false ->
  forallb date_char s = true ->
  forallb (fun x => negb (x =? k)%N) s = true.
Proof.
  intros Hk. induction s as [|c r IH]; simpl; [reflexivity|].
  intros H. apply andb_true_iff in H. destruct H as [Hc Hr].
  rewrite (IH Hr), andb_true_r. apply negb_true_iff, N.eqb_neq.
  intros ->. congruence.
Qed.

(** The canonical test holds of ten date characters and nothing else. *)
Lemma test_canonical_chars (s : jsstring) :
  test_canonical s = true ->
  List.length s = 10%nat /\ forallb date_char s = true.
Proof.
  unfold test_canonical.
  destruct (match_prefix date_pattern s) as [[|x r]|] eqn:E; try discriminate.
  intros _. apply match_prefix_spec in E. destruct E as (p & -> & F).
  rewrite app_nil_r. apply date_pattern_chars. assumption.
Qed.

(** A string that passes the date-time test is a date, [T], and a rest. *)
Lemma test_datetime_chars (s : jsstring) :
  test_datetime s = true ->
  exists d rest,
    s = d ++ cu "T" :: rest /\ List.length d = 10%nat
    /\ forallb date_char d = true.
Proof.
  unfold test_datetime.
  destruct (match_prefix (date_pattern ++ [Lit (cu "T")]) s) as [r|] eqn:E;
    [|discriminate].
  intros _. apply match_prefix_spec in E. destruct E as (p & -> & F).
  apply Forall2_app_inv_l in F. destruct F as (d & t & Fd & Ft & ->).
  inversion Ft as [|a c l l' Hc Hnil]; subst. inversion Hnil; subst.
  simpl in Hc. apply N.eqb_eq in Hc. subst c.
  apply date_pattern_chars in Fd. destruct Fd as [Hl Hd].
  exists d, r. rewrite <- app_assoc. simpl. auto.
Qed.

(** The two tests exclude each other. *)
Lemma test_datetime_not_canonical (s : jsstring) :
  test_datetime s = true -> test_canonical s = false.
Proof.
  intros H. destruct (test_canonical s) eqn:C; [|reflexivity].
  apply test_canonical_chars in C. destruct C as [L _].
  apply test_datetime_chars in H. destruct H as (d & rest & -> & Ld & _).
  rewrite length_app in L. simpl in L. lia.
Qed.

(** A string that passes the canonical test has no white space to trim. *)
Lemma canonical_trim (s : jsstring) :
  test_canonical s = true -> trim s = s.
Proof.
  intros H. apply test_canonical_chars in H. destruct H as [L F].
  destruct s as [|c s]; [discriminate|].
  destruct (rev s) as [|d m] eqn:R.
  - apply (f_equal (@rev N)) in R. rewrite rev_involutive in R. subst.
    discriminate.
  - apply (f_equal (@rev N)) in R. rewrite rev_involutive in R. simpl in R.
    subst s. simpl in F. apply andb_true_iff in F. destruct F as [Fc Fs].
    rewrite forallb_app in Fs. apply andb_true_iff in Fs.
    destruct Fs as [_ Fd]. simpl in Fd. rewrite andb_true_r in Fd.
    apply trim_tight; apply date_char_not_whitespace; assumption.
Qed.

Lemma canonical_nonempty (s : jsstring) :
  test_canonical s = true -> isEmpty s = false.
Proof.
  intros H. apply test_canonical_chars in H. destruct H as [L _].
  destruct s; [discriminate|reflexivity].
Qed.

(** A string that passes the canonical test has no slash: the split at
    slashes leaves it whole. *)
Lemma canonical_split_slash (s : jsstring) :
  test_canonical s = true -> split (cu "/") s = [s].
Proof.
  intros H. apply test_canonical_chars in H. destruct H as [_ F].
  apply split_absent, date_char_not; [reflexivity|assumption].
Qed.

(** Cutting a date-time string at [T] leaves its first ten characters. *)
Lemma datetime_cut (s : jsstring) :
  test_datetime s = true ->
  first (split (cu "T") s) = firstn 10 s.
Proof.
  intros H. apply test_datetime_chars in H.
  destruct H as (d & rest & -> & L & F).
  rewrite split_first by (apply date_char_not; [reflexivity|assumption]).
  rewrite firstn_app, L, Nat.sub_diag, firstn_O, app_nil_r.
  rewrite <- L. symmetry. apply firstn_all.
Qed.

(** *** Padding *)

Lemma jsstring_eqb_eq (a b : jsstring) : jsstring_eqb a b = true -> a = b.
Proof.
  unfold jsstring_eqb. destruct (list_eq_dec N.eq_dec a b); [auto|discriminate].
Qed.

(** [String(n).padStart(2, '0')] writes a number below 100 in two
    digits. *)
Lemma padStart_twoDigits (n : Z) :
  0 <= n <= 99 -> padStart (decimal n) 2 "0" = twoDigits n.
Proof.
  intros H.
  assert (A : forallb (fun k => jsstring_eqb
                (padStart (decimal (Z.of_nat k)) 2 "0")
                (twoDigits (Z.of_nat k))) (seq 0 100) = true)
    by (vm_compute; reflexivity).
  rewrite forallb_forall in A.
  specialize (A (Z.to_nat n)). rewrite Z2Nat.id in A by lia.
  apply jsstring_eqb_eq, A, in_seq. lia.
Qed.

Lemma toString_small {host : Host} (z : Z) :
  Z.abs z < 10 ^ 21 -> Num.toString (Int z) = decimal z.
Proof.
  intros H. unfold Num.toString.
  destruct (Z.ltb_spec (Z.abs z) (10 ^ 21)); [reflexivity|lia].
Qed.

Lemma padded_number {host : Host} (n : Z) :
  0 <= n <= 99 -> padStart (Num.toString (Int n)) 2 "0" = twoDigits n.
Proof.
  intros H. rewrite toString_small by lia. apply padStart_twoDigits, H.
Qed.

(** ** The date normaliser *)

Section DateNormaliser.
Context {host : Host}.

Lemma shapeOf_blank (s : jsstring) :
  forallb is_whitespace s = true -> shapeOf s = Blank.
Proof.
  intros H. unfold shapeOf. rewrite (trim_blank _ H). reflexivity.
Qed.

(** The tests a string of each shape passes and fails. *)
Lemma shapeOf_inv (s : jsstring) :
  match shapeOf s with
  | Blank => isEmpty (trim s) = true
  | Canonical => isEmpty (trim s) = false /\ test_canonical (trim s) = true
  | DateTime => isEmpty (trim s) = false /\ test_canonical (trim s) = false
                /\ test_datetime (trim s) = true
  | Slash => isEmpty (trim s) = false /\ test_canonical (trim s) = false
             /\ test_datetime (trim s) = false
             /\ List.length (split (cu "/") (trim s)) = 3%nat
  | Other => isEmpty (trim s) = false /\ test_canonical (trim s) = false
             /\ test_datetime (trim s) = false
             /\ List.length (split (cu "/") (trim s)) <> 3%nat
  end.
Proof.
  unfold shapeOf.
  destruct (isEmpty (trim s)); [reflexivity|].
  destruct (test_canonical (trim s)); [auto|].
  destruct (test_datetime (trim s)); [auto|].
  destruct (Nat.eqb_spec (List.length (split (cu "/") (trim s))) 3); auto.
Qed.

(** An input that is not the empty string but trims to it is caught by
    the second test; the empty string by the first. *)
Lemma blank_part001 (s : jsstring) :
  isEmpty (trim s) = true -> Part001Date.parseFrenchDate s = None.
Proof.
  intros H. unfold Part001Date.parseFrenchDate.
  destruct (isEmpty s); [reflexivity|]. rewrite H. reflexivity.
Qed.

Lemma blank_firebase (s : jsstring) :
  isEmpty (trim s) = true -> FirebaseDate.parseFrenchDate s = None.
Proof.
  intros H. unfold FirebaseDate.parseFrenchDate.
  destruct (isEmpty s); [reflexivity|]. rewrite H. reflexivity.
Qed.

Lemma trim_nonempty (s : jsstring) :
  isEmpty (trim s) = false -> isEmpty s = false.
Proof. destruct s; [discriminate|reflexivity]. Qed.

Lemma canonical_part001 (s : jsstring) :
  test_canonical s = true -> Part001Date.parseFrenchDate s = Some s.
Proof.
  intros H. unfold Part001Date.parseFrenchDate.
  rewrite (canonical_trim _ H), (canonical_nonempty _ H), H. reflexivity.
Qed.

Lemma canonical_firebase (s : jsstring) :
  test_canonical s = true -> FirebaseDate.parseFrenchDate s = Some s.
Proof.
  intros H. unfold FirebaseDate.parseFrenchDate.
  rewrite (canonical_trim _ H), (canonical_nonempty _ H), H. reflexivity.
Qed.

Lemma canonical_part000 (s : jsstring) :
  test_canonical s = true -> Part000Date.parseFrenchDate s = None.
Proof.
  intros H. unfold Part000Date.parseFrenchDate.
  rewrite (canonical_nonempty _ H), (canonical_split_slash _ H). reflexivity.
Qed.

(** The slash rule on a string of three parts. *)
Lemma slashRule_parts (t day month year : jsstring) :
  split (cu "/") t = [day; month; year] ->
  slashRule t =
    if inRange (Num.parseInt day) (Num.parseInt month) (Num.parseInt year)
    then Some (Num.toString (Num.parseInt year)
               ++ js "-" ++ padStart (Num.toString (Num.parseInt month)) 2 "0"
               ++ js "-" ++ padStart (Num.toString (Num.parseInt day)) 2 "0")
    else None.
Proof. intros H. unfold slashRule, inRange. rewrite H. reflexivity. Qed.

Lemma slashRule_other (t : jsstring) :
  List.length (split (cu "/") t) <> 3%nat -> slashRule t = None.
Proof.
  intros H. unfold slashRule.
  destruct (split (cu "/") t) as [|a [|b [|c [|d r]]]]; try reflexivity.
  exfalso. apply H. reflexivity.
Qed.

(** A number in the range of a day or a month is a small integer. *)
Lemma small_number (n : number) (hi : Z) :
  ge_int n 1 = true -> le_int n hi = true ->
  exists z, n = Int z /\ 1 <= z <= hi.
Proof.
  destruct n; simpl; try discriminate.
  intros A B. bools. exists z. split; [reflexivity|lia].
Qed.

End DateNormaliser.

(** ** Time values and calendar dates *)

Module ESDateFacts.
Import ESDate.

(** A year has 365 or 366 days. *)
Lemma DaysInYear_range (y : Z) : DaysInYear y = 365 \/ DaysInYear y = 366.
Proof.
  unfold DaysInYear.
  repeat match goal with
         | |- context [if ?b then _ else _] => destruct b
         end; auto.
Qed.

(** The first day of the next year. *)
Lemma DayFromYear_succ (y : Z) :
  DayFromYear (y + 1) = DayFromYear y + DaysInYear y.
Proof.
  unfold DayFromYear, DaysInYear.
  replace (y + 1 - 1970) with (y - 1970 + 1) by lia.
  replace (y + 1 - 1969) with (y - 1968) by lia.
  replace (y + 1 - 1901) with (y - 1900) by lia.
  replace (y + 1 - 1601) with (y - 1600) by lia.
  destruct (Z.eqb_spec (y mod 4) 0) as [E4|E4];
    destruct (Z.eqb_spec (y mod 100) 0) as [E100|E100];
    destruct (Z.eqb_spec (y mod 400) 0) as [E400|E400]; cbn [negb];
    Z.to_euclidean_division_equations; lia.
Qed.

Lemma DayFromYear_mono (a b : Z) : a <= b -> DayFromYear a <= DayFromYear b.
Proof.
  intros H. unfold DayFromYear. Z.to_euclidean_division_equations. lia.
Qed.

(** [YearFromTime] is the year the standard defines: the one whose days
    include the day of [t]. *)
Lemma YearFromTime_spec (t : Z) :
  DayFromYear (YearFromTime t) <= Day t < DayFromYear (YearFromTime t + 1).
Proof.
  unfold YearFromTime.
  set (d := Day t). clearbody d.
  set (y := 1970 + d * 10000 / 3652425).
  destruct (d <? DayFromYear y) eqn:E1.
  - apply Z.ltb_lt in E1. replace (y - 1 + 1) with y by lia. split; [|lia].
    subst y. unfold DayFromYear in *. Z.to_euclidean_division_equations. lia.
  - apply Z.ltb_ge in E1. destruct (DayFromYear (y + 1) <=? d) eqn:E2.
    + apply Z.leb_le in E2. split; [lia|].
      subst y. unfold DayFromYear in *. Z.to_euclidean_division_equations. lia.
    + apply Z.leb_gt in E2. lia.
Qed.

(** The year is determined by the day. *)
Lemma YearFromTime_unique (t y : Z) :
  DayFromYear y <= Day t < DayFromYear (y + 1) -> YearFromTime t = y.
Proof.
  intros H. pose proof (YearFromTime_spec t) as S.
  destruct (Z.lt_trichotomy (YearFromTime t) y) as [L|[E|G]]; [|exact E|].
  - pose proof (DayFromYear_mono (YearFromTime t + 1) y ltac:(lia)). lia.
  - pose proof (DayFromYear_mono (y + 1) (YearFromTime t) ltac:(lia)). lia.
Qed.

Lemma DayWithinYear_range (t : Z) :
  0 <= DayWithinYear t < DaysInYear (YearFromTime t).
Proof.
  unfold DayWithinYear. pose proof (YearFromTime_spec t) as S.
  rewrite DayFromYear_succ in S. lia.
Qed.

Lemma InLeapYear_days (t : Z) :
  DaysInYear (YearFromTime t) = 365 + InLeapYear t.
Proof.
  unfold InLeapYear.
  destruct (DaysInYear_range (YearFromTime t)) as [E|E]; rewrite E; reflexivity.
Qed.

Lemma MonthFromTime_range (t : Z) : 0 <= MonthFromTime t <= 11.
Proof.
  unfold MonthFromTime.
  repeat match goal with
         | |- context [if ?b then _ else _] => destruct b
         end; lia.
Qed.

Lemma DateFromTime_range (t : Z) : 1 <= DateFromTime t <= 31.
Proof.
  pose proof (DayWithinYear_range t) as R.
  rewrite InLeapYear_days in R.
  assert (L : InLeapYear t = 0 \/ InLeapYear t = 1)
    by (unfold InLeapYear; destruct (_ =? _); auto).
  unfold DateFromTime, MonthFromTime.
  set (d := DayWithinYear t) in *. set (l := InLeapYear t) in *.
  clearbody d l.
  repeat match goal with
         | |- context [if ?a <? ?b then _ else _] =>
             destruct (Z.ltb_spec a b)
         end; lia.
Qed.

End ESDateFacts.

(** ** The date normaliser, continued *)

Section DateShift.
Context {host : Host}.

(** The shifted date of firebase.ts, for a string the engine reads as
    the instant [i], an hour before the last time value at the latest. *)
Lemma shiftedDate_instant (t : jsstring) (i : Z) :
  ESDate.Date_parse t = Some i ->
  i + ESDate.msPerHour <= maxTime ->
  FirebaseDate.shiftedDate t = calendarDate (i + ESDate.msPerHour).
Proof.
  intros P B. unfold FirebaseDate.shiftedDate, ESDate.Date_of_string.
  rewrite P. cbn [ESDate.getTime add_int ESDate.Date_of_number].
  change (1 * 60 * 60 * 1000) with ESDate.msPerHour.
  assert (L : - maxTime <= i).
  { unfold ESDate.Date_parse in P.
    assert (C : forall x, ESDate.TimeClip x = Some i -> - maxTime <= i).
    { intros x. unfold ESDate.TimeClip, maxTime.
      destruct (Z.leb_spec (Z.abs x) 8640000000000000); [|discriminate].
      intros E. injection E as <-. lia. }
    destruct (ESDate.parseFormat t); [eauto|].
    destruct (Date_parse_legacy t); [eauto|discriminate]. }
  unfold ESDate.TimeClip.
  destruct (Z.leb_spec (Z.abs (i + ESDate.msPerHour)) 8640000000000000) as [_|G].
  2:{ unfold maxTime, ESDate.msPerHour in *. lia. }
  cbn [ESDate.getUTCFullYear ESDate.getUTCMonth ESDate.getUTCDate add_int].
  unfold calendarDate.
  pose proof (ESDateFacts.MonthFromTime_range (i + ESDate.msPerHour)).
  pose proof (ESDateFacts.DateFromTime_range (i + ESDate.msPerHour)).
  rewrite !padded_number by lia. reflexivity.
Qed.

(** A string the engine cannot read as an instant: every component is
    NaN. *)
Lemma shiftedDate_invalid (t : jsstring) :
  ESDate.Date_parse t = None ->
  FirebaseDate.shiftedDate t = js "NaN-NaN-NaN".
Proof.
  intros P. unfold FirebaseDate.shiftedDate, ESDate.Date_of_string.
  rewrite P. reflexivity.
Qed.

End DateShift.

(** *** Occurrences of the separator and the number of parts *)

Lemma split_length (c : N) (s : jsstring) :
  List.length (split c s) = S (occurrences c s).
Proof.
  unfold occurrences. induction s as [|x r IH]; simpl; [reflexivity|].
  destruct (x =? c)%N; simpl.
  - rewrite IH. reflexivity.
  - destruct (split c r) eqn:E; [exfalso; exact (split_nonempty _ _ E)|].
    simpl in *. assumption.
Qed.

Lemma occurrences_dropWhile (c : N) (s : jsstring) :
  is_whitespace c = false ->
  occurrences c (dropWhile is_whitespace s) = occurrences c s.
Proof.
  intros H. unfold occurrences. induction s as [|x r IH]; simpl; [reflexivity|].
  destruct (is_whitespace x) eqn:W; [|reflexivity].
  destruct (N.eqb_spec x c) as [->|_]; [congruence|assumption].
Qed.

Lemma occurrences_rev (c : N) (s : jsstring) :
  occurrences c (rev s) = occurrences c s.
Proof.
  unfold occurrences. rewrite filter_rev. apply length_rev.
Qed.

(** Trimming removes no separator that is not white space. *)
Lemma occurrences_trim (c : N) (s : jsstring) :
  is_whitespace c = false -> occurrences c (trim s) = occurrences c s.
Proof.
  intros H. unfold trim, trimEnd, trimStart.
  rewrite occurrences_rev, occurrences_dropWhile by assumption.
  rewrite occurrences_rev. apply occurrences_dropWhile. assumption.
Qed.

Lemma split_trim_length (s : jsstring) :
  List.length (split (cu "/") (trim s)) = List.length (split (cu "/") s).
Proof.
  rewrite !split_length, occurrences_trim; reflexivity.
Qed.

Lemma part000_other {host : Host} (s : jsstring) :
  List.length (split (cu "/") s) <> 3%nat ->
  Part000Date.parseFrenchDate s = None.
Proof.
  intros H. unfold Part000Date.parseFrenchDate.
  destruct (isEmpty s); [reflexivity|].
  destruct (split (cu "/") s) as [|a [|b [|c [|d r]]]]; try reflexivity.
  exfalso. apply H. reflexivity.
Qed.

(** ** Claims about the date normaliser *)

(** C5, as amended. For every input that already has the canonical form
    YYYY-MM-DD, [parseFrenchDate] of part_001 and [parseFrenchDate] of
    firebase.ts return the input unchanged (so "2025-11-30" gives
    "2025-11-30"); the [parseFrenchDate] of part_000, which reads the
    slash form only, returns no result for such an input. *)
Theorem canonical_passthrough :
  forall (host : Host) (s : jsstring),
    test_canonical s = true ->
    Part001Date.parseFrenchDate s = Some s
    /\ FirebaseDate.parseFrenchDate s = Some s
    /\ Part000Date.parseFrenchDate s = None.
Proof.
  intros host s H. split; [|split].
  - apply canonical_part001, H.
  - apply canonical_firebase, H.
  - apply canonical_part000, H.
Qed.

Lemma canonical_passthrough_witness :
  @Part001Date.parseFrenchDate plainHost "2025-11-30" = Some (js "2025-11-30")
  /\ @FirebaseDate.parseFrenchDate plainHost "2025-11-30"
     = Some (js "2025-11-30")
  /\ @Part000Date.parseFrenchDate plainHost "2025-11-30" = None.
Proof.
  exact (canonical_passthrough plainHost (js "2025-11-30") eq_refl).
Defined.

(** C5 as stated fails on part_000: "2025-11-30" has the canonical form
    and its [parseFrenchDate] returns no result. *)
Lemma canonical_part000_counterexample :
  test_canonical "2025-11-30" = true
  /\ @Part000Date.parseFrenchDate plainHost "2025-11-30" = None.
Proof. split; reflexivity. Qed.

(** C9. On every input already in canonical form the normaliser is
    idempotent: applying [parseFrenchDate] to its own result gives that
    result again (part_001 and firebase.ts, where the result is the
    input; part_000, where both sides are no result). *)
Theorem canonical_idempotent :
  forall (host : Host) (s : jsstring),
    test_canonical s = true ->
    again Part001Date.parseFrenchDate (Part001Date.parseFrenchDate s)
    = Part001Date.parseFrenchDate s
    /\ again FirebaseDate.parseFrenchDate (FirebaseDate.parseFrenchDate s)
       = FirebaseDate.parseFrenchDate s
    /\ again Part000Date.parseFrenchDate (Part000Date.parseFrenchDate s)
       = Part000Date.parseFrenchDate s.
Proof.
  intros host s H.
  rewrite (canonical_part001 s H), (canonical_firebase s H),
    (canonical_part000 s H).
  simpl. rewrite (canonical_part001 s H), (canonical_firebase s H). auto.
Qed.

Lemma canonical_idempotent_witness :
  again (@Part001Date.parseFrenchDate plainHost)
    (@Part001Date.parseFrenchDate plainHost "2025-11-30")
  = @Part001Date.parseFrenchDate plainHost "2025-11-30"
  /\ again (@FirebaseDate.parseFrenchDate plainHost)
       (@FirebaseDate.parseFrenchDate plainHost "2025-11-30")
     = @FirebaseDate.parseFrenchDate plainHost "2025-11-30"
  /\ again (@Part000Date.parseFrenchDate plainHost)
       (@Part000Date.parseFrenchDate plainHost "2025-11-30")
     = @Part000Date.parseFrenchDate plainHost "2025-11-30".
Proof.
  exact (canonical_idempotent plainHost (js "2025-11-30") eq_refl).
Defined.

(** C8. An input that is empty or all white space, and an input that
    after trimming has none of the shapes the function knows (canonical,
    date-time, three parts between slashes), gets no result: in part_001,
    in firebase.ts and in part_000. *)
Theorem unrecognised_rejected :
  forall (host : Host) (s : jsstring),
    forallb is_whitespace s = true \/ shapeOf s = Other ->
    Part001Date.parseFrenchDate s = None
    /\ FirebaseDate.parseFrenchDate s = None
    /\ Part000Date.parseFrenchDate s = None.
Proof.
  intros host s [B|O].
  - pose proof (shapeOf_inv s) as I. rewrite (shapeOf_blank s B) in I.
    split; [|split].
    + apply blank_part001, I.
    + apply blank_firebase, I.
    + apply part000_other. rewrite split_absent; [simpl; lia|].
      clear I. induction s as [|c r IH]; simpl in *; [reflexivity|].
      apply andb_true_iff in B. destruct B as [Bc Br].
      rewrite (IH Br), andb_true_r. apply negb_true_iff, N.eqb_neq.
      intros ->. discriminate.
  - pose proof (shapeOf_inv s) as I. rewrite O in I.
    destruct I as (E & C & D & L). split; [|split].
    + unfold Part001Date.parseFrenchDate.
      rewrite (trim_nonempty _ E), E, C, D. apply slashRule_other, L.
    + unfold FirebaseDate.parseFrenchDate.
      rewrite (trim_nonempty _ E), E, C, D. apply slashRule_other, L.
    + apply part000_other. rewrite <- split_trim_length. exact L.
Qed.

Lemma unrecognised_rejected_witness :
  (@Part001Date.parseFrenchDate plainHost "" = None
   /\ @FirebaseDate.parseFrenchDate plainHost "" = None
   /\ @Part000Date.parseFrenchDate plainHost "" = None)
  /\ (@Part001Date.parseFrenchDate plainHost "   " = None
      /\ @FirebaseDate.parseFrenchDate plainHost "   " = None
      /\ @Part000Date.parseFrenchDate plainHost "   " = None)
  /\ (@Part001Date.parseFrenchDate plainHost "30 novembre 2025" = None
      /\ @FirebaseDate.parseFrenchDate plainHost "30 novembre 2025" = None
      /\ @Part000Date.parseFrenchDate plainHost "30 novembre 2025" = None).
Proof.
  split; [|split].
  - exact (unrecognised_rejected plainHost (js "") (or_introl eq_refl)).
  - exact (unrecognised_rejected plainHost (js "   ") (or_introl eq_refl)).
  - exact (unrecognised_rejected plainHost (js "30 novembre 2025")
             (or_intror eq_refl)).
Defined.

(** The slash rule decides an input of the slash shape, in both modules
    that have it. *)
Lemma slash_shape_rule {host : Host} (s : jsstring) :
  shapeOf s = Slash ->
  Part001Date.parseFrenchDate s = slashRule (trim s)
  /\ FirebaseDate.parseFrenchDate s = slashRule (trim s).
Proof.
  intros S. pose proof (shapeOf_inv s) as I. rewrite S in I.
  destruct I as (E & C & D & _).
  unfold Part001Date.parseFrenchDate, FirebaseDate.parseFrenchDate.
  rewrite (trim_nonempty _ E), E, C, D. auto.
Qed.

(** *** Timestamps *)

Section Stamps.
Import ESDate ESDateFacts.

Lemma digitChar_digit n : 0 <= n <= 9 -> is_digit (digitChar n) = true.
Proof.
  intros H. unfold is_digit, digitChar.
  apply andb_true_iff. split; apply N.leb_le; lia.
Qed.

Lemma digitChar_value n : 0 <= n <= 9 -> digit_value (digitChar n) = n.
Proof. intros H. unfold digit_value, digitChar. lia. Qed.

Lemma readDigits_2 n rest :
  0 <= n <= 99 -> readDigits 2 (twoDigits n ++ rest) = Some (n, rest).
Proof.
  intros H. unfold readDigits, twoDigits. cbn [digits repeat match_prefix app atom_matches].
  fold (digitChar (n / 10)). fold (digitChar (n mod 10)).
  rewrite !digitChar_digit by (Z.to_euclidean_division_equations; lia).
  cbn [firstn mathInt fold_left].
  rewrite !digitChar_value by (Z.to_euclidean_division_equations; lia).
  f_equal. f_equal. Z.to_euclidean_division_equations; lia.
Qed.

Lemma readDigits_3 n rest :
  0 <= n <= 999 -> readDigits 3 (threeDigits n ++ rest) = Some (n, rest).
Proof.
  intros H. unfold readDigits, threeDigits. cbn [digits repeat match_prefix app atom_matches].
  rewrite !digitChar_digit by (Z.to_euclidean_division_equations; lia).
  cbn [firstn mathInt fold_left].
  rewrite !digitChar_value by (Z.to_euclidean_division_equations; lia).
  f_equal. f_equal. Z.to_euclidean_division_equations; lia.
Qed.

Lemma readDigits_4 n rest :
  0 <= n <= 9999 -> readDigits 4 (fourDigits n ++ rest) = Some (n, rest).
Proof.
  intros H. unfold readDigits, fourDigits. cbn [digits repeat match_prefix app atom_matches].
  rewrite !digitChar_digit by (Z.to_euclidean_division_equations; lia).
  cbn [firstn mathInt fold_left].
  rewrite !digitChar_value by (Z.to_euclidean_division_equations; lia).
  f_equal. f_equal. Z.to_euclidean_division_equations; lia.
Qed.

Lemma DaysInMonth_range y m : 28 <= DaysInMonth y m <= 31.
Proof.
  unfold DaysInMonth. destruct (DaysInYear y =? 366);
  destruct m as [|p|p]; try lia;
  repeat (destruct p as [p|p|]; try lia).
Qed.

Lemma expect_hit c rest : expect c (c :: rest) = Some rest.
Proof. unfold expect. rewrite N.eqb_refl. reflexivity. Qed.

Section WithHost.
Context {host : Host}.

Lemma parseFormat_stamp y mo d hh mi ss ms :
  validStamp y mo d hh mi ss ms ->
  parseFormat (stamp y mo d hh mi ss ms)
  = Some (MakeDate (MakeDay y (mo - 1) d) (MakeTime hh mi ss ms)).
Proof.
  intros (Hy & Hmo & Hd & Hh & Hmi & Hs & Hms).
  pose proof (DaysInMonth_range y (mo - 1)) as R.
  unfold parseFormat, stamp.
  rewrite readDigits_4 by lia.
  change (js "-" ++ ?r) with (cu "-" :: r). rewrite expect_hit.
  rewrite readDigits_2 by lia.
  change (js "-" ++ ?r) with (cu "-" :: r). rewrite expect_hit.
  rewrite readDigits_2 by lia.
  replace ((1 <=? mo) && (mo <=? 12) && (1 <=? d) && (d <=? DaysInMonth y (mo - 1))) with true
    by (symmetry; rewrite !andb_true_iff, !Z.leb_le; lia).
  change (js "T" ++ ?r) with (cu "T" :: r). cbv beta iota zeta.
  rewrite N.eqb_refl.
  unfold parseTime.
  rewrite readDigits_2 by lia.
  change (js ":" ++ ?r) with (cu ":" :: r). rewrite expect_hit.
  rewrite readDigits_2 by lia.
  unfold parseSeconds.
  change (js ":" ++ ?r) with (cu ":" :: r). rewrite expect_hit.
  rewrite readDigits_2 by lia.
  change (js "." ++ ?r) with (cu "." :: r). rewrite expect_hit.
  rewrite readDigits_3 by lia.
  change (parseZone (js "Z")) with (Some (Some 0)).
  replace ((hh <=? 23) && (mi <=? 59) && (ss <=? 59)) with true
    by (symmetry; rewrite !andb_true_iff, !Z.leb_le; lia).
  cbv beta iota zeta. cbn [orb]. f_equal. lia.
Qed.
End WithHost.

Lemma Day_MakeDate day time :
  0 <= time < msPerDay -> Day (MakeDate day time) = day.
Proof.
  intros H. unfold Day, MakeDate, msPerDay in *.
  Z.to_euclidean_division_equations. lia.
Qed.

Lemma MakeDay_plain y m d :
  0 <= m <= 11 ->
  MakeDay y m d
  = DayFromYear y
    + daysBeforeMonth m (if DaysInYear y =? 366 then 1 else 0) + d - 1.
Proof.
  intros H. unfold MakeDay.
  replace (m / 12) with 0 by (Z.to_euclidean_division_equations; lia).
  replace (m mod 12) with m by (Z.to_euclidean_division_equations; lia).
  rewrite Z.add_0_r. reflexivity.
Qed.

Ltac months m H :=
  assert (m = 0 \/ m = 1 \/ m = 2 \/ m = 3 \/ m = 4 \/ m = 5 \/ m = 6
          \/ m = 7 \/ m = 8 \/ m = 9 \/ m = 10 \/ m = 11) as H by lia;
  repeat (destruct H as [H|H]); subst m.

(** The calendar date of a time value built from a date is that date. *)
Lemma civil_of_MakeDay y m d time :
  0 <= m <= 11 -> 1 <= d <= DaysInMonth y m -> 0 <= time < msPerDay ->
  YearFromTime (MakeDate (MakeDay y m d) time) = y
  /\ MonthFromTime (MakeDate (MakeDay y m d) time) = m
  /\ DateFromTime (MakeDate (MakeDay y m d) time) = d.
Proof.
  intros Hm Hd Ht. set (t := MakeDate (MakeDay y m d) time).
  assert (D : Day t = MakeDay y m d) by (apply Day_MakeDate, Ht).
  rewrite MakeDay_plain in D by exact Hm.
  clearbody t. clear Ht time.
  set (l := if DaysInYear y =? 366 then 1 else 0) in *.
  assert (L : DaysInYear y = 365 + l)
    by (subst l; destruct (DaysInYear_range y) as [E|E]; rewrite E; reflexivity).
  assert (Hl : l = 0 \/ l = 1) by (subst l; destruct (_ =? _); auto).
  assert (B : 0 <= daysBeforeMonth m l + d - 1 < 365 + l
              /\ 1 <= d <= DaysInMonth y m).
  { split; [|exact Hd]. unfold DaysInMonth in Hd. fold l in Hd.
    unfold daysBeforeMonth.
    months m M; cbv beta iota in *; lia. }
  assert (Y : YearFromTime t = y).
  { apply YearFromTime_unique. rewrite DayFromYear_succ, D, L. lia. }
  assert (W : DayWithinYear t = daysBeforeMonth m l + d - 1)
    by (unfold DayWithinYear; rewrite Y, D; lia).
  assert (I : InLeapYear t = l)
    by (unfold InLeapYear; rewrite Y; reflexivity).
  split; [exact Y|].
  unfold DateFromTime, MonthFromTime. rewrite W, I.
  unfold DaysInMonth in Hd. fold l in Hd. clear B.
  clear D Y W I L t. unfold daysBeforeMonth.
  months m M; cbv beta iota in *;
    repeat match goal with
           | |- context [if ?a <? ?b then _ else _] =>
               destruct (Z.ltb_spec a b); try lia
           end; split; lia.
Qed.

Lemma MakeTime_range hh mi ss ms :
  0 <= hh <= 23 -> 0 <= mi <= 59 -> 0 <= ss <= 59 -> 0 <= ms <= 999 ->
  hh * msPerHour <= MakeTime hh mi ss ms < (hh + 1) * msPerHour.
Proof. unfold MakeTime, msPerHour, msPerMinute, msPerSecond. lia. Qed.

(** A valid date and the day after it, as days from the epoch. *)
Lemma MakeDay_next y mo d :
  1 <= mo <= 12 -> 1 <= d <= DaysInMonth y (mo - 1) ->
  let '(y', mo', d') := nextDay y mo d in
  MakeDay y' (mo' - 1) d' = MakeDay y (mo - 1) d + 1
  /\ 1 <= mo' <= 12 /\ 1 <= d' <= DaysInMonth y' (mo' - 1).
Proof.
  intros Hmo Hd. unfold nextDay.
  destruct (Z.ltb_spec d (DaysInMonth y (mo - 1))) as [A|A].
  - rewrite !MakeDay_plain by lia. lia.
  - destruct (Z.ltb_spec mo 12) as [B|B].
    + rewrite !MakeDay_plain by lia.
      pose proof (DaysInMonth_range y (mo + 1 - 1)).
      split; [|lia].
      assert (d = DaysInMonth y (mo - 1)) by lia. subst d.
      unfold DaysInMonth, daysBeforeMonth.
      set (l := if DaysInYear y =? 366 then 1 else 0).
      clearbody l.
      assert (M : mo = 1 \/ mo = 2 \/ mo = 3 \/ mo = 4 \/ mo = 5 \/ mo = 6
                  \/ mo = 7 \/ mo = 8 \/ mo = 9 \/ mo = 10 \/ mo = 11)
        by lia.
      repeat (destruct M as [M|M]); subst mo;
        repeat match goal with
               | |- context [Z.pos ?p + 1 - 1] =>
                   change (Z.pos p + 1 - 1) with (Z.pos p)
               | |- context [Z.pos ?p - 1] =>
                   let v := eval compute in (Z.pos p - 1) in
                   change (Z.pos p - 1) with v
               end; cbv beta iota zeta; lia.
    + assert (mo = 12) by lia. subst mo.
      rewrite !MakeDay_plain by lia.
      pose proof (DaysInMonth_range (y + 1) (1 - 1)).
      split; [|lia].
      assert (d = DaysInMonth y (12 - 1)) by lia. subst d.
      rewrite DayFromYear_succ.
      set (l := if DaysInYear y =? 366 then 1 else 0).
      assert (L : DaysInYear y = 365 + l)
        by (subst l; destruct (DaysInYear_range y) as [E|E]; rewrite E;
            reflexivity).
      rewrite L. change (12 - 1) with 11. change (1 - 1) with 0.
      clearbody l. unfold DaysInMonth, daysBeforeMonth.
      cbv beta iota zeta. lia.
Qed.

Lemma DayFromYear_bound y :
  0 <= y <= 10000 -> -719528 <= DayFromYear y <= 2932897.
Proof.
  intros H. unfold DayFromYear. Z.to_euclidean_division_equations. lia.
Qed.

(** A string whose first and last characters are no white space is its
    own trim. *)
Lemma trim_ends (s : jsstring) :
  is_whitespace (hd 32%N s) = false ->
  is_whitespace (last s 32%N) = false ->
  trim s = s.
Proof.
  destruct s as [|c s']; [reflexivity|]. cbn [hd]. intros Hc Hl.
  destruct (exists_last (l := c :: s') ltac:(discriminate)) as (m & d & E).
  rewrite E in Hl. rewrite last_last in Hl.
  destruct m as [|c' m'].
  - cbn in E. injection E as -> ->.
    unfold trim, trimStart, trimEnd. cbn. rewrite Hc. cbn. rewrite Hc.
    reflexivity.
  - cbn in E. injection E as <- ->. apply trim_tight; assumption.
Qed.

Lemma last_app_right {A} (a b : list A) (d : A) :
  b <> [] -> last (a ++ b) d = last b d.
Proof.
  intros H. destruct (exists_last H) as (m & x & ->).
  rewrite app_assoc, !last_last. reflexivity.
Qed.

Lemma stamp_shape y mo d hh mi ss ms :
  validStamp y mo d hh mi ss ms ->
  trim (stamp y mo d hh mi ss ms) = stamp y mo d hh mi ss ms
  /\ shapeOf (stamp y mo d hh mi ss ms) = DateTime.
Proof.
  intros (Hy & Hmo & Hd & Hh & Hmi & Hs & Hms).
  pose proof (DaysInMonth_range y (mo - 1)) as R.
  assert (T : trim (stamp y mo d hh mi ss ms) = stamp y mo d hh mi ss ms).
  { apply trim_ends.
    - unfold stamp, fourDigits. cbn [app hd].
      apply digit_not_whitespace, digitChar_digit.
      Z.to_euclidean_division_equations; lia.
    - unfold stamp.
      repeat (rewrite last_app_right by
                (unfold twoDigits, threeDigits; cbn; discriminate)).
      reflexivity. }
  split; [exact T|].
  assert (D : test_datetime (stamp y mo d hh mi ss ms) = true).
  { unfold test_datetime, stamp, fourDigits, twoDigits, date_pattern, digits.
    cbn [repeat app match_prefix atom_matches js map list_ascii_of_string].
    fold (digitChar (mo / 10)). fold (digitChar (mo mod 10)).
    fold (digitChar (d / 10)). fold (digitChar (d mod 10)).
    rewrite !digitChar_digit by (Z.to_euclidean_division_equations; lia).
    reflexivity. }
  unfold shapeOf. rewrite T, D, (test_datetime_not_canonical _ D).
  reflexivity.
Qed.

Section WithHost.
Context {host : Host}.

Lemma stamp_instant y mo d hh mi ss ms :
  validStamp y mo d hh mi ss ms ->
  Date_parse (stamp y mo d hh mi ss ms)
  = Some (MakeDate (MakeDay y (mo - 1) d) (MakeTime hh mi ss ms))
  /\ MakeDate (MakeDay y (mo - 1) d) (MakeTime hh mi ss ms) + msPerHour
     <= maxTime.
Proof.
  intros V. unfold Date_parse. rewrite (parseFormat_stamp _ _ _ _ _ _ _ V).
  destruct V as (Hy & Hmo & Hd & Hh & Hmi & Hs & Hms).
  pose proof (DaysInMonth_range y (mo - 1)) as R.
  pose proof (MakeTime_range hh mi ss ms Hh Hmi Hs Hms) as T.
  pose proof (DayFromYear_bound y ltac:(lia)) as B.
  assert (M : 0 <= MakeDay y (mo - 1) d - DayFromYear y <= 366).
  { rewrite MakeDay_plain by lia. unfold daysBeforeMonth.
    destruct (DaysInYear y =? 366);
      assert (X : mo = 1 \/ mo = 2 \/ mo = 3 \/ mo = 4 \/ mo = 5 \/ mo = 6
                  \/ mo = 7 \/ mo = 8 \/ mo = 9 \/ mo = 10 \/ mo = 11
                  \/ mo = 12) by lia;
      repeat (destruct X as [X|X]); subst mo;
      match goal with
      | |- context [Z.pos ?p - 1] =>
          let v := eval compute in (Z.pos p - 1) in
          change (Z.pos p - 1) with v
      end; cbv beta iota; lia. }
  unfold TimeClip, MakeDate, maxTime, msPerDay, msPerHour in *.
  destruct (Z.leb_spec
              (Z.abs (MakeDay y (mo - 1) d * 86400000 + MakeTime hh mi ss ms))
              8640000000000000); [split; [reflexivity|lia]|lia].
Qed.

(** An input of the date-time shape, in the two modules. *)
Lemma datetime_shape_results (s : jsstring) :
  shapeOf s = DateTime ->
  Part001Date.parseFrenchDate s = Some (firstn 10 (trim s))
  /\ forall (i : Z),
       Date_parse (trim s) = Some i ->
       i + msPerHour <= maxTime ->
       FirebaseDate.parseFrenchDate s = Some (calendarDate (i + msPerHour)).
Proof.
  intros S. pose proof (shapeOf_inv s) as I. rewrite S in I.
  destruct I as (E & C & D).
  unfold Part001Date.parseFrenchDate, FirebaseDate.parseFrenchDate.
  rewrite (trim_nonempty _ E), E, C, D. split.
  - rewrite (datetime_cut _ D). reflexivity.
  - intros i P B. rewrite (shiftedDate_instant _ _ P B). reflexivity.
Qed.

(** A valid UTC timestamp, in the two modules: the date as written, and
    the date one hour later. *)
Lemma stamp_results y mo d hh mi ss ms :
  validStamp y mo d hh mi ss ms ->
  Part001Date.parseFrenchDate (stamp y mo d hh mi ss ms)
  = Some (fourDigits y ++ js "-" ++ twoDigits mo ++ js "-" ++ twoDigits d)
  /\ FirebaseDate.parseFrenchDate (stamp y mo d hh mi ss ms)
     = Some (let '(y', mo', d') :=
               if hh <? 23 then (y, mo, d) else nextDay y mo d in
             dateText y' mo' d').
Proof.
  intros V. destruct (stamp_shape _ _ _ _ _ _ _ V) as [T S].
  destruct (datetime_shape_results _ S) as [P F].
  destruct (stamp_instant _ _ _ _ _ _ _ V) as [I B].
  rewrite T in *. split.
  - rewrite P. reflexivity.
  - rewrite (F _ I B). f_equal.
    destruct V as (Hy & Hmo & Hd & Hh & Hmi & Hs & Hms).
    pose proof (MakeTime_range hh mi ss ms Hh Hmi Hs Hms) as R.
    unfold calendarDate, dateText.
    destruct (Z.ltb_spec hh 23) as [L|G].
    + replace (MakeDate (MakeDay y (mo - 1) d) (MakeTime hh mi ss ms)
               + msPerHour)
        with (MakeDate (MakeDay y (mo - 1) d)
                (MakeTime hh mi ss ms + msPerHour))
        by (unfold MakeDate; lia).
      destruct (civil_of_MakeDay y (mo - 1) d
                  (MakeTime hh mi ss ms + msPerHour))
        as (Ey & Em & Ed); try lia.
      { unfold msPerDay, msPerHour in *. lia. }
      rewrite Ey, Em, Ed. replace (mo - 1 + 1) with mo by lia. reflexivity.
    + pose proof (MakeDay_next y mo d Hmo Hd) as N.
      destruct (nextDay y mo d) as [[y' mo'] d'].
      destruct N as (N & Hmo' & Hd').
      replace (MakeDate (MakeDay y (mo - 1) d) (MakeTime hh mi ss ms)
               + msPerHour)
        with (MakeDate (MakeDay y' (mo' - 1) d')
                (MakeTime hh mi ss ms + msPerHour - msPerDay))
        by (rewrite N; unfold MakeDate; lia).
      destruct (civil_of_MakeDay y' (mo' - 1) d'
                  (MakeTime hh mi ss ms + msPerHour - msPerDay))
        as (Ey & Em & Ed); try lia.
      { unfold msPerDay, msPerHour in *. lia. }
      rewrite Ey, Em, Ed. replace (mo' - 1 + 1) with mo' by lia. reflexivity.
Qed.

(** A year of four digits is written the same by both. *)
Lemma dateText_fourDigits y mo d :
  1000 <= y <= 9999 ->
  dateText y mo d
  = fourDigits y ++ js "-" ++ twoDigits mo ++ js "-" ++ twoDigits d.
Proof.
  intros H. unfold dateText. rewrite toString_small by lia. f_equal.
  assert (A : forallb (fun k => jsstring_eqb
                (decimal (1000 + Z.of_nat k))
                (fourDigits (1000 + Z.of_nat k)))
                (seq 0 (Z.to_nat 9000)) = true)
    by (vm_compute; reflexivity).
  rewrite forallb_forall in A.
  specialize (A (Z.to_nat (y - 1000))).
  replace (1000 + Z.of_nat (Z.to_nat (y - 1000))) with y in A by lia.
  apply jsstring_eqb_eq, A, in_seq. lia.
Qed.

End WithHost.
End Stamps.

(** C4. "2025-11-30T23:00:00.000Z" gives "2025-12-01" in firebase.ts,
    where the value is read as an instant, moved one hour ahead and its
    UTC calendar date taken, and "2025-11-30" in part_001, where the text
    before the T is taken as it stands. For every input of the date-time
    shape, part_001 returns its first ten characters and firebase.ts the
    calendar date of the instant the engine reads, plus one hour. For
    every valid timestamp YYYY-MM-DDTHH:mm:ss.sssZ, part_001 returns the
    date as written and firebase.ts that date when HH is below 23 and
    the following day when HH is 23. *)
Theorem datetime_policies :
  forall (host : Host),
    (FirebaseDate.parseFrenchDate "2025-11-30T23:00:00.000Z"
     = Some (js "2025-12-01")
     /\ Part001Date.parseFrenchDate "2025-11-30T23:00:00.000Z"
        = Some (js "2025-11-30"))
    /\ (forall (s : jsstring),
          shapeOf s = DateTime ->
          Part001Date.parseFrenchDate s = Some (firstn 10 (trim s))
          /\ forall (i : Z),
               ESDate.Date_parse (trim s) = Some i ->
               i + ESDate.msPerHour <= maxTime ->
               FirebaseDate.parseFrenchDate s
               = Some (calendarDate (i + ESDate.msPerHour)))
    /\ (forall (y mo d hh mi ss ms : Z),
          validStamp y mo d hh mi ss ms ->
          Part001Date.parseFrenchDate (stamp y mo d hh mi ss ms)
          = Some (fourDigits y ++ js "-" ++ twoDigits mo
                  ++ js "-" ++ twoDigits d)
          /\ FirebaseDate.parseFrenchDate (stamp y mo d hh mi ss ms)
             = Some (let '(y', mo', d') :=
                       if hh <? 23 then (y, mo, d) else nextDay y mo d in
                     dateText y' mo' d')
          /\ (1000 <= y -> hh < 23 ->
              FirebaseDate.parseFrenchDate (stamp y mo d hh mi ss ms)
              = Part001Date.parseFrenchDate (stamp y mo d hh mi ss ms))).
Proof.
  intros host. split; [|split].
  - split; reflexivity.
  - apply datetime_shape_results.
  - intros y mo d hh mi ss ms V.
    destruct (stamp_results y mo d hh mi ss ms V) as [P F].
    split; [exact P|]. split; [exact F|].
    intros Y H. rewrite P, F.
    destruct (Z.ltb_spec hh 23) as [_|G]; [|lia].
    rewrite dateText_fourDigits by (destruct V; lia). reflexivity.
Qed.

Lemma datetime_policies_witness :
  (@Part001Date.parseFrenchDate plainHost "2024-02-28T23:30:00+00:00"
   = Some (firstn 10 (trim "2024-02-28T23:30:00+00:00"))
   /\ @FirebaseDate.parseFrenchDate plainHost "2024-02-28T23:30:00+00:00"
      = Some (@calendarDate plainHost (1709163000000 + ESDate.msPerHour)))
  /\ (@Part001Date.parseFrenchDate plainHost (stamp 2025 12 31 23 59 59 999)
      = Some (fourDigits 2025 ++ js "-" ++ twoDigits 12
              ++ js "-" ++ twoDigits 31)
      /\ @FirebaseDate.parseFrenchDate plainHost
           (stamp 2025 12 31 23 59 59 999)
         = Some (@dateText plainHost 2026 1 1)).
Proof.
  pose (G := proj1 (proj2 (datetime_policies plainHost))
               (js "2024-02-28T23:30:00+00:00") eq_refl).
  pose (S := proj2 (proj2 (datetime_policies plainHost))
               2025 12 31 23 59 59 999
               ltac:(unfold validStamp; vm_compute; intuition discriminate)).
  split; split.
  - exact (proj1 G).
  - refine (proj2 G 1709163000000 eq_refl _). vm_compute. discriminate.
  - exact (proj1 S).
  - exact (proj1 (proj2 S)).
Defined.

(** ** Running a computation *)

Section Exec.
Context {Ev E : Type}.

Lemma exec_ret {A} (a : A) (log : list Ev) :
  Eff.exec (Eff.ret (E := E) a) log = (Eff.Normal a, log).
Proof. reflexivity. Qed.

Lemma exec_throw {A} (e : E) (log : list Ev) :
  Eff.exec (Eff.throw (A := A) e) log = (Eff.Throw e, log).
Proof. reflexivity. Qed.

Lemma exec_emit (e : Ev) (log : list Ev) :
  Eff.exec (Eff.emit (E := E) e) log = (Eff.Normal tt, log ++ [e]).
Proof. reflexivity. Qed.

Lemma exec_bind {A B} (m : Eff.M Ev E A) (k : A -> Eff.M Ev E B)
  (log : list Ev) :
  Eff.exec (Eff.bind m k) log =
    match Eff.exec m log with
    | (Eff.Normal a, log') => Eff.exec (k a) log'
    | (Eff.Throw e, log') => (Eff.Throw e, log')
    end.
Proof. reflexivity. Qed.

Lemma exec_try_catch {A} (m : Eff.M Ev E A) (h : E -> Eff.M Ev E A)
  (log : list Ev) :
  Eff.exec (Eff.try_catch m h) log =
    match Eff.exec m log with
    | (Eff.Normal a, log') => (Eff.Normal a, log')
    | (Eff.Throw e, log') => Eff.exec (h e) log'
    end.
Proof. reflexivity. Qed.

Lemma exec_try_handle {E' A} (m : Eff.M Ev E A) (h : E -> Eff.M Ev E' A)
  (log : list Ev) :
  Eff.exec (Eff.try_handle m h) log =
    match Eff.exec m log with
    | (Eff.Normal a, log') => (Eff.Normal a, log')
    | (Eff.Throw e, log') => Eff.exec (h e) log'
    end.
Proof. reflexivity. Qed.

Lemma exec_orThrow_some {A} (e : E) (a : A) (log : list Ev) :
  Eff.exec (Eff.orThrow e (Some a)) log = (Eff.Normal a, log).
Proof. reflexivity. Qed.

Lemma exec_orThrow_none {A} (e : E) (log : list Ev) :
  Eff.exec (Eff.orThrow (A := A) e None) log = (Eff.Throw e, log).
Proof. reflexivity. Qed.

Lemma exec_if {A} (b : bool) (m1 m2 : Eff.M Ev E A) (log : list Ev) :
  Eff.exec (if b then m1 else m2) log
  = if b then Eff.exec m1 log else Eff.exec m2 log.
Proof. destruct b; reflexivity. Qed.

End Exec.

(** ** The worker lookup *)

Section LookupFacts.
Context {host : Host}.
Import Lookup.

Lemma caught_normal {A : Type}
  (c : Eff.Completion Exn (option A) * list Request) :
  exists r log, caught c = (Eff.Normal r, log).
Proof. destruct c as [[a|e] log]; simpl; eauto. Qed.

(** The guard of the first lines is the blank test. *)
Lemma blank_guard (searchValue : jsstring) :
  isEmpty searchValue || (List.length (trim searchValue) =? 0)%nat
  = isEmpty (trim searchValue).
Proof.
  destruct searchValue as [|c r]; [reflexivity|].
  simpl isEmpty at 1. rewrite orb_false_l.
  destruct (trim (c :: r)); reflexivity.
Qed.

(** The request goes out, then the body of the [try] goes on with the
    answer. *)
Lemma exec_fetch (net : Upstream) (base q : jsstring) (log : list Request) :
  Eff.exec (fetch net (base ++ js "?search=" ++ q)) log =
    match net (lookupRequest base q) with
    | Some r => (Eff.Normal r, log ++ [lookupRequest base q])
    | None => (Eff.Throw TypeError, log ++ [lookupRequest base q])
    end.
Proof.
  unfold fetch. rewrite exec_bind, exec_emit.
  fold (lookupRequest base q).
  destruct (net (lookupRequest base q)); reflexivity.
Qed.

Lemma exec_searchUrl (base searchValue q : jsstring) (log : list Request) :
  encodeURIComponent (trim searchValue) = Some q ->
  Eff.exec (searchUrl base searchValue) log
  = (Eff.Normal (base ++ js "?search=" ++ q), log).
Proof. intros Q. unfold searchUrl. rewrite Q. reflexivity. Qed.

(** The three lookups, from the answer of the upstream on. *)
Lemma part001_run (net : Upstream) (searchValue q : jsstring) :
  isEmpty (trim searchValue) = false ->
  encodeURIComponent (trim searchValue) = Some q ->
  let req := lookupRequest Part001.GOOGLE_SCRIPT_URL q in
  Eff.run (Part001.searchWorkerInGoogleSheet net searchValue) =
    match net req with
    | None => (Eff.Normal None, [req])
    | Some r =>
        if ok r then
          match body r with
          | None => (Eff.Normal None, [req])
          | Some t =>
              if isEmpty t then (Eff.Normal None, [req])
              else match JSON_parse t with
                   | None => (Eff.Normal None, [req])
                   | Some d => caught (Eff.exec (Part001.workerOf d) [req])
                   end
          end
        else (Eff.Normal None, [req])
    end.
Proof.
  intros B Q req. unfold Part001.searchWorkerInGoogleSheet, Eff.run.
  rewrite blank_guard, B, exec_try_catch, exec_bind.
  rewrite (exec_searchUrl _ _ _ _ Q), exec_bind, exec_fetch. fold req.
  destruct (net req) as [r|]; [|reflexivity]. rewrite exec_if.
  destruct (ok r); [|reflexivity]. cbn [negb app].
  unfold text, parse. rewrite exec_bind.
  destruct (body r) as [t|]; [|reflexivity].
  rewrite exec_orThrow_some, exec_if.
  destruct (isEmpty t); [reflexivity|]. rewrite exec_bind.
  destruct (JSON_parse t) as [d|]; [|reflexivity].
  rewrite exec_orThrow_some.
  destruct (Eff.exec (Part001.workerOf d) [req]) as [[a|e] l]; reflexivity.
Qed.

Lemma gender_run (net : Upstream) (searchValue q : jsstring) :
  isEmpty (trim searchValue) = false ->
  encodeURIComponent (trim searchValue) = Some q ->
  let req := lookupRequest GenderLookup.GOOGLE_SCRIPT_URL q in
  Eff.run (GenderLookup.searchWorkerInGoogleSheet net searchValue) =
    match net req with
    | None => (Eff.Normal None, [req])
    | Some r =>
        if ok r then
          match body r with
          | None => (Eff.Normal None, [req])
          | Some t =>
              if isEmpty t then (Eff.Normal None, [req])
              else match JSON_parse t with
                   | None => (Eff.Normal None, [req])
                   | Some d => caught (Eff.exec (GenderLookup.workerOf d) [req])
                   end
          end
        else (Eff.Normal None, [req])
    end.
Proof.
  intros B Q req. unfold GenderLookup.searchWorkerInGoogleSheet, Eff.run.
  rewrite blank_guard, B, exec_try_catch, exec_bind.
  rewrite (exec_searchUrl _ _ _ _ Q), exec_bind, exec_fetch. fold req.
  destruct (net req) as [r|]; [|reflexivity]. rewrite exec_if.
  destruct (ok r); [|reflexivity]. cbn [negb app].
  unfold text, parse. rewrite exec_bind.
  destruct (body r) as [t|]; [|reflexivity].
  rewrite exec_orThrow_some, exec_if.
  destruct (isEmpty t); [reflexivity|]. rewrite exec_bind.
  destruct (JSON_parse t) as [d|]; [|reflexivity].
  rewrite exec_orThrow_some.
  destruct (Eff.exec (GenderLookup.workerOf d) [req]) as [[a|e] l];
    reflexivity.
Qed.

Lemma part000_run (net : Upstream) (searchValue q : jsstring) :
  isEmpty (trim searchValue) = false ->
  encodeURIComponent (trim searchValue) = Some q ->
  let req := lookupRequest Part000.GOOGLE_SCRIPT_URL q in
  Eff.run (Part000.searchWorkerInGoogleSheet net searchValue) =
    match net req with
    | None => (Eff.Normal None, [req])
    | Some r =>
        if ok r then
          match body r with
          | None => (Eff.Normal None, [req])
          | Some t =>
              match JSON_parse t with
              | None => (Eff.Normal None, [req])
              | Some d => caught (Eff.exec (Part000.workerOf d) [req])
              end
          end
        else (Eff.Normal None, [req])
    end.
Proof.
  intros B Q req. unfold Part000.searchWorkerInGoogleSheet, Eff.run.
  rewrite blank_guard, B, exec_try_catch, exec_bind.
  rewrite (exec_searchUrl _ _ _ _ Q), exec_bind, exec_fetch. fold req.
  destruct (net req) as [r|]; [|reflexivity]. rewrite exec_if.
  destruct (ok r); [|reflexivity]. cbn [negb app].
  unfold json_of, text, parse. rewrite !exec_bind.
  destruct (body r) as [t|]; [|reflexivity].
  rewrite exec_orThrow_some.
  destruct (JSON_parse t) as [d|]; [|reflexivity].
  rewrite exec_orThrow_some.
  destruct (Eff.exec (Part000.workerOf d) [req]) as [[a|e] l]; reflexivity.
Qed.

Ltac reject_rows :=
  match goal with
  | H : rowsRejected ?d |- _ =>
      destruct H as [H|[H|[(row & rest & H & L)|(x & rest & H & L)]]];
      [ destruct d; try discriminate H; cbn;
        rewrite ?orb_true_r; reflexivity
      | subst d; cbn; rewrite ?orb_true_r; reflexivity
      | subst d; cbn; rewrite ?orb_false_r;
        apply Nat.ltb_lt in L;
        cbn in L; rewrite L; reflexivity
      | subst d; destruct x; try discriminate L; reflexivity ]
  end.

Lemma part001_rejects (d : value) (log : list Request) :
  rowsRejected d ->
  Eff.exec (Part001.workerOf d) log = (Eff.Normal None, log).
Proof. intros H. unfold Part001.workerOf. reject_rows. Qed.

Lemma gender_rejects (d : value) (log : list Request) :
  rowsRejected d ->
  Eff.exec (GenderLookup.workerOf d) log = (Eff.Normal None, log).
Proof. intros H. unfold GenderLookup.workerOf. reject_rows. Qed.

Lemma part000_rejects (d : value) (log : list Request) :
  rowsRejected d ->
  Eff.exec (Part000.workerOf d) log = (Eff.Normal None, log).
Proof. intros H. unfold Part000.workerOf. reject_rows. Qed.

End LookupFacts.

(** ** Claims about the worker lookup *)

Section LookupClaims.
Context {host : Host}.
Import Lookup.

Lemma failure_collapses (o : option Response) (req : Request)
  (W : value -> Async (option Part001.GoogleSheetWorker)) :
  (forall d log, rowsRejected d -> Eff.exec (W d) log = (Eff.Normal None, log)) ->
  Failure o ->
  match o with
  | None => (Eff.Normal None, [req])
  | Some r =>
      if ok r then
        match body r with
        | None => (Eff.Normal None, [req])
        | Some t =>
            if isEmpty t then (Eff.Normal None, [req])
            else match JSON_parse t with
                 | None => (Eff.Normal None, [req])
                 | Some d => caught (Eff.exec (W d) [req])
                 end
        end
      else (Eff.Normal None, [req])
  end = (Eff.Normal None, [req]).
Proof.
  intros R F.
  destruct F as [r H|r H|r t H P|r t d H P A|r t H P|r t row rest H P L
                |r t x rest H P A];
    destruct (ok r); try reflexivity; try congruence;
    rewrite H; try reflexivity;
    destruct (isEmpty t); try reflexivity; rewrite P; try reflexivity;
    rewrite R; try reflexivity; unfold rowsRejected; eauto 10.
Qed.

Lemma failure_collapses_gender (o : option Response) (req : Request) :
  Failure o ->
  match o with
  | None => (Eff.Normal None, [req])
  | Some r =>
      if ok r then
        match body r with
        | None => (Eff.Normal None, [req])
        | Some t =>
            if isEmpty t then (Eff.Normal None, [req])
            else match JSON_parse t with
                 | None => (Eff.Normal None, [req])
                 | Some d => caught (Eff.exec (GenderLookup.workerOf d) [req])
                 end
        end
      else (Eff.Normal None, [req])
  end = (Eff.Normal None, [req]).
Proof.
  intros F.
  destruct F as [r H|r H|r t H P|r t d H P A|r t H P|r t row rest H P L
                |r t x rest H P A];
    destruct (ok r); try reflexivity; try congruence;
    rewrite H; try reflexivity;
    destruct (isEmpty t); try reflexivity; rewrite P; try reflexivity;
    rewrite gender_rejects; try reflexivity; unfold rowsRejected; eauto 10.
Qed.

Lemma failure_collapses_part000 (o : option Response) (req : Request) :
  Failure o ->
  match o with
  | None => (Eff.Normal None, [req])
  | Some r =>
      if ok r then
        match body r with
        | None => (Eff.Normal None, [req])
        | Some t =>
            match JSON_parse t with
            | None => (Eff.Normal None, [req])
            | Some d => caught (Eff.exec (Part000.workerOf d) [req])
            end
        end
      else (Eff.Normal None, [req])
  end = (Eff.Normal None, [req]).
Proof.
  intros F.
  destruct F as [r H|r H|r t H P|r t d H P A|r t H P|r t row rest H P L
                |r t x rest H P A];
    destruct (ok r); try reflexivity; try congruence;
    rewrite H; try (rewrite JSON_parse_empty); try reflexivity;
    rewrite P; try reflexivity;
    rewrite part000_rejects; try reflexivity; unfold rowsRejected; eauto 10.
Qed.

End LookupClaims.

Lemma try_catch_null_settles {A : Type}
  (m : Lookup.Async (option A)) :
  exists r log,
    Eff.run (Eff.try_catch m (fun _ => Eff.ret None)) = (Eff.Normal r, log).
Proof.
  unfold Eff.run. rewrite exec_try_catch.
  destruct (Eff.exec m []) as [[a|e] log].
  - exists a, log. reflexivity.
  - exists None, log. reflexivity.
Qed.

(** C3. The lookup never throws: it always settles with a record or
    with null. And on each failure condition (a status outside 200..299,
    an empty body, a body that is no JSON text, a document that is no
    array, an empty array, a first row of fewer than 14 fields, a first
    row that is no array) it settles with null after its one request, the
    same outcome in every case: in part_001, in the gender-aware module
    of firebase.ts and in part_000. *)
Theorem lookup_failures_collapse :
  forall (host : Host) (net : Lookup.Upstream) (searchValue : jsstring),
    ((exists r log,
        Eff.run (Part001.searchWorkerInGoogleSheet net searchValue)
        = (Eff.Normal r, log))
     /\ (exists r log,
           Eff.run (GenderLookup.searchWorkerInGoogleSheet net searchValue)
           = (Eff.Normal r, log))
     /\ (exists r log,
           Eff.run (Part000.searchWorkerInGoogleSheet net searchValue)
           = (Eff.Normal r, log)))
    /\ forall (q : jsstring),
         isEmpty (trim searchValue) = false ->
         encodeURIComponent (trim searchValue) = Some q ->
         (Failure (net (lookupRequest Part001.GOOGLE_SCRIPT_URL q)) ->
          Eff.run (Part001.searchWorkerInGoogleSheet net searchValue)
          = (Eff.Normal None, [lookupRequest Part001.GOOGLE_SCRIPT_URL q]))
         /\ (Failure (net (lookupRequest GenderLookup.GOOGLE_SCRIPT_URL q)) ->
             Eff.run (GenderLookup.searchWorkerInGoogleSheet net searchValue)
             = (Eff.Normal None,
                [lookupRequest GenderLookup.GOOGLE_SCRIPT_URL q]))
         /\ (Failure (net (lookupRequest Part000.GOOGLE_SCRIPT_URL q)) ->
             Eff.run (Part000.searchWorkerInGoogleSheet net searchValue)
             = (Eff.Normal None,
                [lookupRequest Part000.GOOGLE_SCRIPT_URL q])).
Proof.
  intros host net searchValue. split.
  - unfold Part001.searchWorkerInGoogleSheet,
      GenderLookup.searchWorkerInGoogleSheet,
      Part000.searchWorkerInGoogleSheet.
    destruct (isEmpty searchValue
              || (List.length (trim searchValue) =? 0)%nat).
    + repeat split; eexists; eexists; reflexivity.
    + repeat split; apply try_catch_null_settles.
  - intros q B Q. split; [|split]; intros F.
    + rewrite (part001_run net searchValue q B Q).
      apply (failure_collapses _ _ Part001.workerOf); [|exact F].
      intros d log R. apply part001_rejects, R.
    + rewrite (gender_run net searchValue q B Q).
      apply failure_collapses_gender, F.
    + rewrite (part000_run net searchValue q B Q).
      apply failure_collapses_part000, F.
Qed.

(** C10. For a search term that is empty or all white space the lookup
    settles with null and sends no request: in part_001, in the
    gender-aware module of firebase.ts and in part_000. *)
Theorem blank_term_sends_nothing :
  forall (host : Host) (net : Lookup.Upstream) (searchValue : jsstring),
    forallb is_whitespace searchValue = true ->
    Eff.run (Part001.searchWorkerInGoogleSheet net searchValue)
    = (Eff.Normal None, [])
    /\ Eff.run (GenderLookup.searchWorkerInGoogleSheet net searchValue)
       = (Eff.Normal None, [])
    /\ Eff.run (Part000.searchWorkerInGoogleSheet net searchValue)
       = (Eff.Normal None, []).
Proof.
  intros host net searchValue H.
  unfold Part001.searchWorkerInGoogleSheet,
    GenderLookup.searchWorkerInGoogleSheet,
    Part000.searchWorkerInGoogleSheet.
  rewrite blank_guard, (trim_blank _ H). auto.
Qed.

Lemma blank_term_sends_nothing_witness :
  Eff.run (@Part001.searchWorkerInGoogleSheet sampleHost
             (answering 200 (stringify sampleRows)) "   ")
  = (Eff.Normal None, [])
  /\ Eff.run (@GenderLookup.searchWorkerInGoogleSheet sampleHost
                (answering 200 (stringify sampleRows)) "   ")
     = (Eff.Normal None, [])
  /\ Eff.run (@Part000.searchWorkerInGoogleSheet sampleHost
                (answering 200 (stringify sampleRows)) "   ")
     = (Eff.Normal None, []).
Proof.
  exact (blank_term_sends_nothing sampleHost
           (answering 200 (stringify sampleRows)) (js "   ") eq_refl).
Defined.

Lemma lookup_failures_collapse_witness :
  Eff.run (@Part001.searchWorkerInGoogleSheet sampleHost
             (answering 500 "Internal Server Error") "M123")
  = (Eff.Normal None, [lookupRequest Part001.GOOGLE_SCRIPT_URL "M123"])
  /\ Eff.run (@Part001.searchWorkerInGoogleSheet sampleHost
                (answering 200 (stringify (JArr []))) "M123")
     = (Eff.Normal None, [lookupRequest Part001.GOOGLE_SCRIPT_URL "M123"])
  /\ Eff.run (@Part001.searchWorkerInGoogleSheet sampleHost
                (answering 200
                   (stringify (JArr [JArr [JStr "M123"; JStr "x";
                                           JStr "Jane Doe"; JStr "CIN99"]])))
                "M123")
     = (Eff.Normal None, [lookupRequest Part001.GOOGLE_SCRIPT_URL "M123"]).
Proof.
  split; [|split].
  - exact (proj1 (proj2 (lookup_failures_collapse sampleHost
                           (answering 500 "Internal Server Error")
                           (js "M123"))
                    (js "M123") eq_refl eq_refl)
             (@NonOkStatus sampleHost
                {| Lookup.status := 500;
                   Lookup.body := Some (js "Internal Server Error") |}
                eq_refl)).
  - exact (proj1 (proj2 (lookup_failures_collapse sampleHost
                           (answering 200 (stringify (JArr [])))
                           (js "M123"))
                    (js "M123") eq_refl eq_refl)
             (@EmptyArray sampleHost
                {| Lookup.status := 200;
                   Lookup.body := Some (stringify (JArr [])) |}
                (stringify (JArr [])) eq_refl eq_refl)).
  - exact (proj1 (proj2 (lookup_failures_collapse sampleHost
                           (answering 200
                              (stringify
                                 (JArr [JArr [JStr "M123"; JStr "x";
                                              JStr "Jane Doe";
                                              JStr "CIN99"]])))
                           (js "M123"))
                    (js "M123") eq_refl eq_refl)
             (@ShortRow sampleHost
                {| Lookup.status := 200;
                   Lookup.body :=
                     Some (stringify
                             (JArr [JArr [JStr "M123"; JStr "x";
                                          JStr "Jane Doe"; JStr "CIN99"]])) |}
                (stringify
                   (JArr [JArr [JStr "M123"; JStr "x";
                                JStr "Jane Doe"; JStr "CIN99"]]))
                [JStr "M123"; JStr "x"; JStr "Jane Doe"; JStr "CIN99"] []
                eq_refl eq_refl ltac:(vm_compute; lia))).
Defined.

Section RowMapping.
Context {host : Host}.
Import Lookup.

Lemma toStr_field (s : jsstring) : toStr (orEmpty (Some (JStr s))) = Some s.
Proof. destruct s; reflexivity. Qed.

Lemma long_row {A : Type} (row : list A) :
  (14 <= List.length row)%nat -> (List.length row <? 14)%nat = false.
Proof. intros H. apply Nat.ltb_ge, H. Qed.

(** A first row of at least 14 fields with text at 0, 2, 3 and 13, and
    a matricule or a national id that is not empty: the record carries
    the four texts as they are. *)
Lemma part001_maps (row rest : list value) (m n c d : jsstring)
  (log : list Request) :
  (14 <= List.length row)%nat ->
  index row 0 = Some (JStr m) -> index row 2 = Some (JStr n) ->
  index row 3 = Some (JStr c) -> index row 13 = Some (JStr d) ->
  isEmpty m && isEmpty c = false ->
  Eff.exec (Part001.workerOf (JArr (JArr row :: rest))) log
  = (Eff.Normal (Some {| Part001.matricule := m; Part001.nom_complet := n;
                         Part001.cin := c; Part001.date_entree := d |}),
     log).
Proof.
  intros L H0 H2 H3 H13 V. unfold Part001.workerOf.
  change (index (items (JArr (JArr row :: rest))) 0) with (Some (JArr row)).
  cbn [truthy isArray items negb orb List.length Nat.eqb].
  rewrite long_row by exact L. unfold String_.
  rewrite !exec_bind, H0, H2, H3, H13, !toStr_field.
  cbn [Eff.orThrow]. repeat rewrite ?exec_ret, ?exec_bind.
  cbn [Part001.matricule Part001.cin]. rewrite V. reflexivity.
Qed.

Lemma gender_maps (row rest : list value) (m n c d k : jsstring)
  (log : list Request) :
  (14 <= List.length row)%nat ->
  index row 0 = Some (JStr m) -> index row 2 = Some (JStr n) ->
  index row 3 = Some (JStr c) -> index row 13 = Some (JStr d) ->
  toStr (orEmpty (index row 4)) = Some k ->
  isEmpty m && isEmpty c = false ->
  exists g,
    Eff.exec (GenderLookup.workerOf (JArr (JArr row :: rest))) log
    = (Eff.Normal (Some {| GenderLookup.matricule := m;
                           GenderLookup.nom_complet := n;
                           GenderLookup.cin := c;
                           GenderLookup.sexe := g;
                           GenderLookup.date_entree := d |}),
       log).
Proof.
  intros L H0 H2 H3 H13 H4 V. unfold GenderLookup.workerOf.
  change (index (items (JArr (JArr row :: rest))) 0) with (Some (JArr row)).
  cbn [truthy isArray items negb orb List.length Nat.eqb].
  rewrite long_row by exact L.
  unfold String_, GenderLookup.convertGenderCode. unfold String_.
  assert (K : toStr (orEmpty (Some (orEmpty (index row 4)))) = Some k).
  { destruct (index row 4) as [x|]; cbn in *.
    - destruct (truthy x) eqn:T; cbn; [rewrite T; exact H4|exact H4].
    - exact H4. }
  rewrite !exec_bind, H0, H2, H3, H13, !toStr_field, K.
  cbn [Eff.orThrow]. repeat rewrite ?exec_ret, ?exec_bind.
  destruct (jsstring_eqb (trim (toUpperCase k)) "H");
    [|destruct (jsstring_eqb (trim (toUpperCase k)) "M")];
    repeat rewrite ?exec_ret, ?exec_bind;
    cbn [GenderLookup.matricule GenderLookup.cin];
    rewrite V; eexists; reflexivity.
Qed.

End RowMapping.

(** C1, as amended. For a search term that is not blank and an upstream
    answer with a 2xx status whose document has as first element an
    array of at least 14 fields with "M123" at 0, "Jane Doe" at 2,
    "CIN99" at 3 and "15/06/2020" at 13, the lookup settles with a record
    of matricule "M123", full name "Jane Doe", national id "CIN99" and
    entry date "15/06/2020": field 13 as it came, not normalised (in
    the gender-aware module provided field 4 converts to text). Passing
    that entry date to [parseFrenchDate] gives "2020-06-15". *)
Theorem lookup_maps_row :
  forall (host : Host) (net : Lookup.Upstream) (searchValue q t : jsstring)
         (r : Lookup.Response) (row rest : list Lookup.value),
    isEmpty (trim searchValue) = false ->
    encodeURIComponent (trim searchValue) = Some q ->
    net (lookupRequest Part001.GOOGLE_SCRIPT_URL q) = Some r ->
    Lookup.ok r = true ->
    Lookup.body r = Some t ->
    JSON_parse t = Some (JArr (JArr row :: rest)) ->
    (14 <= List.length row)%nat ->
    Lookup.index row 0 = Some (JStr "M123") ->
    Lookup.index row 2 = Some (JStr "Jane Doe") ->
    Lookup.index row 3 = Some (JStr "CIN99") ->
    Lookup.index row 13 = Some (JStr "15/06/2020") ->
    Eff.run (Part001.searchWorkerInGoogleSheet net searchValue)
    = (Eff.Normal
         (Some {| Part001.matricule := "M123";
                  Part001.nom_complet := "Jane Doe";
                  Part001.cin := "CIN99";
                  Part001.date_entree := "15/06/2020" |}),
       [lookupRequest Part001.GOOGLE_SCRIPT_URL q])
    /\ (forall k : jsstring,
          Lookup.toStr (Lookup.orEmpty (Lookup.index row 4)) = Some k ->
          exists g : jsstring,
            Eff.run (GenderLookup.searchWorkerInGoogleSheet net searchValue)
            = (Eff.Normal
                 (Some {| GenderLookup.matricule := "M123";
                          GenderLookup.nom_complet := "Jane Doe";
                          GenderLookup.cin := "CIN99";
                          GenderLookup.sexe := g;
                          GenderLookup.date_entree := "15/06/2020" |}),
               [lookupRequest GenderLookup.GOOGLE_SCRIPT_URL q]))
    /\ Part001Date.parseFrenchDate "15/06/2020" = Some (js "2020-06-15")
    /\ FirebaseDate.parseFrenchDate "15/06/2020" = Some (js "2020-06-15").
Proof.
  intros host net searchValue q t r row rest B Q N K T P L H0 H2 H3 H13.
  assert (E : isEmpty t = false).
  { destruct t; [|reflexivity]. rewrite JSON_parse_empty in P. discriminate. }
  split; [|split; [|split; reflexivity]].
  - rewrite (part001_run net searchValue q B Q). cbv zeta.
    rewrite N, K, T, E, P.
    rewrite (part001_maps row rest _ _ _ _ _ L H0 H2 H3 H13 eq_refl).
    reflexivity.
  - intros k H4. rewrite (gender_run net searchValue q B Q). cbv zeta.
    change GenderLookup.GOOGLE_SCRIPT_URL with Part001.GOOGLE_SCRIPT_URL.
    rewrite N, K, T, E, P.
    destruct (gender_maps row rest _ _ _ _ k
                [lookupRequest Part001.GOOGLE_SCRIPT_URL q]
                L H0 H2 H3 H13 H4 eq_refl) as [g G].
    exists g. rewrite G. reflexivity.
Qed.

Lemma lookup_maps_row_witness :
  Eff.run (@Part001.searchWorkerInGoogleSheet sampleHost
             (answering 200 (stringify sampleRows)) " M123 ")
  = (Eff.Normal
       (Some {| Part001.matricule := "M123";
                Part001.nom_complet := "Jane Doe";
                Part001.cin := "CIN99";
                Part001.date_entree := "15/06/2020" |}),
     [lookupRequest Part001.GOOGLE_SCRIPT_URL "M123"])
  /\ (forall k : jsstring,
        @Lookup.toStr sampleHost
          (@Lookup.orEmpty sampleHost (@Lookup.index sampleHost sampleRow 4))
        = Some k ->
        exists g : jsstring,
          Eff.run (@GenderLookup.searchWorkerInGoogleSheet sampleHost
                     (answering 200 (stringify sampleRows)) " M123 ")
          = (Eff.Normal
               (Some {| GenderLookup.matricule := "M123";
                        GenderLookup.nom_complet := "Jane Doe";
                        GenderLookup.cin := "CIN99";
                        GenderLookup.sexe := g;
                        GenderLookup.date_entree := "15/06/2020" |}),
             [lookupRequest GenderLookup.GOOGLE_SCRIPT_URL "M123"]))
  /\ @Part001Date.parseFrenchDate sampleHost "15/06/2020"
     = Some (js "2020-06-15")
  /\ @FirebaseDate.parseFrenchDate sampleHost "15/06/2020"
     = Some (js "2020-06-15").
Proof.
  refine (lookup_maps_row sampleHost (answering 200 (stringify sampleRows))
            (js " M123 ") (js "M123") (stringify sampleRows)
            {| Lookup.status := 200;
               Lookup.body := Some (stringify sampleRows) |}
            sampleRow [] eq_refl eq_refl eq_refl eq_refl eq_refl eq_refl
            _ eq_refl eq_refl eq_refl eq_refl).
  vm_compute. lia.
Defined.

(** C1 as stated fails: on the row of the specification's example the
    record carries "15/06/2020", which is not "2020-06-15". *)
Lemma lookup_entry_date_counterexample :
  exists w : Part001.GoogleSheetWorker,
    Eff.run (@Part001.searchWorkerInGoogleSheet sampleHost
               (answering 200 (stringify sampleRows)) "M123")
    = (Eff.Normal (Some w),
       [lookupRequest Part001.GOOGLE_SCRIPT_URL "M123"])
    /\ Part001.matricule w = js "M123"
    /\ Part001.date_entree w = js "15/06/2020"
    /\ jsstring_eqb (Part001.date_entree w) "2020-06-15" = false.
Proof.
  eexists. split; [vm_compute; reflexivity|]. repeat split.
Qed.

(** ** The connectivity probe *)

Section ProbeFacts.
Import Firebase.

(** One attempt of the probe, and what follows it. *)
Lemma probe_step (platform : Platform) (retryCount : nat)
  (log : list Event) :
  Eff.exec (testFirebaseConnection platform retryCount) log =
    let o := platform retryCount in
    if negb (onLine o) then (Eff.Normal (failed "Device is offline"), log)
    else if negb (currentUser o) then (Eff.Normal succeeded, log)
    else
      match race o with
      | Fulfilled => (Eff.Normal succeeded, log ++ [theRead])
      | RejectedNullish => (Eff.Throw PropertyOfNullish, log ++ [theRead])
      | Rejected e =>
          if codeIs e "permission-denied"
          then (Eff.Normal (failed rulesMessage), log ++ [theRead])
          else if codeIs e "failed-precondition"
          then (Eff.Normal (failed databaseMessage), log ++ [theRead])
          else if codeIs e "unavailable"
          then (Eff.Normal (failed unavailableMessage), log ++ [theRead])
          else if transient e && (retryCount <? maxRetries)%nat
          then Eff.exec (testFirebaseConnection platform (retryCount + 1))
                 ((log ++ [theRead]) ++ [Wait (delay retryCount)])
          else (Eff.Normal (failed (errorMessageOf e)), log ++ [theRead])
      end.
Proof.
  rewrite testFirebaseConnection_equation_1, exec_try_handle.
  unfold attempt. cbv zeta.
  destruct (onLine (platform retryCount)); [|reflexivity].
  destruct (currentUser (platform retryCount)); [|reflexivity].
  cbn [negb]. unfold getDocRace.
  rewrite !exec_bind, exec_emit. fold theRead.
  destruct (race (platform retryCount)) as [|e|]; [reflexivity| |reflexivity].
  rewrite exec_throw.
  destruct (codeIs e "permission-denied"); [reflexivity|].
  destruct (codeIs e "failed-precondition"); [reflexivity|].
  destruct (codeIs e "unavailable"); [reflexivity|].
  destruct (transient e); [|reflexivity].
  destruct (lt_dec retryCount maxRetries) as [L|G].
  - apply Nat.ltb_lt in L. rewrite L. reflexivity.
  - apply Nat.ltb_nlt in G. rewrite G. reflexivity.
Qed.

Lemma retryable_inv (e : ProbeError) :
  retryable e = true ->
  codeIs e "permission-denied" = false
  /\ codeIs e "failed-precondition" = false
  /\ codeIs e "unavailable" = false
  /\ transient e = true.
Proof.
  unfold retryable, terminalCode. intros H.
  apply andb_true_iff in H. destruct H as [T R].
  apply negb_true_iff in T.
  apply orb_false_iff in T. destruct T as [T U].
  apply orb_false_iff in T. destruct T as [P F]. auto.
Qed.

(** An attempt that fails retryably below the limit is followed by the
    pause and the next attempt. *)
Lemma probe_retry (platform : Platform) (retryCount : nat)
  (log : list Event) :
  (retryCount < maxRetries)%nat ->
  failsRetryably (platform retryCount) ->
  Eff.exec (testFirebaseConnection platform retryCount) log
  = Eff.exec (testFirebaseConnection platform (retryCount + 1))
      (log ++ retries retryCount 1).
Proof.
  intros L (O & U & e & R & Y). rewrite probe_step. cbv zeta.
  rewrite O, U, R. cbn [negb].
  destruct (retryable_inv e Y) as (P & F & V & T). rewrite P, F, V, T.
  apply Nat.ltb_lt in L. rewrite L. cbn [andb].
  unfold retries. cbn [seq flat_map]. rewrite app_nil_r, <- app_assoc.
  reflexivity.
Qed.

Lemma retries_succ (retryCount n : nat) :
  retries retryCount (S n)
  = retries retryCount 1 ++ retries (retryCount + 1) n.
Proof.
  unfold retries. cbn [seq flat_map]. rewrite app_nil_r.
  replace (retryCount + 1)%nat with (S retryCount) by lia. reflexivity.
Qed.

(** [n] attempts in a row that fail retryably. *)
Lemma probe_retries (platform : Platform) (n retryCount : nat)
  (log : list Event) :
  (retryCount + n <= maxRetries)%nat ->
  (forall k, (retryCount <= k < retryCount + n)%nat ->
             failsRetryably (platform k)) ->
  Eff.exec (testFirebaseConnection platform retryCount) log
  = Eff.exec (testFirebaseConnection platform (retryCount + n))
      (log ++ retries retryCount n).
Proof.
  revert retryCount log. induction n as [|n IH]; intros retryCount log L F.
  - rewrite Nat.add_0_r. unfold retries. cbn. rewrite app_nil_r. reflexivity.
  - rewrite (probe_retry platform retryCount log) by (try apply F; lia).
    rewrite (IH (retryCount + 1)%nat (log ++ retries retryCount 1))
      by (try (intros k K; apply F); lia).
    rewrite (retries_succ retryCount n), app_assoc.
    replace (retryCount + 1 + n)%nat with (retryCount + S n)%nat by lia.
    reflexivity.
Qed.

(** The last attempt: a failure at the limit is reported. *)
Lemma probe_gives_up (platform : Platform) (log : list Event) :
  failsRetryably (platform maxRetries) ->
  exists e,
    race (platform maxRetries) = Rejected e
    /\ Eff.exec (testFirebaseConnection platform maxRetries) log
       = (Eff.Normal (failed (errorMessageOf e)), log ++ [theRead]).
Proof.
  intros (O & U & e & R & Y). exists e. split; [exact R|].
  rewrite probe_step. cbv zeta. rewrite O, U, R. cbn [negb].
  destruct (retryable_inv e Y) as (P & F & V & T). rewrite P, F, V, T.
  reflexivity.
Qed.

Lemma waits_app (a b : list Event) : waits (a ++ b) = waits a ++ waits b.
Proof. unfold waits. apply flat_map_app. Qed.

Lemma reads_app (a b : list Event) : reads (a ++ b) = (reads a + reads b)%nat.
Proof. unfold reads. rewrite filter_app. apply length_app. Qed.

Ltac stops :=
  exists 0%nat; cbn [snd seq map];
  rewrite ?waits_app, ?reads_app;
  cbn [waits reads flat_map filter theRead List.length app];
  rewrite ?app_nil_r; repeat split; try reflexivity; lia.

(** Whatever the platform does, the pauses are the delays of the
    attempts made, in order, and each retry costs at most one read. *)
Lemma probe_bounded (platform : Platform) (m retryCount : nat)
  (log : list Event) :
  (retryCount + m = maxRetries)%nat ->
  exists n,
    (n <= m)%nat
    /\ waits (snd (Eff.exec (testFirebaseConnection platform retryCount) log))
       = waits log ++ map delay (seq retryCount n)
    /\ (reads (snd (Eff.exec (testFirebaseConnection platform retryCount) log))
        <= reads log + n + 1)%nat.
Proof.
  revert retryCount log. induction m as [|m IH]; intros retryCount log E;
    rewrite probe_step; cbv zeta;
    (destruct (negb (onLine (platform retryCount))); [stops|]);
    (destruct (negb (currentUser (platform retryCount))); [stops|]);
    (destruct (race (platform retryCount)) as [|e|]; [stops| |stops]);
    (destruct (codeIs e "permission-denied"); [stops|]);
    (destruct (codeIs e "failed-precondition"); [stops|]);
    (destruct (codeIs e "unavailable"); [stops|]).
  - assert (L : (retryCount <? maxRetries)%nat = false)
      by (apply Nat.ltb_ge; lia).
    rewrite L, andb_false_r. stops.
  - destruct (transient e && (retryCount <? maxRetries)%nat); [|stops].
    destruct (IH (retryCount + 1)%nat
                ((log ++ [theRead]) ++ [Wait (delay retryCount)])
                ltac:(lia)) as (n & N & W & R).
    exists (S n). split; [lia|]. rewrite W. split.
    + rewrite !waits_app. cbn [seq map]. cbn [waits flat_map theRead app].
      rewrite app_nil_r, <- !app_assoc. cbn [app].
      replace (retryCount + 1)%nat with (S retryCount) by lia. reflexivity.
    + assert (X : reads ((log ++ [theRead]) ++ [Wait (delay retryCount)])
                  = (reads log + 1)%nat)
        by (rewrite !reads_app; cbn [reads filter theRead List.length]; lia).
      rewrite X in R. lia.
Qed.

End ProbeFacts.

(** ** Claims about the connectivity probe *)

Lemma codeIs_eq (e : Firebase.ProbeError) (c : jsstring) :
  Firebase.codeIs e c = true -> Firebase.code e = Some c.
Proof.
  unfold Firebase.codeIs. destruct (Firebase.code e) as [x|]; [|discriminate].
  intros H. apply jsstring_eqb_eq in H. subst. reflexivity.
Qed.

(** C7. When the runtime reports connectivity and nobody is signed in,
    the probe settles with success and no error text, and its log is
    empty: no remote read was made. *)
Theorem signed_out_probe_succeeds :
  forall (platform : Firebase.Platform) (retryCount : nat),
    Firebase.onLine (platform retryCount) = true ->
    Firebase.currentUser (platform retryCount) = false ->
    Eff.run (Firebase.testFirebaseConnection platform retryCount)
    = (Eff.Normal {| Firebase.success := true; Firebase.error := None |}, []).
Proof.
  intros platform retryCount O U. unfold Eff.run.
  rewrite probe_step. cbv zeta. rewrite O, U. reflexivity.
Qed.

Lemma signed_out_probe_succeeds_witness :
  Eff.run (Firebase.testFirebaseConnection signedOut 0)
  = (Eff.Normal {| Firebase.success := true; Firebase.error := None |}, []).
Proof.
  exact (signed_out_probe_succeeds signedOut 0%nat eq_refl eq_refl).
Defined.

(** A timeout or transport failure without one of the three codes is
    an error the probe retries on. *)
Lemma transport_retryable (e : Firebase.ProbeError) :
  timeoutOrTransport e = true -> codeAmong e configurationCodes = false ->
  retryable e = true.
Proof.
  unfold timeoutOrTransport, codeAmong, configurationCodes, retryable,
    terminalCode, Firebase.transient, Firebase.codeIs,
    Firebase.messageIncludes.
  intros T C. destruct (Firebase.message e) as [m|]; [|discriminate].
  apply andb_true_iff. split.
  - destruct (Firebase.code e) as [c|]; [|reflexivity].
    cbn [existsb] in C. rewrite orb_false_r, orb_assoc in C. rewrite C.
    reflexivity.
  - apply orb_true_iff in T. destruct T as [T|T]; rewrite T;
      rewrite ?orb_true_r; reflexivity.
Qed.

Lemma failsInTransport_retryably (o : Firebase.Observation) :
  failsInTransport o -> failsRetryably o.
Proof.
  intros (O & U & e & R & T & C). repeat split; try assumption.
  exists e. split; [exact R|]. apply transport_retryable; assumption.
Qed.

(** An error with one of the three codes is reported at once. *)
Lemma probe_reports_code (platform : Firebase.Platform) (retryCount : nat)
  (e : Firebase.ProbeError) :
  Firebase.onLine (platform retryCount) = true ->
  Firebase.currentUser (platform retryCount) = true ->
  Firebase.race (platform retryCount) = Firebase.Rejected e ->
  (Firebase.code e = Some (js "permission-denied") ->
   Eff.run (Firebase.testFirebaseConnection platform retryCount)
   = (Eff.Normal (Firebase.failed rulesMessage), [theRead]))
  /\ (Firebase.code e = Some (js "failed-precondition") ->
      Eff.run (Firebase.testFirebaseConnection platform retryCount)
      = (Eff.Normal (Firebase.failed databaseMessage), [theRead]))
  /\ (Firebase.code e = Some (js "unavailable") ->
      Eff.run (Firebase.testFirebaseConnection platform retryCount)
      = (Eff.Normal (Firebase.failed unavailableMessage), [theRead])).
Proof.
  intros O U R. repeat split; intros C; unfold Eff.run;
    rewrite probe_step; cbv zeta; rewrite O, U, R; cbn [negb];
    unfold Firebase.codeIs; rewrite C; reflexivity.
Qed.

(** C2. When every attempt reaches the remote read and fails there with
    an error whose message mentions a timeout or a fetch and whose code
    is none of permission-denied, failed-precondition and unavailable,
    the probe makes four reads with pauses of 2000, 4000 and 8000 ms
    between them and then reports the failure of the last attempt.
    When the attempt after n such failures (n up to 3) succeeds, the
    probe reports success after the first n of these pauses. On any
    platform the pauses are the first n of 2000, 4000, 8000 for some n
    up to 3, with at most n + 1 reads. A read refused with
    permission-denied, failed-precondition or unavailable is reported
    at once, each with its own diagnostic, after that one read and no
    pause, also when the message of the error mentions a timeout or a
    fetch. *)
Theorem probe_retry_policy :
  forall (platform : Firebase.Platform),
    ((forall k, (k <= 3)%nat -> failsInTransport (platform k)) ->
     exists e,
       Firebase.race (platform 3%nat) = Firebase.Rejected e
       /\ Eff.run (Firebase.testFirebaseConnection platform 0)
          = (Eff.Normal (Firebase.failed (Firebase.errorMessageOf e)),
             [theRead; Firebase.Wait 2000; theRead; Firebase.Wait 4000;
              theRead; Firebase.Wait 8000; theRead]))
    /\ (forall n,
          (n <= 3)%nat ->
          (forall k, (k < n)%nat -> failsInTransport (platform k)) ->
          Firebase.onLine (platform n) = true ->
          Firebase.currentUser (platform n) = true ->
          Firebase.race (platform n) = Firebase.Fulfilled ->
          Eff.run (Firebase.testFirebaseConnection platform 0)
          = (Eff.Normal Firebase.succeeded, retries 0 n ++ [theRead])
          /\ waits (retries 0 n ++ [theRead]) = firstn n [2000; 4000; 8000])
    /\ (exists n,
          (n <= 3)%nat
          /\ waits (snd (Eff.run (Firebase.testFirebaseConnection platform 0)))
             = firstn n [2000; 4000; 8000]
          /\ (reads (snd (Eff.run (Firebase.testFirebaseConnection platform 0)))
              <= n + 1)%nat)
    /\ (forall (retryCount : nat) (e : Firebase.ProbeError),
          Firebase.onLine (platform retryCount) = true ->
          Firebase.currentUser (platform retryCount) = true ->
          Firebase.race (platform retryCount) = Firebase.Rejected e ->
          (Firebase.code e = Some (js "permission-denied") ->
           Eff.run (Firebase.testFirebaseConnection platform retryCount)
           = (Eff.Normal (Firebase.failed rulesMessage), [theRead]))
          /\ (Firebase.code e = Some (js "failed-precondition") ->
              Eff.run (Firebase.testFirebaseConnection platform retryCount)
              = (Eff.Normal (Firebase.failed databaseMessage), [theRead]))
          /\ (Firebase.code e = Some (js "unavailable") ->
              Eff.run (Firebase.testFirebaseConnection platform retryCount)
              = (Eff.Normal (Firebase.failed unavailableMessage),
                 [theRead]))).
Proof.
  intros platform. split; [|split; [|split]].
  - intros F. unfold Eff.run.
    rewrite (probe_retries platform 3 0 [])
      by (try (intros k K; apply failsInTransport_retryably, F);
          unfold Firebase.maxRetries; lia).
    destruct (probe_gives_up platform ([] ++ retries 0 3)
                (failsInTransport_retryably _ (F 3%nat (le_n 3))))
      as (e & R & X).
    exists e. split; [exact R|]. exact X.
  - intros n N F O U R. split.
    + unfold Eff.run.
      rewrite (probe_retries platform n 0 [])
        by (try (intros k K; apply failsInTransport_retryably, F);
            unfold Firebase.maxRetries; lia).
      rewrite probe_step. cbv zeta. cbn [Nat.add].
      rewrite O, U, R. reflexivity.
    + destruct n as [|[|[|[|n]]]]; try reflexivity. lia.
  - destruct (probe_bounded platform 3 0 [] eq_refl) as (n & N & W & R).
    exists n. unfold Eff.run. rewrite W. split; [exact N|]. split.
    + destruct n as [|[|[|[|n]]]]; try reflexivity. lia.
    + cbn in R. lia.
  - intros retryCount e. apply probe_reports_code.
Qed.

Lemma probe_retry_policy_witness :
  (exists e,
     Firebase.race (timingOut 3%nat) = Firebase.Rejected e
     /\ Eff.run (Firebase.testFirebaseConnection timingOut 0)
        = (Eff.Normal (Firebase.failed (Firebase.errorMessageOf e)),
           [theRead; Firebase.Wait 2000; theRead; Firebase.Wait 4000;
            theRead; Firebase.Wait 8000; theRead]))
  /\ (exists e,
        Firebase.race (failingWith fetchError 3%nat) = Firebase.Rejected e
        /\ Eff.run (Firebase.testFirebaseConnection (failingWith fetchError) 0)
           = (Eff.Normal (Firebase.failed (Firebase.errorMessageOf e)),
              [theRead; Firebase.Wait 2000; theRead; Firebase.Wait 4000;
               theRead; Firebase.Wait 8000; theRead]))
  /\ Eff.run (Firebase.testFirebaseConnection (refusing "permission-denied") 0)
     = (Eff.Normal (Firebase.failed rulesMessage), [theRead])
  /\ Eff.run (Firebase.testFirebaseConnection
                (refusing "failed-precondition") 0)
     = (Eff.Normal (Firebase.failed databaseMessage), [theRead])
  /\ Eff.run (Firebase.testFirebaseConnection (refusing "unavailable") 0)
     = (Eff.Normal (Firebase.failed unavailableMessage), [theRead]).
Proof.
  split; [|split; [|split; [|split]]].
  - apply (proj1 (probe_retry_policy timingOut)).
    intros k K. repeat split.
    exists Firebase.timeoutError. repeat split; reflexivity.
  - apply (proj1 (probe_retry_policy (failingWith fetchError))).
    intros k K. repeat split.
    exists fetchError. repeat split; reflexivity.
  - exact (proj1 (proj2 (proj2 (proj2
             (probe_retry_policy (refusing "permission-denied"))))
             0%nat _ eq_refl eq_refl eq_refl) eq_refl).
  - exact (proj1 (proj2 (proj2 (proj2 (proj2
             (probe_retry_policy (refusing "failed-precondition"))))
             0%nat _ eq_refl eq_refl eq_refl)) eq_refl).
  - exact (proj2 (proj2 (proj2 (proj2 (proj2
             (probe_retry_policy (refusing "unavailable"))))
             0%nat _ eq_refl eq_refl eq_refl)) eq_refl).
Defined.

(** A failure of the transport that carries the code unavailable is not
    retried: the message of the error names a failed fetch, and the
    probe reports it after the one read, without a pause. *)
Lemma probe_unavailable_counterexample :
  timeoutOrTransport unavailableError = true
  /\ Eff.run (Firebase.testFirebaseConnection (failingWith unavailableError) 0)
     = (Eff.Normal (Firebase.failed unavailableMessage), [theRead])
  /\ waits (snd (Eff.run (Firebase.testFirebaseConnection
                            (failingWith unavailableError) 0))) = [].
Proof. repeat split; reflexivity. Qed.

(** * Further properties *)

(** ** The worker lookup, beyond the claims *)

Section LookupMore.
Context {host : Host}.
Import Lookup.

(** The record of a document, in part_001: the steps from the parsed
    document on make no request. *)
Lemma part001_workerOf_pure (d : value) (log : list Request) :
  Eff.exec (Part001.workerOf d) log =
    match firstRow d with
    | None => (Eff.Normal None, log)
    | Some row =>
        match fieldText row 0, fieldText row 2, fieldText row 3,
              fieldText row 13 with
        | Some m, Some n, Some c, Some dt =>
            (Eff.Normal
               (if isEmpty m && isEmpty c then None
                else Some {| Part001.matricule := m; Part001.nom_complet := n;
                             Part001.cin := c; Part001.date_entree := dt |}),
             log)
        | _, _, _, _ => (Eff.Throw TypeError, log)
        end
    end.
Proof.
  unfold Part001.workerOf, firstRow.
  destruct d as [| b | n | s | l | ms].
  - reflexivity.
  - destruct b; reflexivity.
  - cbn. destruct (double_truthy n); reflexivity.
  - destruct s; reflexivity.
  - destruct l as [|x rest]; [reflexivity|].
    change (index (items (JArr (x :: rest))) 0) with (Some x).
    cbn [truthy isArray items negb orb List.length Nat.eqb].
    destruct x as [| b | n | s | row | ms]; try reflexivity.
    destruct (List.length row <? 14)%nat; [reflexivity|].
    unfold String_, fieldText. rewrite !exec_bind.
    destruct (toStr (orEmpty (index row 0))) as [m|]; [|reflexivity].
    rewrite exec_orThrow_some, exec_bind.
    destruct (toStr (orEmpty (index row 2))) as [n|]; [|reflexivity].
    rewrite exec_orThrow_some, exec_bind.
    destruct (toStr (orEmpty (index row 3))) as [c|]; [|reflexivity].
    rewrite exec_orThrow_some, exec_bind.
    destruct (toStr (orEmpty (index row 13))) as [dt|]; [|reflexivity].
    rewrite exec_orThrow_some.
    cbn [Part001.matricule Part001.cin].
    destruct (isEmpty m && isEmpty c); reflexivity.
  - reflexivity.
Qed.

Lemma part000_workerOf_pure (d : value) (log : list Request) :
  Eff.exec (Part000.workerOf d) log =
    match firstRow d with
    | None => (Eff.Normal None, log)
    | Some row =>
        match fieldText row 0, fieldText row 2, fieldText row 3,
              fieldText row 13 with
        | Some m, Some n, Some c, Some dt =>
            (Eff.Normal
               (if isEmpty m && isEmpty c then None
                else Some {| Part000.matricule := m; Part000.nom_complet := n;
                             Part000.cin := c; Part000.date_entree := dt |}),
             log)
        | _, _, _, _ => (Eff.Throw TypeError, log)
        end
    end.
Proof.
  unfold Part000.workerOf, firstRow.
  destruct d as [| b | n | s | l | ms].
  - reflexivity.
  - destruct b; reflexivity.
  - cbn. destruct (double_truthy n); reflexivity.
  - destruct s; reflexivity.
  - destruct l as [|x rest]; [reflexivity|].
    change (index (items (JArr (x :: rest))) 0) with (Some x).
    cbn [truthy isArray items negb orb List.length Nat.eqb].
    destruct x as [| b | n | s | row | ms]; try reflexivity.
    destruct (List.length row <? 14)%nat; [reflexivity|].
    unfold String_, fieldText. rewrite !exec_bind.
    destruct (toStr (orEmpty (index row 0))) as [m|]; [|reflexivity].
    rewrite exec_orThrow_some, exec_bind.
    destruct (toStr (orEmpty (index row 2))) as [n|]; [|reflexivity].
    rewrite exec_orThrow_some, exec_bind.
    destruct (toStr (orEmpty (index row 3))) as [c|]; [|reflexivity].
    rewrite exec_orThrow_some, exec_bind.
    destruct (toStr (orEmpty (index row 13))) as [dt|]; [|reflexivity].
    rewrite exec_orThrow_some.
    cbn [Part000.matricule Part000.cin].
    destruct (isEmpty m && isEmpty c); reflexivity.
  - reflexivity.
Qed.

(** [(v || '') || ''] is [v || '']. *)
Lemma orEmpty_twice (o : option value) :
  orEmpty (Some (orEmpty o)) = orEmpty o.
Proof.
  destruct o as [x|]; [|reflexivity]. cbn.
  destruct (truthy x) eqn:T; cbn; [rewrite T|]; reflexivity.
Qed.

Lemma exec_convertGenderCode (row : list value) (log : list Request) :
  Eff.exec (GenderLookup.convertGenderCode (orEmpty (index row 4))) log =
    match fieldText row 4 with
    | Some k => (Eff.Normal (genderText k), log)
    | None => (Eff.Throw TypeError, log)
    end.
Proof.
  unfold GenderLookup.convertGenderCode, String_, fieldText, genderText.
  rewrite exec_bind, orEmpty_twice.
  destruct (toStr (orEmpty (index row 4))) as [k|]; [|reflexivity].
  rewrite exec_orThrow_some. cbv zeta.
  destruct (jsstring_eqb (trim (toUpperCase k)) "H"); [reflexivity|].
  destruct (jsstring_eqb (trim (toUpperCase k)) "M"); reflexivity.
Qed.

Lemma gender_workerOf_pure (d : value) (log : list Request) :
  Eff.exec (GenderLookup.workerOf d) log =
    match firstRow d with
    | None => (Eff.Normal None, log)
    | Some row =>
        match fieldText row 0, fieldText row 2, fieldText row 3,
              fieldText row 4, fieldText row 13 with
        | Some m, Some n, Some c, Some k, Some dt =>
            (Eff.Normal
               (if isEmpty m && isEmpty c then None
                else Some {| GenderLookup.matricule := m;
                             GenderLookup.nom_complet := n;
                             GenderLookup.cin := c;
                             GenderLookup.sexe := genderText k;
                             GenderLookup.date_entree := dt |}),
             log)
        | _, _, _, _, _ => (Eff.Throw TypeError, log)
        end
    end.
Proof.
  unfold GenderLookup.workerOf, firstRow.
  destruct d as [| b | n | s | l | ms].
  - reflexivity.
  - destruct b; reflexivity.
  - cbn. destruct (double_truthy n); reflexivity.
  - destruct s; reflexivity.
  - destruct l as [|x rest]; [reflexivity|].
    change (index (items (JArr (x :: rest))) 0) with (Some x).
    cbn [truthy isArray items negb orb List.length Nat.eqb].
    destruct x as [| b | n | s | row | ms]; try reflexivity.
    destruct (List.length row <? 14)%nat; [reflexivity|].
    unfold String_ at 1 2 3. unfold fieldText at 1 2 3. rewrite !exec_bind.
    destruct (toStr (orEmpty (index row 0))) as [m|]; [|reflexivity].
    rewrite exec_orThrow_some, exec_bind.
    destruct (toStr (orEmpty (index row 2))) as [n|]; [|reflexivity].
    rewrite exec_orThrow_some, exec_bind.
    destruct (toStr (orEmpty (index row 3))) as [c|]; [|reflexivity].
    rewrite exec_orThrow_some, exec_bind, exec_convertGenderCode.
    destruct (fieldText row 4) as [k|]; [|reflexivity].
    rewrite exec_bind. unfold String_, fieldText.
    destruct (toStr (orEmpty (index row 13))) as [dt|]; [|reflexivity].
    rewrite exec_orThrow_some.
    cbn [GenderLookup.matricule GenderLookup.cin].
    destruct (isEmpty m && isEmpty c); reflexivity.
  - reflexivity.
Qed.

(** A term the URI encoder refuses: the [catch] returns null before any
    request. *)
Lemma part001_run_refused (net : Upstream) (searchValue : jsstring) :
  isEmpty (trim searchValue) = false ->
  encodeURIComponent (trim searchValue) = None ->
  Eff.run (Part001.searchWorkerInGoogleSheet net searchValue)
  = (Eff.Normal None, []).
Proof.
  intros B Q. unfold Part001.searchWorkerInGoogleSheet, Eff.run.
  rewrite blank_guard, B, exec_try_catch, exec_bind.
  unfold searchUrl. rewrite exec_bind, Q. reflexivity.
Qed.

Lemma gender_run_refused (net : Upstream) (searchValue : jsstring) :
  isEmpty (trim searchValue) = false ->
  encodeURIComponent (trim searchValue) = None ->
  Eff.run (GenderLookup.searchWorkerInGoogleSheet net searchValue)
  = (Eff.Normal None, []).
Proof.
  intros B Q. unfold GenderLookup.searchWorkerInGoogleSheet, Eff.run.
  rewrite blank_guard, B, exec_try_catch, exec_bind.
  unfold searchUrl. rewrite exec_bind, Q. reflexivity.
Qed.

Lemma part000_run_refused (net : Upstream) (searchValue : jsstring) :
  isEmpty (trim searchValue) = false ->
  encodeURIComponent (trim searchValue) = None ->
  Eff.run (Part000.searchWorkerInGoogleSheet net searchValue)
  = (Eff.Normal None, []).
Proof.
  intros B Q. unfold Part000.searchWorkerInGoogleSheet, Eff.run.
  rewrite blank_guard, B, exec_try_catch, exec_bind.
  unfold searchUrl. rewrite exec_bind, Q. reflexivity.
Qed.

Lemma blank_run (net : Upstream) (searchValue : jsstring) :
  isEmpty (trim searchValue) = true ->
  Eff.run (Part001.searchWorkerInGoogleSheet net searchValue)
  = (Eff.Normal None, [])
  /\ Eff.run (GenderLookup.searchWorkerInGoogleSheet net searchValue)
     = (Eff.Normal None, [])
  /\ Eff.run (Part000.searchWorkerInGoogleSheet net searchValue)
     = (Eff.Normal None, []).
Proof.
  intros B.
  unfold Part001.searchWorkerInGoogleSheet,
    GenderLookup.searchWorkerInGoogleSheet,
    Part000.searchWorkerInGoogleSheet.
  rewrite blank_guard, B. auto.
Qed.

End LookupMore.

Section LookupExtras.
Import Lookup.

Ltac split_run001 net searchValue :=
  let B := fresh "B" in let Q := fresh "Q" in
  destruct (isEmpty (trim searchValue)) eqn:B;
  [ rewrite (proj1 (blank_run net searchValue B))
  | destruct (encodeURIComponent (trim searchValue)) as [?q|] eqn:Q;
    [ rewrite (part001_run net searchValue _ B Q); cbv zeta
    | rewrite (part001_run_refused net searchValue B Q) ] ].

Ltac split_runG net searchValue :=
  let B := fresh "B" in let Q := fresh "Q" in
  destruct (isEmpty (trim searchValue)) eqn:B;
  [ rewrite (proj1 (proj2 (blank_run net searchValue B)))
  | destruct (encodeURIComponent (trim searchValue)) as [?q|] eqn:Q;
    [ rewrite (gender_run net searchValue _ B Q); cbv zeta
    | rewrite (gender_run_refused net searchValue B Q) ] ].

Ltac split_run000 net searchValue :=
  let B := fresh "B" in let Q := fresh "Q" in
  destruct (isEmpty (trim searchValue)) eqn:B;
  [ rewrite (proj2 (proj2 (blank_run net searchValue B)))
  | destruct (encodeURIComponent (trim searchValue)) as [?q|] eqn:Q;
    [ rewrite (part000_run net searchValue _ B Q); cbv zeta
    | rewrite (part000_run_refused net searchValue B Q) ] ].

(** The answer of the upstream, case by case. *)
Ltac split_answer :=
  repeat match goal with
         | |- context [match ?net (lookupRequest ?b ?q) with _ => _ end] =>
             destruct (net (lookupRequest b q)) as [?r|] eqn:?N
         | |- context [if ok ?r then _ else _] => destruct (ok r) eqn:?K
         | |- context [match body ?r with _ => _ end] =>
             destruct (body r) as [?t|] eqn:?T
         | |- context [if isEmpty ?t then _ else _] =>
             destruct (isEmpty t) eqn:?E
         | |- context [match JSON_parse ?t with _ => _ end] =>
             destruct (JSON_parse t) as [?d|] eqn:?P
         end.

Ltac split_record :=
  rewrite ?part001_workerOf_pure, ?gender_workerOf_pure,
    ?part000_workerOf_pure;
  repeat match goal with
         | |- context [match firstRow ?d with _ => _ end] =>
             destruct (firstRow d) as [?row|] eqn:?F
         | |- context [match fieldText ?row ?i with _ => _ end] =>
             destruct (fieldText row i) as [?x|] eqn:?X
         end;
  cbn [caught].

(** X1. Whatever the term and the upstream, a lookup sends no request
    or exactly one: a GET that accepts JSON, to the endpoint of its
    module with the encoded trimmed term as [search] parameter. *)
Theorem lookup_sends_at_most_one_request :
  forall (host : Host) (net : Upstream) (searchValue : jsstring),
    (snd (Eff.run (Part001.searchWorkerInGoogleSheet net searchValue)) = []
     \/ exists q,
          encodeURIComponent (trim searchValue) = Some q
          /\ snd (Eff.run (Part001.searchWorkerInGoogleSheet net searchValue))
             = [{| url := Part001.GOOGLE_SCRIPT_URL ++ js "?search=" ++ q;
                   method := "GET"; accept := "application/json" |}])
    /\ (snd (Eff.run (GenderLookup.searchWorkerInGoogleSheet net searchValue))
        = []
        \/ exists q,
             encodeURIComponent (trim searchValue) = Some q
             /\ snd (Eff.run
                       (GenderLookup.searchWorkerInGoogleSheet net searchValue))
                = [{| url := GenderLookup.GOOGLE_SCRIPT_URL
                             ++ js "?search=" ++ q;
                      method := "GET"; accept := "application/json" |}])
    /\ (snd (Eff.run (Part000.searchWorkerInGoogleSheet net searchValue)) = []
        \/ exists q,
             encodeURIComponent (trim searchValue) = Some q
             /\ snd (Eff.run (Part000.searchWorkerInGoogleSheet net searchValue))
                = [{| url := Part000.GOOGLE_SCRIPT_URL ++ js "?search=" ++ q;
                      method := "GET"; accept := "application/json" |}]).
Proof.
  intros host net searchValue. split; [|split].
  - split_run001 net searchValue; [left; reflexivity| |left; reflexivity].
    right. exists q. split; [reflexivity|].
    split_answer; split_record; try reflexivity;
      match goal with |- context [if ?b then _ else _] => destruct b end;
      reflexivity.
  - split_runG net searchValue; [left; reflexivity| |left; reflexivity].
    right. exists q. split; [reflexivity|].
    split_answer; split_record; try reflexivity;
      match goal with |- context [if ?b then _ else _] => destruct b end;
      reflexivity.
  - split_run000 net searchValue; [left; reflexivity| |left; reflexivity].
    right. exists q. split; [reflexivity|].
    split_answer; split_record; try reflexivity;
      match goal with |- context [if ?b then _ else _] => destruct b end;
      reflexivity.
Qed.

(** X2. Only the trimmed term counts: two terms that differ in the
    white space around them get the same answer and cause the same
    request. *)
Theorem lookup_ignores_padding :
  forall (host : Host) (net : Upstream) (a b : jsstring),
    trim a = trim b ->
    Eff.run (Part001.searchWorkerInGoogleSheet net a)
    = Eff.run (Part001.searchWorkerInGoogleSheet net b)
    /\ Eff.run (GenderLookup.searchWorkerInGoogleSheet net a)
       = Eff.run (GenderLookup.searchWorkerInGoogleSheet net b)
    /\ Eff.run (Part000.searchWorkerInGoogleSheet net a)
       = Eff.run (Part000.searchWorkerInGoogleSheet net b).
Proof.
  intros host net a b H.
  unfold Part001.searchWorkerInGoogleSheet,
    GenderLookup.searchWorkerInGoogleSheet,
    Part000.searchWorkerInGoogleSheet, searchUrl.
  rewrite !blank_guard, H. auto.
Qed.

Lemma lookup_ignores_padding_witness :
  Eff.run (@Part001.searchWorkerInGoogleSheet sampleHost
             (answering 200 (stringify sampleRows)) "  M123 ")
  = Eff.run (@Part001.searchWorkerInGoogleSheet sampleHost
               (answering 200 (stringify sampleRows)) "M123")
  /\ Eff.run (@GenderLookup.searchWorkerInGoogleSheet sampleHost
                (answering 200 (stringify sampleRows)) "  M123 ")
     = Eff.run (@GenderLookup.searchWorkerInGoogleSheet sampleHost
                  (answering 200 (stringify sampleRows)) "M123")
  /\ Eff.run (@Part000.searchWorkerInGoogleSheet sampleHost
                (answering 200 (stringify sampleRows)) "  M123 ")
     = Eff.run (@Part000.searchWorkerInGoogleSheet sampleHost
                  (answering 200 (stringify sampleRows)) "M123").
Proof.
  exact (lookup_ignores_padding sampleHost
           (answering 200 (stringify sampleRows))
           (js "  M123 ") (js "M123") eq_refl).
Defined.

Lemma genderText_value {host : Host} (k : jsstring) :
  genderValue (genderText k) = true.
Proof.
  unfold genderText. cbv zeta.
  destruct (jsstring_eqb (trim (toUpperCase k)) "H"); [reflexivity|].
  destruct (jsstring_eqb (trim (toUpperCase k)) "M"); reflexivity.
Qed.

(** X3. Every record a lookup returns has a matricule or a national id
    that is not empty, and in the gender-aware module its [sexe] is
    "homme", "femme" or the empty text. *)
Theorem lookup_record_is_valid :
  forall (host : Host) (net : Upstream) (searchValue : jsstring),
    (forall w log,
       Eff.run (Part001.searchWorkerInGoogleSheet net searchValue)
       = (Eff.Normal (Some w), log) ->
       isEmpty (Part001.matricule w) && isEmpty (Part001.cin w) = false)
    /\ (forall w log,
          Eff.run (GenderLookup.searchWorkerInGoogleSheet net searchValue)
          = (Eff.Normal (Some w), log) ->
          isEmpty (GenderLookup.matricule w) && isEmpty (GenderLookup.cin w)
          = false
          /\ genderValue (GenderLookup.sexe w) = true)
    /\ (forall w log,
          Eff.run (Part000.searchWorkerInGoogleSheet net searchValue)
          = (Eff.Normal (Some w), log) ->
          isEmpty (Part000.matricule w) && isEmpty (Part000.cin w) = false).
Proof.
  intros host net searchValue. split; [|split]; intros w log.
  - split_run001 net searchValue; try discriminate.
    split_answer; split_record; try discriminate.
    destruct (isEmpty x && isEmpty x1) eqn:V; [discriminate|].
    intros H. injection H as <- _. exact V.
  - split_runG net searchValue; try discriminate.
    split_answer; split_record; try discriminate.
    destruct (isEmpty x && isEmpty x1) eqn:V; [discriminate|].
    intros H. injection H as <- _. split; [exact V|].
    apply genderText_value.
  - split_run000 net searchValue; try discriminate.
    split_answer; split_record; try discriminate.
    destruct (isEmpty x && isEmpty x1) eqn:V; [discriminate|].
    intros H. injection H as <- _. exact V.
Qed.

Lemma lookup_record_is_valid_witness :
  isEmpty (Part001.matricule
             {| Part001.matricule := "M123";
                Part001.nom_complet := "Jane Doe";
                Part001.cin := "CIN99";
                Part001.date_entree := "15/06/2020" |})
  && isEmpty (Part001.cin
                {| Part001.matricule := "M123";
                   Part001.nom_complet := "Jane Doe";
                   Part001.cin := "CIN99";
                   Part001.date_entree := "15/06/2020" |}) = false.
Proof.
  exact (proj1 (lookup_record_is_valid sampleHost
                  (answering 200 (stringify sampleRows)) (js "M123"))
           _ _ eq_refl).
Defined.

(** X4. Three more causes end in null, like the listed failures: a
    term the URI encoder refuses (and then no request is sent), an
    upstream that cannot be reached, and a body that cannot be read. *)
Theorem lookup_other_failures :
  forall (host : Host) (net : Upstream) (searchValue : jsstring),
    isEmpty (trim searchValue) = false ->
    (encodeURIComponent (trim searchValue) = None ->
     Eff.run (Part001.searchWorkerInGoogleSheet net searchValue)
     = (Eff.Normal None, [])
     /\ Eff.run (GenderLookup.searchWorkerInGoogleSheet net searchValue)
        = (Eff.Normal None, [])
     /\ Eff.run (Part000.searchWorkerInGoogleSheet net searchValue)
        = (Eff.Normal None, []))
    /\ (forall q,
          encodeURIComponent (trim searchValue) = Some q ->
          (forall base,
             net (lookupRequest base q) = None
             \/ (exists r, net (lookupRequest base q) = Some r
                           /\ body r = None)) ->
          Eff.run (Part001.searchWorkerInGoogleSheet net searchValue)
          = (Eff.Normal None, [lookupRequest Part001.GOOGLE_SCRIPT_URL q])
          /\ Eff.run (GenderLookup.searchWorkerInGoogleSheet net searchValue)
             = (Eff.Normal None,
                [lookupRequest GenderLookup.GOOGLE_SCRIPT_URL q])
          /\ Eff.run (Part000.searchWorkerInGoogleSheet net searchValue)
             = (Eff.Normal None,
                [lookupRequest Part000.GOOGLE_SCRIPT_URL q])).
Proof.
  intros host net searchValue B. split.
  - intros Q. split; [|split].
    + apply part001_run_refused; assumption.
    + apply gender_run_refused; assumption.
    + apply part000_run_refused; assumption.
  - intros q Q D. split; [|split].
    + rewrite (part001_run net searchValue q B Q). cbv zeta.
      destruct (D Part001.GOOGLE_SCRIPT_URL) as [N|(r & N & T)]; rewrite N;
        [reflexivity|]. rewrite T. destruct (ok r); reflexivity.
    + rewrite (gender_run net searchValue q B Q). cbv zeta.
      destruct (D GenderLookup.GOOGLE_SCRIPT_URL) as [N|(r & N & T)];
        rewrite N; [reflexivity|]. rewrite T. destruct (ok r); reflexivity.
    + rewrite (part000_run net searchValue q B Q). cbv zeta.
      destruct (D Part000.GOOGLE_SCRIPT_URL) as [N|(r & N & T)]; rewrite N;
        [reflexivity|]. rewrite T. destruct (ok r); reflexivity.
Qed.

Lemma lookup_other_failures_witness :
  (Eff.run (@Part001.searchWorkerInGoogleSheet strictHost
              (answering 200 (stringify sampleRows)) [77%N; 55357%N])
   = (Eff.Normal None, [])
   /\ Eff.run (@GenderLookup.searchWorkerInGoogleSheet strictHost
                 (answering 200 (stringify sampleRows)) [77%N; 55357%N])
      = (Eff.Normal None, [])
   /\ Eff.run (@Part000.searchWorkerInGoogleSheet strictHost
                 (answering 200 (stringify sampleRows)) [77%N; 55357%N])
      = (Eff.Normal None, []))
  /\ (Eff.run (@Part001.searchWorkerInGoogleSheet strictHost unreachable "M123")
      = (Eff.Normal None, [lookupRequest Part001.GOOGLE_SCRIPT_URL "M123"])
      /\ Eff.run (@GenderLookup.searchWorkerInGoogleSheet strictHost
                    unreachable "M123")
         = (Eff.Normal None,
            [lookupRequest GenderLookup.GOOGLE_SCRIPT_URL "M123"])
      /\ Eff.run (@Part000.searchWorkerInGoogleSheet strictHost
                    unreachable "M123")
         = (Eff.Normal None, [lookupRequest Part000.GOOGLE_SCRIPT_URL "M123"]))
  /\ (Eff.run (@Part001.searchWorkerInGoogleSheet strictHost unreadable "M123")
      = (Eff.Normal None, [lookupRequest Part001.GOOGLE_SCRIPT_URL "M123"])
      /\ Eff.run (@GenderLookup.searchWorkerInGoogleSheet strictHost
                    unreadable "M123")
         = (Eff.Normal None,
            [lookupRequest GenderLookup.GOOGLE_SCRIPT_URL "M123"])
      /\ Eff.run (@Part000.searchWorkerInGoogleSheet strictHost
                    unreadable "M123")
         = (Eff.Normal None, [lookupRequest Part000.GOOGLE_SCRIPT_URL "M123"])).
Proof.
  split; [|split].
  - exact (proj1 (lookup_other_failures strictHost
                    (answering 200 (stringify sampleRows))
                    [77%N; 55357%N] eq_refl) eq_refl).
  - exact (proj2 (lookup_other_failures strictHost unreachable (js "M123")
                    eq_refl) (js "M123") eq_refl
             (fun base => or_introl eq_refl)).
  - exact (proj2 (lookup_other_failures strictHost unreadable (js "M123")
                    eq_refl) (js "M123") eq_refl
             (fun base =>
                or_intror
                  (ex_intro _ {| status := 200; body := None |}
                     (conj eq_refl eq_refl)))).
Defined.

(** What a well-received answer gives. *)
Lemma received_run (host : Host) (net : Upstream)
  (searchValue q t : jsstring) (r : Response) (d : value) :
  isEmpty (trim searchValue) = false ->
  encodeURIComponent (trim searchValue) = Some q ->
  (forall base, net (lookupRequest base q) = Some r) ->
  ok r = true -> body r = Some t -> JSON_parse t = Some d ->
  Eff.run (Part001.searchWorkerInGoogleSheet net searchValue)
  = caught (Eff.exec (Part001.workerOf d)
              [lookupRequest Part001.GOOGLE_SCRIPT_URL q])
  /\ Eff.run (GenderLookup.searchWorkerInGoogleSheet net searchValue)
     = caught (Eff.exec (GenderLookup.workerOf d)
                 [lookupRequest GenderLookup.GOOGLE_SCRIPT_URL q])
  /\ Eff.run (Part000.searchWorkerInGoogleSheet net searchValue)
     = caught (Eff.exec (Part000.workerOf d)
                 [lookupRequest Part000.GOOGLE_SCRIPT_URL q]).
Proof.
  intros B Q N K T P.
  assert (E : isEmpty t = false).
  { destruct t; [|reflexivity]. rewrite JSON_parse_empty in P. discriminate. }
  split; [|split].
  - rewrite (part001_run net searchValue q B Q). cbv zeta.
    rewrite N, K, T, E, P. reflexivity.
  - rewrite (gender_run net searchValue q B Q). cbv zeta.
    rewrite N, K, T, E, P. reflexivity.
  - rewrite (part000_run net searchValue q B Q). cbv zeta.
    rewrite N, K, T, P. reflexivity.
Qed.

(** X5. Only the first row counts: two answers whose documents start
    with the same row give the same result, whatever rows follow. *)
Theorem lookup_takes_first_row :
  forall (host : Host) (net net' : Upstream) (searchValue q t t' : jsstring)
         (r r' : Response) (first : value) (rest rest' : list value),
    isEmpty (trim searchValue) = false ->
    encodeURIComponent (trim searchValue) = Some q ->
    (forall base, net (lookupRequest base q) = Some r) ->
    ok r = true -> body r = Some t ->
    JSON_parse t = Some (JArr (first :: rest)) ->
    (forall base, net' (lookupRequest base q) = Some r') ->
    ok r' = true -> body r' = Some t' ->
    JSON_parse t' = Some (JArr (first :: rest')) ->
    Eff.run (Part001.searchWorkerInGoogleSheet net searchValue)
    = Eff.run (Part001.searchWorkerInGoogleSheet net' searchValue)
    /\ Eff.run (GenderLookup.searchWorkerInGoogleSheet net searchValue)
       = Eff.run (GenderLookup.searchWorkerInGoogleSheet net' searchValue)
    /\ Eff.run (Part000.searchWorkerInGoogleSheet net searchValue)
       = Eff.run (Part000.searchWorkerInGoogleSheet net' searchValue).
Proof.
  intros host net net' searchValue q t t' r r' first rest rest'
    B Q N K T P N' K' T' P'.
  destruct (received_run host net searchValue q t r _ B Q N K T P)
    as (A & G & Z).
  destruct (received_run host net' searchValue q t' r' _ B Q N' K' T' P')
    as (A' & G' & Z').
  rewrite A, A', G, G', Z, Z'.
  rewrite !part001_workerOf_pure, !gender_workerOf_pure,
    !part000_workerOf_pure.
  repeat split; reflexivity.
Qed.

Lemma lookup_takes_first_row_witness :
  Eff.run (@Part001.searchWorkerInGoogleSheet strictHost
             (answering 200 (stringify (JArr [JArr sampleRow])))
             "M123")
  = Eff.run (@Part001.searchWorkerInGoogleSheet strictHost
               (answering 200
                  (stringify (JArr [JArr sampleRow; JArr otherRow])))
               "M123")
  /\ Eff.run (@GenderLookup.searchWorkerInGoogleSheet strictHost
                (answering 200 (stringify (JArr [JArr sampleRow])))
                "M123")
     = Eff.run (@GenderLookup.searchWorkerInGoogleSheet strictHost
                  (answering 200
                     (stringify (JArr [JArr sampleRow; JArr otherRow])))
                  "M123")
  /\ Eff.run (@Part000.searchWorkerInGoogleSheet strictHost
                (answering 200 (stringify (JArr [JArr sampleRow])))
                "M123")
     = Eff.run (@Part000.searchWorkerInGoogleSheet strictHost
                  (answering 200
                     (stringify (JArr [JArr sampleRow; JArr otherRow])))
                  "M123").
Proof.
  exact (lookup_takes_first_row strictHost
           (answering 200 (stringify (JArr [JArr sampleRow])))
           (answering 200 (stringify (JArr [JArr sampleRow; JArr otherRow])))
           (js "M123") (js "M123")
           (stringify (JArr [JArr sampleRow]))
           (stringify (JArr [JArr sampleRow; JArr otherRow]))
           {| status := 200;
              body := Some (stringify (JArr [JArr sampleRow])) |}
           {| status := 200;
              body := Some (stringify (JArr [JArr sampleRow; JArr otherRow])) |}
           (JArr sampleRow) [] [JArr otherRow]
           eq_refl eq_refl (fun _ => eq_refl) eq_refl eq_refl eq_refl
           (fun _ => eq_refl) eq_refl eq_refl eq_refl).
Defined.

(** X6. A received first row of at least 14 fields is mapped field by
    field, whatever the values: fields 0, 2, 3 and 13 (and the gender
    code from field 4) as [String(v || '')] reads them. The result is
    null when matricule and national id are both empty, or when a
    field has no text. *)
Theorem lookup_maps_received_row :
  forall (host : Host) (net : Upstream) (searchValue q t : jsstring)
         (r : Response) (d : value) (row : list value),
    isEmpty (trim searchValue) = false ->
    encodeURIComponent (trim searchValue) = Some q ->
    (forall base, net (lookupRequest base q) = Some r) ->
    ok r = true -> body r = Some t -> JSON_parse t = Some d ->
    firstRow d = Some row ->
    Eff.run (Part001.searchWorkerInGoogleSheet net searchValue)
    = (Eff.Normal
         match fieldText row 0, fieldText row 2, fieldText row 3,
               fieldText row 13 with
         | Some m, Some n, Some c, Some dt =>
             if isEmpty m && isEmpty c then None
             else Some {| Part001.matricule := m; Part001.nom_complet := n;
                          Part001.cin := c; Part001.date_entree := dt |}
         | _, _, _, _ => None
         end,
       [lookupRequest Part001.GOOGLE_SCRIPT_URL q])
    /\ Eff.run (GenderLookup.searchWorkerInGoogleSheet net searchValue)
       = (Eff.Normal
            match fieldText row 0, fieldText row 2, fieldText row 3,
                  fieldText row 4, fieldText row 13 with
            | Some m, Some n, Some c, Some k, Some dt =>
                if isEmpty m && isEmpty c then None
                else Some {| GenderLookup.matricule := m;
                             GenderLookup.nom_complet := n;
                             GenderLookup.cin := c;
                             GenderLookup.sexe := genderText k;
                             GenderLookup.date_entree := dt |}
            | _, _, _, _, _ => None
            end,
          [lookupRequest GenderLookup.GOOGLE_SCRIPT_URL q])
    /\ Eff.run (Part000.searchWorkerInGoogleSheet net searchValue)
       = (Eff.Normal
            match fieldText row 0, fieldText row 2, fieldText row 3,
                  fieldText row 13 with
            | Some m, Some n, Some c, Some dt =>
                if isEmpty m && isEmpty c then None
                else Some {| Part000.matricule := m;
                             Part000.nom_complet := n;
                             Part000.cin := c; Part000.date_entree := dt |}
            | _, _, _, _ => None
            end,
          [lookupRequest Part000.GOOGLE_SCRIPT_URL q]).
Proof.
  intros host net searchValue q t r d row B Q N K T P F.
  destruct (received_run host net searchValue q t r _ B Q N K T P)
    as (A & G & Z).
  rewrite A, G, Z.
  rewrite part001_workerOf_pure, gender_workerOf_pure,
    part000_workerOf_pure, F.
  destruct (fieldText row 0) as [m|]; [|repeat split; reflexivity].
  destruct (fieldText row 2) as [n|]; [|repeat split; reflexivity].
  destruct (fieldText row 3) as [c|]; [|repeat split; reflexivity].
  destruct (fieldText row 4) as [k|];
    (destruct (fieldText row 13) as [dt|]; repeat split; reflexivity).
Qed.

Lemma lookup_maps_received_row_witness :
  Eff.run (@Part001.searchWorkerInGoogleSheet strictHost
             (answering 200 (stringify (JArr [JArr numericRow]))) "4521")
  = (Eff.Normal
       (Some {| Part001.matricule := "4521";
                Part001.nom_complet := "Jane Doe";
                Part001.cin := "";
                Part001.date_entree := "" |}),
     [lookupRequest Part001.GOOGLE_SCRIPT_URL "4521"])
  /\ Eff.run (@GenderLookup.searchWorkerInGoogleSheet strictHost
                (answering 200 (stringify (JArr [JArr numericRow]))) "4521")
     = (Eff.Normal
          (Some {| GenderLookup.matricule := "4521";
                   GenderLookup.nom_complet := "Jane Doe";
                   GenderLookup.cin := "";
                   GenderLookup.sexe := "femme";
                   GenderLookup.date_entree := "" |}),
        [lookupRequest GenderLookup.GOOGLE_SCRIPT_URL "4521"])
  /\ Eff.run (@Part000.searchWorkerInGoogleSheet strictHost
                (answering 200 (stringify (JArr [JArr numericRow]))) "4521")
     = (Eff.Normal
          (Some {| Part000.matricule := "4521";
                   Part000.nom_complet := "Jane Doe";
                   Part000.cin := "";
                   Part000.date_entree := "" |}),
        [lookupRequest Part000.GOOGLE_SCRIPT_URL "4521"]).
Proof.
  exact (lookup_maps_received_row strictHost
           (answering 200 (stringify (JArr [JArr numericRow])))
           (js "4521") (js "4521") (stringify (JArr [JArr numericRow]))
           {| status := 200;
              body := Some (stringify (JArr [JArr numericRow])) |}
           (JArr [JArr numericRow]) numericRow
           eq_refl eq_refl (fun _ => eq_refl) eq_refl eq_refl eq_refl
           eq_refl).
Defined.

(** The text of a falsy field is empty. *)
Lemma fieldText_falsy {host : Host} (row : list value) (i : nat) (v : value) :
  nth_error row i = Some v -> truthy v = false -> fieldText row i = Some [].
Proof.
  intros I V. unfold fieldText, index. rewrite I. cbn. rewrite V. reflexivity.
Qed.

(** X7. A received row whose matricule and national id are both falsy
    (null, false, 0, the empty text) gives null, whatever the other
    fields hold. *)
Theorem lookup_rejects_falsy_identifiers :
  forall (host : Host) (net : Upstream) (searchValue q t : jsstring)
         (r : Response) (d : value) (row : list value) (a c : value),
    isEmpty (trim searchValue) = false ->
    encodeURIComponent (trim searchValue) = Some q ->
    (forall base, net (lookupRequest base q) = Some r) ->
    ok r = true -> body r = Some t -> JSON_parse t = Some d ->
    firstRow d = Some row ->
    nth_error row 0 = Some a -> truthy a = false ->
    nth_error row 3 = Some c -> truthy c = false ->
    Eff.run (Part001.searchWorkerInGoogleSheet net searchValue)
    = (Eff.Normal None, [lookupRequest Part001.GOOGLE_SCRIPT_URL q])
    /\ Eff.run (GenderLookup.searchWorkerInGoogleSheet net searchValue)
       = (Eff.Normal None, [lookupRequest GenderLookup.GOOGLE_SCRIPT_URL q])
    /\ Eff.run (Part000.searchWorkerInGoogleSheet net searchValue)
       = (Eff.Normal None, [lookupRequest Part000.GOOGLE_SCRIPT_URL q]).
Proof.
  intros host net searchValue q t r d row a c B Q N K T P F I0 V0 I3 V3.
  destruct (received_run host net searchValue q t r _ B Q N K T P)
    as (A & G & Z).
  rewrite A, G, Z.
  rewrite part001_workerOf_pure, gender_workerOf_pure,
    part000_workerOf_pure, F.
  rewrite (fieldText_falsy row 0 a I0 V0), (fieldText_falsy row 3 c I3 V3).
  destruct (fieldText row 2) as [n|]; [|repeat split; reflexivity].
  destruct (fieldText row 4) as [k|];
    (destruct (fieldText row 13) as [dt|]; repeat split; reflexivity).
Qed.

Lemma lookup_rejects_falsy_identifiers_witness :
  Eff.run (@Part001.searchWorkerInGoogleSheet strictHost
             (answering 200 (stringify (JArr [JArr falsyRow]))) "Jane")
  = (Eff.Normal None, [lookupRequest Part001.GOOGLE_SCRIPT_URL "Jane"])
  /\ Eff.run (@GenderLookup.searchWorkerInGoogleSheet strictHost
                (answering 200 (stringify (JArr [JArr falsyRow]))) "Jane")
     = (Eff.Normal None, [lookupRequest GenderLookup.GOOGLE_SCRIPT_URL "Jane"])
  /\ Eff.run (@Part000.searchWorkerInGoogleSheet strictHost
                (answering 200 (stringify (JArr [JArr falsyRow]))) "Jane")
     = (Eff.Normal None, [lookupRequest Part000.GOOGLE_SCRIPT_URL "Jane"]).
Proof.
  exact (lookup_rejects_falsy_identifiers strictHost
           (answering 200 (stringify (JArr [JArr falsyRow])))
           (js "Jane") (js "Jane") (stringify (JArr [JArr falsyRow]))
           {| status := 200;
              body := Some (stringify (JArr [JArr falsyRow])) |}
           (JArr [JArr falsyRow]) falsyRow (JNum 0) (JBool false)
           eq_refl eq_refl (fun _ => eq_refl) eq_refl eq_refl eq_refl
           eq_refl eq_refl eq_refl eq_refl eq_refl).
Defined.

End LookupExtras.

(** ** The date normaliser, beyond the claims *)

Section DateMore.
Import ESDate ESDateFacts.

Lemma split_cons (c : N) (a b : jsstring) :
  forallb (fun x => negb (x =? c)%N) a = true ->
  split c (a ++ c :: b) = a :: split c b.
Proof.
  induction a as [|x r IH]; simpl.
  - rewrite N.eqb_refl. reflexivity.
  - intros H. apply andb_true_iff in H. destruct H as [Hx Hr].
    apply negb_true_iff in Hx. rewrite Hx, (IH Hr). reflexivity.
Qed.

Lemma digit_not (k : N) (s : jsstring) :
  is_digit k = false ->
  forallb is_digit s = true -> forallb (fun x => negb (x =? k)%N) s = true.
Proof.
  intros K H. rewrite forallb_forall in *. intros x I.
  specialize (H x I). apply negb_true_iff, N.eqb_neq. intros ->.
  rewrite K in H. discriminate.
Qed.

Lemma twoDigits_digits n :
  0 <= n <= 99 -> forallb is_digit (twoDigits n) = true.
Proof.
  intros H. unfold twoDigits. cbn [forallb].
  fold (digitChar (n / 10)). fold (digitChar (n mod 10)).
  rewrite !digitChar_digit by (Z.to_euclidean_division_equations; lia).
  reflexivity.
Qed.

Lemma fourDigits_digits n :
  0 <= n <= 9999 -> forallb is_digit (fourDigits n) = true.
Proof.
  intros H. unfold fourDigits. cbn [forallb].
  rewrite !digitChar_digit by (Z.to_euclidean_division_equations; lia).
  reflexivity.
Qed.

Lemma twoDigits_value n : 0 <= n <= 99 -> mathInt (twoDigits n) = n.
Proof.
  intros H. unfold twoDigits, mathInt. cbn [fold_left].
  fold (digitChar (n / 10)). fold (digitChar (n mod 10)).
  rewrite !digitChar_value by (Z.to_euclidean_division_equations; lia).
  Z.to_euclidean_division_equations; lia.
Qed.

Lemma fourDigits_value n : 0 <= n <= 9999 -> mathInt (fourDigits n) = n.
Proof.
  intros H. unfold fourDigits, mathInt. cbn [fold_left].
  rewrite !digitChar_value by (Z.to_euclidean_division_equations; lia).
  Z.to_euclidean_division_equations; lia.
Qed.

Lemma takeWhile_run (ds rest : jsstring) :
  forallb is_digit ds = true -> startsWithDigit rest = false ->
  takeWhile is_digit (ds ++ rest) = ds.
Proof.
  intros D R. induction ds as [|c r IH].
  - destruct rest as [|x rest']; [reflexivity|].
    cbn [app takeWhile]. cbn [startsWithDigit] in R. rewrite R. reflexivity.
  - cbn [forallb] in D. apply andb_true_iff in D. destruct D as [Dc Dr].
    cbn [app takeWhile]. rewrite Dc, (IH Dr). reflexivity.
Qed.

Lemma mathInt_nonneg (ds : jsstring) :
  forallb is_digit ds = true -> 0 <= mathInt ds.
Proof.
  assert (G : forall ds acc, forallb is_digit ds = true -> 0 <= acc ->
              0 <= fold_left (fun a c => 10 * a + digit_value c) ds acc).
  { clear. induction ds as [|c r IH]; intros acc D A; [exact A|].
    cbn [forallb] in D. apply andb_true_iff in D. destruct D as [Dc Dr].
    cbn [fold_left]. apply IH; [exact Dr|].
    unfold is_digit in Dc. apply andb_true_iff in Dc. destruct Dc as [L _].
    apply N.leb_le in L. unfold digit_value. lia. }
  intros D. unfold mathInt. apply G; [exact D|lia].
Qed.

Lemma dropWhile_app (p : N -> bool) (a b : jsstring) :
  forallb p a = true -> dropWhile p (a ++ b) = dropWhile p b.
Proof.
  induction a as [|c r IH]; simpl; [reflexivity|].
  intros H. apply andb_true_iff in H. destruct H as [Hc Hr].
  rewrite Hc. auto.
Qed.

(** parseInt reads the first run of digits: the white space before it and
    whatever follows it are ignored. *)
Lemma parseInt_run {host : Host} (ws ds rest : jsstring) :
  forallb is_whitespace ws = true ->
  forallb is_digit ds = true -> ds <> [] ->
  startsWithDigit rest = false ->
  mathInt ds <= MAX_SAFE ->
  Num.parseInt (ws ++ ds ++ rest) = Int (mathInt ds).
Proof.
  intros W D N R B. unfold Num.parseInt, trimStart.
  rewrite (dropWhile_app _ _ _ W).
  destruct ds as [|c r]; [contradiction|].
  simpl in D. apply andb_true_iff in D. destruct D as [Dc Dr].
  change ((c :: r) ++ rest) with (c :: r ++ rest).
  rewrite (dropWhile_head _ _ _ (digit_not_whitespace _ Dc)).
  assert (M : (c =? cu "-")%N = false /\ (c =? cu "+")%N = false).
  { unfold is_digit in Dc. apply andb_true_iff in Dc. destruct Dc as [A _].
    apply N.leb_le in A. split; apply N.eqb_neq; intros ->; vm_compute in A;
      contradiction. }
  destruct M as [M1 M2]. rewrite M1, M2.
  cbn [takeWhile]. rewrite Dc, (takeWhile_run _ _ Dr R).
  unfold Num.ofZ. rewrite Z.mul_1_l.
  assert (P : 0 <= mathInt (c :: r)).
  { apply mathInt_nonneg. cbn [forallb]. rewrite Dc, Dr. reflexivity. }
  destruct (Z.leb_spec (Z.abs (mathInt (c :: r))) MAX_SAFE); [reflexivity|lia].
Qed.

Lemma parseInt_numeral {host : Host} (ds : jsstring) :
  forallb is_digit ds = true -> ds <> [] -> mathInt ds <= MAX_SAFE ->
  Num.parseInt ds = Int (mathInt ds).
Proof.
  intros D N B. rewrite <- (app_nil_r ds) at 1.
  exact (parseInt_run [] ds [] eq_refl D N eq_refl B).
Qed.

Lemma parseInt_twoDigits {host : Host} n :
  0 <= n <= 99 -> Num.parseInt (twoDigits n) = Int n.
Proof.
  intros H. rewrite parseInt_numeral.
  - rewrite twoDigits_value by exact H. reflexivity.
  - apply twoDigits_digits, H.
  - discriminate.
  - rewrite twoDigits_value by exact H. unfold MAX_SAFE. lia.
Qed.

Lemma parseInt_fourDigits {host : Host} n :
  0 <= n <= 9999 -> Num.parseInt (fourDigits n) = Int n.
Proof.
  intros H. rewrite parseInt_numeral.
  - rewrite fourDigits_value by exact H. reflexivity.
  - apply fourDigits_digits, H.
  - discriminate.
  - rewrite fourDigits_value by exact H. unfold MAX_SAFE. lia.
Qed.

Lemma frenchDate_split d m y :
  0 <= d <= 99 -> 0 <= m <= 99 -> 0 <= y <= 9999 ->
  split (cu "/") (frenchDate d m y) = [twoDigits d; twoDigits m; fourDigits y].
Proof.
  intros Hd Hm Hy. unfold frenchDate.
  change (js "/" ++ ?r) with (cu "/" :: r).
  rewrite split_cons
    by (apply digit_not; [reflexivity|apply twoDigits_digits, Hd]).
  change (js "/" ++ ?r) with (cu "/" :: r).
  rewrite split_cons
    by (apply digit_not; [reflexivity|apply twoDigits_digits, Hm]).
  rewrite split_absent
    by (apply digit_not; [reflexivity|apply fourDigits_digits, Hy]).
  reflexivity.
Qed.

Lemma frenchDate_shape d m y :
  0 <= d <= 99 -> 0 <= m <= 99 -> 0 <= y <= 9999 ->
  isEmpty (frenchDate d m y) = false
  /\ trim (frenchDate d m y) = frenchDate d m y
  /\ test_canonical (frenchDate d m y) = false
  /\ test_datetime (frenchDate d m y) = false.
Proof.
  intros Hd Hm Hy. split; [reflexivity|]. split; [|split].
  - apply trim_ends.
    + unfold frenchDate, twoDigits. cbn [app hd].
      fold (digitChar (d / 10)).
      apply digit_not_whitespace, digitChar_digit.
      Z.to_euclidean_division_equations; lia.
    + unfold frenchDate.
      repeat (rewrite last_app_right by
                (unfold twoDigits, fourDigits; cbn; discriminate)).
      unfold fourDigits. cbn [last].
      apply digit_not_whitespace, digitChar_digit.
      Z.to_euclidean_division_equations; lia.
  - unfold test_canonical, frenchDate, twoDigits, date_pattern, digits.
    cbn [repeat app match_prefix atom_matches js map list_ascii_of_string].
    fold (digitChar (d / 10)). fold (digitChar (d mod 10)).
    rewrite !digitChar_digit by (Z.to_euclidean_division_equations; lia).
    reflexivity.
  - unfold test_datetime, frenchDate, twoDigits, date_pattern, digits.
    cbn [repeat app match_prefix atom_matches js map list_ascii_of_string].
    fold (digitChar (d / 10)). fold (digitChar (d mod 10)).
    rewrite !digitChar_digit by (Z.to_euclidean_division_equations; lia).
    reflexivity.
Qed.

Lemma isoDate_canonical y m d :
  0 <= y <= 9999 -> 0 <= m <= 99 -> 0 <= d <= 99 ->
  test_canonical (isoDate y m d) = true.
Proof.
  intros Hy Hm Hd.
  unfold test_canonical, isoDate, fourDigits, twoDigits, date_pattern, digits.
  cbn [repeat app match_prefix atom_matches js map list_ascii_of_string].
  fold (digitChar (m / 10)). fold (digitChar (m mod 10)).
  fold (digitChar (d / 10)). fold (digitChar (d mod 10)).
  rewrite !digitChar_digit by (Z.to_euclidean_division_equations; lia).
  reflexivity.
Qed.

Lemma decimal_fourDigits y : 1000 <= y <= 9999 -> decimal y = fourDigits y.
Proof.
  intros H. pose proof (@dateText_fourDigits plainHost y 0 0 H) as E.
  unfold dateText in E. rewrite (@toString_small plainHost) in E by lia.
  apply app_inv_tail in E. exact E.
Qed.

Lemma padded_fourDigits y : 0 <= y <= 9999 -> padded 4 y = fourDigits y.
Proof.
  intros H. destruct (Z.lt_ge_cases y 1000) as [L|G].
  - assert (A : forallb (fun k => jsstring_eqb
                  (padded 4 (Z.of_nat k)) (fourDigits (Z.of_nat k)))
                  (seq 0 (Z.to_nat 1000)) = true)
      by (vm_compute; reflexivity).
    rewrite forallb_forall in A.
    specialize (A (Z.to_nat y)). rewrite Z2Nat.id in A by lia.
    apply jsstring_eqb_eq, A, in_seq. lia.
  - unfold padded. rewrite decimal_fourDigits by lia. reflexivity.
Qed.

Section WithHost.
Context {host : Host}.

(** The slash rule on a French date of two, two and four digits. *)
Lemma slashRule_french d m y :
  1 <= d <= 31 -> 1 <= m <= 12 -> 0 <= y <= 9999 ->
  slashRule (frenchDate d m y)
  = if 1900 <=? y then Some (isoDate y m d) else None.
Proof.
  intros Hd Hm Hy.
  rewrite (slashRule_parts _ _ _ _ (frenchDate_split d m y ltac:(lia)
                                      ltac:(lia) Hy)).
  rewrite !parseInt_twoDigits, parseInt_fourDigits by lia.
  unfold inRange. cbn [ge_int le_int].
  replace (1 <=? d) with true by (symmetry; apply Z.leb_le; lia).
  replace (d <=? 31) with true by (symmetry; apply Z.leb_le; lia).
  replace (1 <=? m) with true by (symmetry; apply Z.leb_le; lia).
  replace (m <=? 12) with true by (symmetry; apply Z.leb_le; lia).
  cbn [andb].
  destruct (Z.leb_spec 1900 y) as [G|G]; [|reflexivity].
  rewrite !padded_number by lia. rewrite toString_small by lia.
  rewrite decimal_fourDigits by lia. reflexivity.
Qed.

Lemma french_part001 d m y :
  1 <= d <= 31 -> 1 <= m <= 12 -> 0 <= y <= 9999 ->
  Part001Date.parseFrenchDate (frenchDate d m y)
  = (if 1900 <=? y then Some (isoDate y m d) else None)
  /\ FirebaseDate.parseFrenchDate (frenchDate d m y)
     = (if 1900 <=? y then Some (isoDate y m d) else None).
Proof.
  intros Hd Hm Hy.
  destruct (frenchDate_shape d m y ltac:(lia) ltac:(lia) Hy)
    as (E & T & C & D).
  unfold Part001Date.parseFrenchDate, FirebaseDate.parseFrenchDate.
  rewrite E, T, E, C, D. cbv zeta.
  rewrite slashRule_french by assumption. auto.
Qed.

(** A date alone, in the date-time string format. *)
Lemma parseFormat_isoDate y m d :
  0 <= y <= 9999 -> 0 <= m <= 99 -> 0 <= d <= 99 ->
  parseFormat (isoDate y m d)
  = if (1 <=? m) && (m <=? 12) && (1 <=? d) && (d <=? DaysInMonth y (m - 1))
    then Some (MakeDate (MakeDay y (m - 1) d) 0)
    else None.
Proof.
  intros Hy Hm Hd. unfold parseFormat, isoDate.
  rewrite readDigits_4 by lia.
  change (js "-" ++ ?r) with (cu "-" :: r). rewrite expect_hit.
  rewrite readDigits_2 by lia.
  change (js "-" ++ ?r) with (cu "-" :: r). rewrite expect_hit.
  rewrite <- (app_nil_r (twoDigits d)).
  rewrite readDigits_2 by lia. reflexivity.
Qed.

Lemma Date_parse_isoDate y m d :
  0 <= y <= 9999 -> 1 <= m <= 12 -> 1 <= d <= DaysInMonth y (m - 1) ->
  Date_parse (isoDate y m d) = Some (MakeDate (MakeDay y (m - 1) d) 0).
Proof.
  intros Hy Hm Hd. pose proof (DaysInMonth_range y (m - 1)) as R.
  unfold Date_parse. rewrite parseFormat_isoDate by lia.
  replace ((1 <=? m) && (m <=? 12) && (1 <=? d)
           && (d <=? DaysInMonth y (m - 1))) with true
    by (symmetry; rewrite !andb_true_iff, !Z.leb_le; lia).
  assert (V : validStamp y m d 0 0 0 0) by (unfold validStamp; lia).
  destruct (stamp_instant _ _ _ _ _ _ _ V) as [I _].
  unfold Date_parse in I. rewrite (parseFormat_stamp _ _ _ _ _ _ _ V) in I.
  exact I.
Qed.

Lemma toISOString_date y m d :
  0 <= y <= 9999 -> 1 <= m <= 12 -> 1 <= d <= DaysInMonth y (m - 1) ->
  first (split (cu "T") (toISOString (MakeDate (MakeDay y (m - 1) d) 0)))
  = isoDate y m d.
Proof.
  intros Hy Hm Hd. pose proof (DaysInMonth_range y (m - 1)) as R.
  unfold toISOString.
  destruct (civil_of_MakeDay y (m - 1) d 0) as (Ey & Em & Ed);
    [lia|lia|unfold msPerDay; lia|].
  rewrite Ey, Em, Ed. replace (m - 1 + 1) with m by lia.
  unfold isoYear.
  replace ((0 <=? y) && (y <=? 9999)) with true
    by (symmetry; rewrite !andb_true_iff, !Z.leb_le; lia).
  rewrite padded_fourDigits by lia.
  unfold padded at 1 2. rewrite !padStart_twoDigits by lia.
  change (js "T" ++ ?r) with (cu "T" :: r).
  rewrite !app_assoc.
  rewrite split_first.
  - unfold isoDate. rewrite <- !app_assoc. reflexivity.
  - rewrite <- !app_assoc. fold (isoDate y m d).
    pose proof (isoDate_canonical y m d Hy ltac:(lia) ltac:(lia)) as C.
    apply test_canonical_chars in C. destruct C as [_ C].
    apply date_char_not; [reflexivity|exact C].
Qed.

Lemma french_part000 d m y :
  0 <= y <= 9999 -> 1 <= m <= 12 -> 1 <= d <= DaysInMonth y (m - 1) ->
  Part000Date.parseFrenchDate (frenchDate d m y) = Some (isoDate y m d).
Proof.
  intros Hy Hm Hd. pose proof (DaysInMonth_range y (m - 1)) as R.
  unfold Part000Date.parseFrenchDate.
  rewrite frenchDate_split by lia.
  change (isEmpty (frenchDate d m y)) with false. cbv iota zeta.
  fold (isoDate y m d). unfold Date_of_string.
  rewrite Date_parse_isoDate by assumption.
  rewrite toISOString_date by assumption. reflexivity.
Qed.


Lemma datetime_prefix_canonical (s : jsstring) :
  test_datetime s = true -> test_canonical (firstn 10 s) = true.
Proof.
  unfold test_datetime.
  destruct (match_prefix (date_pattern ++ [Lit (cu "T")]) s) as [r|] eqn:E;
    [|discriminate].
  intros _. apply match_prefix_spec in E. destruct E as (p & -> & F).
  apply Forall2_app_inv_l in F. destruct F as (d & t & Fd & Ft & ->).
  pose proof (date_pattern_chars _ Fd) as [L _].
  rewrite <- !app_assoc, firstn_app, L, Nat.sub_diag, firstn_O, app_nil_r.
  rewrite <- L, firstn_all. unfold test_canonical.
  assert (M : match_prefix date_pattern d = Some []).
  { apply match_prefix_spec. exists d. rewrite app_nil_r. auto. }
  rewrite M. reflexivity.
Qed.

Lemma slashRule_result (t r : jsstring) :
  slashRule t = Some r ->
  exists day month year d m,
    split (cu "/") t = [day; month; year]
    /\ 1 <= d <= 31 /\ 1 <= m <= 12
    /\ ge_int (Num.parseInt year) 1900 = true
    /\ r = Num.toString (Num.parseInt year) ++ js "-" ++ twoDigits m
           ++ js "-" ++ twoDigits d.
Proof.
  intros H.
  destruct (split (cu "/") t) as [|day [|month [|year [|x l]]]] eqn:S;
    try (rewrite slashRule_other in H by (rewrite S; cbn; lia); discriminate).
  rewrite (slashRule_parts _ _ _ _ S) in H.
  destruct (inRange _ _ _) eqn:R; [|discriminate].
  unfold inRange in R. rewrite !andb_true_iff in R.
  destruct R as ((((D1 & D2) & M1) & M2) & Y).
  destruct (small_number _ _ D1 D2) as (d & Ed & Hd).
  destruct (small_number _ _ M1 M2) as (m & Em & Hm).
  rewrite Ed, Em in H. rewrite !padded_number in H by lia.
  injection H as <-. exists day, month, year, d, m. auto.
Qed.

End WithHost.

(** X8. A date of the calendar written dd/MM/yyyy, with a year from 0
    to 9999: part_000 returns it as YYYY-MM-DD whatever the year;
    part_001 and firebase.ts return the same text when the year is 1900
    or later, and nothing for an earlier year. *)
Theorem french_dates_agree :
  forall (host : Host) (d m y : Z),
    0 <= y <= 9999 -> 1 <= m <= 12 -> 1 <= d <= DaysInMonth y (m - 1) ->
    Part000Date.parseFrenchDate (frenchDate d m y) = Some (isoDate y m d)
    /\ Part001Date.parseFrenchDate (frenchDate d m y)
       = (if 1900 <=? y then Some (isoDate y m d) else None)
    /\ FirebaseDate.parseFrenchDate (frenchDate d m y)
       = (if 1900 <=? y then Some (isoDate y m d) else None).
Proof.
  intros host d m y Hy Hm Hd. pose proof (DaysInMonth_range y (m - 1)) as R.
  split; [apply french_part000; assumption|].
  apply french_part001; lia.
Qed.

Lemma french_dates_agree_witness :
  (@Part000Date.parseFrenchDate plainHost (frenchDate 29 2 2024)
   = Some (isoDate 2024 2 29)
   /\ @Part001Date.parseFrenchDate plainHost (frenchDate 29 2 2024)
      = (if 1900 <=? 2024 then Some (isoDate 2024 2 29) else None)
   /\ @FirebaseDate.parseFrenchDate plainHost (frenchDate 29 2 2024)
      = (if 1900 <=? 2024 then Some (isoDate 2024 2 29) else None))
  /\ (@Part000Date.parseFrenchDate plainHost (frenchDate 15 6 1850)
      = Some (isoDate 1850 6 15)
      /\ @Part001Date.parseFrenchDate plainHost (frenchDate 15 6 1850)
         = (if 1900 <=? 1850 then Some (isoDate 1850 6 15) else None)
      /\ @FirebaseDate.parseFrenchDate plainHost (frenchDate 15 6 1850)
         = (if 1900 <=? 1850 then Some (isoDate 1850 6 15) else None)).
Proof.
  split.
  - apply (french_dates_agree plainHost 29 2 2024); vm_compute;
      split; discriminate.
  - apply (french_dates_agree plainHost 15 6 1850); vm_compute;
      split; discriminate.
Defined.

(** X9. A day that the month does not have, such as 31/11/2025:
    part_001 and firebase.ts return it as written, "2025-11-31";
    part_000 hands the text to the engine's date parser, and returns
    nothing when the engine reads no date in it. *)
Theorem part000_asks_the_engine :
  forall (host : Host) (d m y : Z),
    1900 <= y <= 9999 -> 1 <= m <= 12 -> DaysInMonth y (m - 1) < d <= 31 ->
    Date_parse_legacy (isoDate y m d) = None ->
    Part000Date.parseFrenchDate (frenchDate d m y) = None
    /\ Part001Date.parseFrenchDate (frenchDate d m y) = Some (isoDate y m d)
    /\ FirebaseDate.parseFrenchDate (frenchDate d m y) = Some (isoDate y m d).
Proof.
  intros host d m y Hy Hm Hd G.
  pose proof (DaysInMonth_range y (m - 1)) as R. split.
  - unfold Part000Date.parseFrenchDate.
    rewrite frenchDate_split by lia.
    change (isEmpty (frenchDate d m y)) with false. cbv iota zeta.
    fold (isoDate y m d). unfold Date_of_string, Date_parse.
    rewrite parseFormat_isoDate by lia.
    replace (d <=? DaysInMonth y (m - 1)) with false
      by (symmetry; apply Z.leb_gt; lia).
    rewrite andb_false_r, G. reflexivity.
  - destruct (french_part001 d m y ltac:(lia) Hm ltac:(lia)) as [A B].
    rewrite A, B.
    replace (1900 <=? y) with true by (symmetry; apply Z.leb_le; lia).
    auto.
Qed.

Lemma part000_asks_the_engine_witness :
  @Part000Date.parseFrenchDate plainHost (frenchDate 31 11 2025) = None
  /\ @Part001Date.parseFrenchDate plainHost (frenchDate 31 11 2025)
     = Some (isoDate 2025 11 31)
  /\ @FirebaseDate.parseFrenchDate plainHost (frenchDate 31 11 2025)
     = Some (isoDate 2025 11 31).
Proof.
  apply (part000_asks_the_engine plainHost 31 11 2025);
    vm_compute; try reflexivity; split; try reflexivity; discriminate.
Defined.

(** X10. Every result of part_001's normaliser is in the canonical
    form, and the normaliser returns it unchanged when applied again,
    as long as a slash-separated input has a year of at most 9999. *)
Theorem part001_results_canonical :
  forall (host : Host) (s r : jsstring),
    Part001Date.parseFrenchDate s = Some r ->
    slashYearAtMost 9999 s = true ->
    test_canonical r = true
    /\ Part001Date.parseFrenchDate r = Some r.
Proof.
  intros host s r H Y.
  assert (C : test_canonical r = true).
  { unfold Part001Date.parseFrenchDate in H.
    destruct (isEmpty s); [discriminate|]. cbv zeta in H.
    destruct (isEmpty (trim s)); [discriminate|].
    destruct (test_canonical (trim s)) eqn:C.
    { injection H as <-. exact C. }
    destruct (test_datetime (trim s)) eqn:D.
    { injection H as <-. change 84%N with (cu "T"). rewrite (datetime_cut _ D).
      apply datetime_prefix_canonical, D. }
    apply slashRule_result in H.
    destruct H as (day & month & year & d & m & S & Hd & Hm & G & ->).
    unfold slashYearAtMost in Y. rewrite S in Y.
    destruct (Num.parseInt year) as [| | |y]; try discriminate.
    cbn [ge_int le_int] in G, Y. apply Z.leb_le in G, Y.
    rewrite toString_small by lia. rewrite decimal_fourDigits by lia.
    apply isoDate_canonical; lia. }
  split; [exact C|]. apply canonical_part001, C.
Qed.

Lemma part001_results_canonical_witness :
  test_canonical (js "2020-06-05") = true
  /\ @Part001Date.parseFrenchDate plainHost "2020-06-05"
     = Some (js "2020-06-05").
Proof.
  exact (part001_results_canonical plainHost (js " 5/6/2020 ")
           (js "2020-06-05") eq_refl eq_refl).
Defined.

(** X11. On an input that begins like a date-time value but that the
    engine cannot read as an instant, firebase.ts returns the text
    "NaN-NaN-NaN" rather than nothing, and rejects that text when it is
    given it back; part_001 returns the first ten characters. *)
Theorem firebase_unreadable_datetime :
  forall (host : Host) (s : jsstring),
    shapeOf s = DateTime ->
    Date_parse (trim s) = None ->
    FirebaseDate.parseFrenchDate s = Some (js "NaN-NaN-NaN")
    /\ again FirebaseDate.parseFrenchDate (FirebaseDate.parseFrenchDate s)
       = None
    /\ Part001Date.parseFrenchDate s = Some (firstn 10 (trim s)).
Proof.
  intros host s S P.
  pose proof (shapeOf_inv s) as I. rewrite S in I. destruct I as (E & C & D).
  assert (F : FirebaseDate.parseFrenchDate s = Some (js "NaN-NaN-NaN")).
  { unfold FirebaseDate.parseFrenchDate.
    rewrite (trim_nonempty _ E), E, C, D.
    rewrite (shiftedDate_invalid _ P). reflexivity. }
  split; [exact F|]. split.
  - rewrite F. reflexivity.
  - apply (proj1 (datetime_shape_results s S)).
Qed.

Lemma firebase_unreadable_datetime_witness :
  @FirebaseDate.parseFrenchDate plainHost "2025-11-30Tnoon"
  = Some (js "NaN-NaN-NaN")
  /\ again (@FirebaseDate.parseFrenchDate plainHost)
       (@FirebaseDate.parseFrenchDate plainHost "2025-11-30Tnoon")
     = None
  /\ @Part001Date.parseFrenchDate plainHost "2025-11-30Tnoon"
     = Some (firstn 10 (trim "2025-11-30Tnoon")).
Proof.
  exact (firebase_unreadable_datetime plainHost (js "2025-11-30Tnoon")
           eq_refl eq_refl).
Defined.

Lemma parseInt_leading {host : Host} (part : jsstring) (n : Z) :
  leadingNumber part n -> n <= MAX_SAFE -> Num.parseInt part = Int n.
Proof.
  intros (ws & ds & rest & -> & W & D & N & R & <-) B.
  apply parseInt_run; try assumption. intros ->. discriminate.
Qed.

(** X12. The slash rule reads the leading digits of each part: white
    space before them and any text after them is ignored, so a time
    after the year or spaces around the slashes do not matter. *)
Theorem slash_rule_reads_leading_digits :
  forall (host : Host) (s day month year : jsstring) (d m y : Z),
    shapeOf s = Slash ->
    split (cu "/") (trim s) = [day; month; year] ->
    leadingNumber day d -> leadingNumber month m -> leadingNumber year y ->
    1 <= d <= 31 -> 1 <= m <= 12 -> 1900 <= y <= 9999 ->
    Part001Date.parseFrenchDate s = Some (isoDate y m d)
    /\ FirebaseDate.parseFrenchDate s = Some (isoDate y m d).
Proof.
  intros host s day month year d m y S P Ld Lm Ly Hd Hm Hy.
  destruct (slash_shape_rule s S) as [A B]. rewrite A, B.
  rewrite (slashRule_parts _ _ _ _ P).
  rewrite (parseInt_leading _ _ Ld), (parseInt_leading _ _ Lm),
    (parseInt_leading _ _ Ly) by (unfold MAX_SAFE; lia).
  unfold inRange. cbn [ge_int le_int].
  replace (1 <=? d) with true by (symmetry; apply Z.leb_le; lia).
  replace (d <=? 31) with true by (symmetry; apply Z.leb_le; lia).
  replace (1 <=? m) with true by (symmetry; apply Z.leb_le; lia).
  replace (m <=? 12) with true by (symmetry; apply Z.leb_le; lia).
  replace (1900 <=? y) with true by (symmetry; apply Z.leb_le; lia).
  cbn [andb].
  rewrite !padded_number by lia. rewrite toString_small by lia.
  rewrite decimal_fourDigits by lia. auto.
Qed.

Lemma slash_rule_reads_leading_digits_witness :
  @Part001Date.parseFrenchDate plainHost "15 / 06 /2020 10:30"
  = Some (isoDate 2020 6 15)
  /\ @FirebaseDate.parseFrenchDate plainHost "15 / 06 /2020 10:30"
     = Some (isoDate 2020 6 15).
Proof.
  apply (slash_rule_reads_leading_digits plainHost
           (js "15 / 06 /2020 10:30") (js "15 ") (js " 06 ")
           (js "2020 10:30") 15 6 2020); try reflexivity; try lia.
  - exists [], (js "15"), (js " "). repeat split; reflexivity.
  - exists (js " "), (js "06"), (js " "). repeat split; reflexivity.
  - exists [], (js "2020"), (js " 10:30"). repeat split; reflexivity.
Defined.


Lemma MakeDay_bound y mo d :
  0 <= y <= 9999 -> 1 <= mo <= 12 -> 1 <= d <= DaysInMonth y (mo - 1) ->
  -719528 <= MakeDay y (mo - 1) d <= 2933263.
Proof.
  intros Hy Hmo Hd.
  pose proof (DaysInMonth_range y (mo - 1)) as R.
  pose proof (DayFromYear_bound y ltac:(lia)) as B.
  rewrite MakeDay_plain by lia. unfold daysBeforeMonth.
  destruct (DaysInYear y =? 366);
    assert (X : mo = 1 \/ mo = 2 \/ mo = 3 \/ mo = 4 \/ mo = 5 \/ mo = 6
                \/ mo = 7 \/ mo = 8 \/ mo = 9 \/ mo = 10 \/ mo = 11
                \/ mo = 12) by lia;
    repeat (destruct X as [X|X]); subst mo;
    match goal with
    | |- context [Z.pos ?p - 1] =>
        let v := eval compute in (Z.pos p - 1) in
        change (Z.pos p - 1) with v
    end; cbv beta iota; lia.
Qed.

Lemma localStamp_shape y mo d hh mi ss :
  validStamp y mo d hh mi ss 0 ->
  trim (localStamp y mo d hh mi ss) = localStamp y mo d hh mi ss
  /\ shapeOf (localStamp y mo d hh mi ss) = DateTime.
Proof.
  intros (Hy & Hmo & Hd & Hh & Hmi & Hs & Hms).
  pose proof (DaysInMonth_range y (mo - 1)) as R.
  assert (T : trim (localStamp y mo d hh mi ss) = localStamp y mo d hh mi ss).
  { apply trim_ends.
    - unfold localStamp, isoDate, fourDigits. cbn [app hd].
      apply digit_not_whitespace, digitChar_digit.
      Z.to_euclidean_division_equations; lia.
    - unfold localStamp, isoDate.
      repeat (rewrite last_app_right by
                (unfold twoDigits; cbn; discriminate)).
      unfold twoDigits. cbn [last]. fold (digitChar (ss mod 10)).
      apply digit_not_whitespace, digitChar_digit.
      Z.to_euclidean_division_equations; lia. }
  split; [exact T|].
  assert (D : test_datetime (localStamp y mo d hh mi ss) = true).
  { unfold test_datetime, localStamp, isoDate, fourDigits, twoDigits,
      date_pattern, digits.
    cbn [repeat app match_prefix atom_matches js map list_ascii_of_string].
    fold (digitChar (mo / 10)). fold (digitChar (mo mod 10)).
    fold (digitChar (d / 10)). fold (digitChar (d mod 10)).
    rewrite !digitChar_digit by (Z.to_euclidean_division_equations; lia).
    reflexivity. }
  unfold shapeOf. rewrite T, D, (test_datetime_not_canonical _ D).
  reflexivity.
Qed.

Section WithHost.
Context {host : Host}.

Lemma parseFormat_localStamp y mo d hh mi ss :
  validStamp y mo d hh mi ss 0 ->
  parseFormat (localStamp y mo d hh mi ss)
  = Some (MakeDate (MakeDay y (mo - 1) d) (MakeTime hh mi ss 0)
          - LocalTZA (MakeDate (MakeDay y (mo - 1) d) (MakeTime hh mi ss 0))).
Proof.
  intros (Hy & Hmo & Hd & Hh & Hmi & Hs & Hms).
  pose proof (DaysInMonth_range y (mo - 1)) as R.
  unfold parseFormat, localStamp, isoDate. rewrite <- !app_assoc.
  rewrite readDigits_4 by lia.
  change (js "-" ++ ?r) with (cu "-" :: r). rewrite expect_hit.
  rewrite readDigits_2 by lia.
  change (js "-" ++ ?r) with (cu "-" :: r). rewrite expect_hit.
  rewrite readDigits_2 by lia.
  replace ((1 <=? mo) && (mo <=? 12) && (1 <=? d)
           && (d <=? DaysInMonth y (mo - 1))) with true
    by (symmetry; rewrite !andb_true_iff, !Z.leb_le; lia).
  change (js "T" ++ ?r) with (cu "T" :: r). cbv beta iota zeta.
  rewrite N.eqb_refl.
  unfold parseTime.
  rewrite readDigits_2 by lia.
  change (js ":" ++ ?r) with (cu ":" :: r). rewrite expect_hit.
  rewrite readDigits_2 by lia.
  unfold parseSeconds.
  change (js ":" ++ ?r) with (cu ":" :: r). rewrite expect_hit.
  rewrite <- (app_nil_r (twoDigits ss)).
  rewrite readDigits_2 by lia.
  cbn [expect parseZone].
  replace ((hh <=? 23) && (mi <=? 59) && (ss <=? 59)) with true
    by (symmetry; rewrite !andb_true_iff, !Z.leb_le; lia).
  reflexivity.
Qed.

Lemma localStamp_instant y mo d hh mi ss (tz : Z) :
  validStamp y mo d hh mi ss 0 ->
  (forall t, LocalTZA t = tz) -> 0 <= tz <= msPerHour ->
  Date_parse (localStamp y mo d hh mi ss)
  = Some (MakeDate (MakeDay y (mo - 1) d) (MakeTime hh mi ss 0) - tz)
  /\ MakeDate (MakeDay y (mo - 1) d) (MakeTime hh mi ss 0) - tz + msPerHour
     <= maxTime.
Proof.
  intros V Z B. unfold Date_parse.
  rewrite (parseFormat_localStamp _ _ _ _ _ _ V), Z.
  destruct V as (Hy & Hmo & Hd & Hh & Hmi & Hs & Hms).
  pose proof (MakeTime_range hh mi ss 0 Hh Hmi Hs Hms) as T.
  pose proof (MakeDay_bound y mo d Hy Hmo Hd) as M.
  unfold TimeClip, MakeDate, maxTime, msPerDay, msPerHour in *.
  destruct (Z.leb_spec
              (Z.abs (MakeDay y (mo - 1) d * 86400000 + MakeTime hh mi ss 0
                      - tz))
              8640000000000000); [split; [reflexivity|lia]|lia].
Qed.

End WithHost.

(** X13. A valid timestamp without zone, YYYY-MM-DDTHH:mm:ss, is local
    time. part_001 returns the date as written. firebase.ts returns
    the date as written in a runtime one hour east of UTC, where the
    shift of one hour undoes the offset; in a runtime on UTC it returns
    the next day when HH is 23. *)
Theorem unzoned_timestamp_follows_the_zone :
  forall (host : Host) (y mo d hh mi ss : Z),
    validStamp y mo d hh mi ss 0 -> 1000 <= y ->
    Part001Date.parseFrenchDate (localStamp y mo d hh mi ss)
    = Some (isoDate y mo d)
    /\ ((forall t, LocalTZA t = msPerHour) ->
        FirebaseDate.parseFrenchDate (localStamp y mo d hh mi ss)
        = Some (isoDate y mo d))
    /\ ((forall t, LocalTZA t = 0) ->
        FirebaseDate.parseFrenchDate (localStamp y mo d hh mi ss)
        = Some (let '(y', mo', d') :=
                  if hh <? 23 then (y, mo, d) else nextDay y mo d in
                dateText y' mo' d')).
Proof.
  intros host y mo d hh mi ss V Y.
  destruct (localStamp_shape _ _ _ _ _ _ V) as [T S].
  destruct (datetime_shape_results _ S) as [P F]. rewrite T in *.
  split; [|split].
  - rewrite P. reflexivity.
  - intros Z.
    destruct (localStamp_instant _ _ _ _ _ _ msPerHour V Z) as [I B];
      [unfold msPerHour; lia|].
    rewrite (F _ I B). f_equal.
    destruct V as (Hy & Hmo & Hd & Hh & Hmi & Hs & Hms).
    pose proof (MakeTime_range hh mi ss 0 Hh Hmi Hs Hms) as R.
    replace (MakeDate (MakeDay y (mo - 1) d) (MakeTime hh mi ss 0)
             - msPerHour + msPerHour)
      with (MakeDate (MakeDay y (mo - 1) d) (MakeTime hh mi ss 0)) by lia.
    unfold calendarDate.
    destruct (civil_of_MakeDay y (mo - 1) d (MakeTime hh mi ss 0))
      as (Ey & Em & Ed); try lia.
    { unfold msPerDay, msPerHour in *. lia. }
    rewrite Ey, Em, Ed. replace (mo - 1 + 1) with mo by lia.
    rewrite toString_small by lia. rewrite decimal_fourDigits by lia.
    reflexivity.
  - intros Z.
    destruct (localStamp_instant _ _ _ _ _ _ 0 V Z) as [I B];
      [unfold msPerHour; lia|].
    rewrite (F _ I B).
    destruct (stamp_shape _ _ _ _ _ _ _ V) as [T' S'].
    destruct (datetime_shape_results _ S') as [_ F']. rewrite T' in F'.
    destruct (stamp_instant _ _ _ _ _ _ _ V) as [I' B'].
    rewrite Z.sub_0_r. rewrite <- (F' _ I' B').
    apply (proj2 (stamp_results _ _ _ _ _ _ _ V)).
Qed.

Lemma unzoned_timestamp_follows_the_zone_witness :
  @FirebaseDate.parseFrenchDate casablancaHost (localStamp 2025 11 30 23 30 0)
  = Some (isoDate 2025 11 30)
  /\ @FirebaseDate.parseFrenchDate plainHost (localStamp 2025 11 30 23 30 0)
     = Some (let '(y', mo', d') :=
               if 23 <? 23 then (2025, 11, 30) else nextDay 2025 11 30 in
             @dateText plainHost y' mo' d').
Proof.
  split.
  - apply (proj1 (proj2 (unzoned_timestamp_follows_the_zone casablancaHost
                           2025 11 30 23 30 0 ltac:(vm_compute; repeat split; discriminate) ltac:(lia))));
      intros t; reflexivity.
  - apply (proj2 (proj2 (unzoned_timestamp_follows_the_zone plainHost
                           2025 11 30 23 30 0 ltac:(vm_compute; repeat split; discriminate) ltac:(lia))));
      intros t; reflexivity.
Defined.

(** X24. The normalisers of part_001 and of firebase.ts differ on
    date-time values only: on every input whose trimmed text does not
    begin like a date-time value they return the same. *)
Theorem normalisers_differ_on_datetime_only :
  forall (host : Host) (s : jsstring),
    test_datetime (trim s) = false ->
    Part001Date.parseFrenchDate s = FirebaseDate.parseFrenchDate s.
Proof.
  intros host s D.
  unfold Part001Date.parseFrenchDate, FirebaseDate.parseFrenchDate.
  rewrite D. reflexivity.
Qed.

Lemma normalisers_differ_on_datetime_only_witness :
  @Part001Date.parseFrenchDate plainHost " 5/6/2020 "
  = @FirebaseDate.parseFrenchDate plainHost " 5/6/2020 ".
Proof.
  exact (normalisers_differ_on_datetime_only plainHost (js " 5/6/2020 ")
           eq_refl).
Defined.

End DateMore.

(** ** The slash rule and the canonical form *)

(** C6. For an input of the slash shape D/M/Y (three parts between
    slashes, reached after the canonical and date-time tests): when the
    parsed day is in 1..31, the parsed month in 1..12 and the parsed year
    at least 1900, the result is the year, the month in two digits and
    the day in two digits, joined by hyphens; when a component is out of
    range there is no result. So "30/11/2025" gives "2025-11-30",
    "31/13/2025" gives no result, and "31/11/2025", a day that does not
    exist, gives "2025-11-31": the calendar is not consulted. With a
    parsed year of at most 9999 the result is YYYY-MM-DD and passes the
    canonical test. The range test has no upper bound on the year:
    "1/1/12345" gives "12345-01-01", which is not of that form, fails
    the canonical test and is rejected when given back. The same in
    part_001 and in firebase.ts. *)
Theorem slash_rule_validates :
  forall (host : Host),
    (Part001Date.parseFrenchDate "30/11/2025" = Some (js "2025-11-30")
     /\ FirebaseDate.parseFrenchDate "30/11/2025" = Some (js "2025-11-30")
     /\ Part001Date.parseFrenchDate "31/13/2025" = None
     /\ FirebaseDate.parseFrenchDate "31/13/2025" = None
     /\ Part001Date.parseFrenchDate "31/11/2025" = Some (js "2025-11-31")
     /\ FirebaseDate.parseFrenchDate "31/11/2025" = Some (js "2025-11-31"))
    /\ (Part001Date.parseFrenchDate "1/1/12345" = Some (js "12345-01-01")
        /\ FirebaseDate.parseFrenchDate "1/1/12345" = Some (js "12345-01-01")
        /\ test_canonical "12345-01-01" = false
        /\ Part001Date.parseFrenchDate "12345-01-01" = None
        /\ FirebaseDate.parseFrenchDate "12345-01-01" = None)
    /\ forall (s day month year : jsstring),
         shapeOf s = Slash ->
         split (cu "/") (trim s) = [day; month; year] ->
         let dayNum := Num.parseInt day in
         let monthNum := Num.parseInt month in
         let yearNum := Num.parseInt year in
         (inRange dayNum monthNum yearNum = true ->
          exists d m : Z,
            dayNum = Int d /\ 1 <= d <= 31
            /\ monthNum = Int m /\ 1 <= m <= 12
            /\ ge_int yearNum 1900 = true
            /\ Part001Date.parseFrenchDate s
               = Some (Num.toString yearNum ++ js "-" ++ twoDigits m
                       ++ js "-" ++ twoDigits d)
            /\ FirebaseDate.parseFrenchDate s
               = Some (Num.toString yearNum ++ js "-" ++ twoDigits m
                       ++ js "-" ++ twoDigits d))
         /\ (inRange dayNum monthNum yearNum = true ->
             le_int yearNum 9999 = true ->
             exists d m y : Z,
               dayNum = Int d /\ 1 <= d <= 31
               /\ monthNum = Int m /\ 1 <= m <= 12
               /\ yearNum = Int y /\ 1900 <= y <= 9999
               /\ Part001Date.parseFrenchDate s = Some (isoDate y m d)
               /\ FirebaseDate.parseFrenchDate s = Some (isoDate y m d)
               /\ test_canonical (isoDate y m d) = true)
         /\ (inRange dayNum monthNum yearNum = false ->
             Part001Date.parseFrenchDate s = None
             /\ FirebaseDate.parseFrenchDate s = None).
Proof.
  intros host. split; [|split].
  - repeat split; reflexivity.
  - repeat split; reflexivity.
  - intros s day month year S P dayNum monthNum yearNum.
    destruct (slash_shape_rule s S) as [E1 E2].
    rewrite E1, E2, (slashRule_parts _ _ _ _ P).
    fold dayNum monthNum yearNum. split; [|split].
    + intros R. rewrite R. unfold inRange in R. bools.
      destruct (small_number dayNum 31) as (d & Ed & Rd); try assumption.
      destruct (small_number monthNum 12) as (m & Em & Rm); try assumption.
      exists d, m. rewrite Ed, Em.
      rewrite !padded_number by lia. repeat split; try lia; assumption.
    + intros R Y. rewrite R. unfold inRange in R. bools.
      destruct (small_number dayNum 31) as (d & Ed & Rd); try assumption.
      destruct (small_number monthNum 12) as (m & Em & Rm); try assumption.
      destruct yearNum as [| | |y]; try discriminate.
      cbn [ge_int le_int] in *.
      assert (Ry : 1900 <= y <= 9999) by lia.
      exists d, m, y. rewrite Ed, Em.
      rewrite !padded_number by lia. rewrite toString_small by lia.
      rewrite decimal_fourDigits by lia. fold (isoDate y m d).
      repeat split; try lia. apply isoDate_canonical; lia.
    + intros R. rewrite R. auto.
Qed.

Lemma slash_rule_validates_witness :
  (exists d m : Z,
     @Num.parseInt plainHost "5" = Int d /\ 1 <= d <= 31
     /\ @Num.parseInt plainHost "6" = Int m /\ 1 <= m <= 12
     /\ ge_int (@Num.parseInt plainHost "2020") 1900 = true
     /\ @Part001Date.parseFrenchDate plainHost " 5/6/2020 "
        = Some (@Num.toString plainHost (@Num.parseInt plainHost "2020")
                ++ js "-" ++ twoDigits m ++ js "-" ++ twoDigits d)
     /\ @FirebaseDate.parseFrenchDate plainHost " 5/6/2020 "
        = Some (@Num.toString plainHost (@Num.parseInt plainHost "2020")
                ++ js "-" ++ twoDigits m ++ js "-" ++ twoDigits d))
  /\ (exists d m y : Z,
        @Num.parseInt plainHost "5" = Int d /\ 1 <= d <= 31
        /\ @Num.parseInt plainHost "6" = Int m /\ 1 <= m <= 12
        /\ @Num.parseInt plainHost "2020" = Int y /\ 1900 <= y <= 9999
        /\ @Part001Date.parseFrenchDate plainHost " 5/6/2020 "
           = Some (isoDate y m d)
        /\ @FirebaseDate.parseFrenchDate plainHost " 5/6/2020 "
           = Some (isoDate y m d)
        /\ test_canonical (isoDate y m d) = true)
  /\ (@Part001Date.parseFrenchDate plainHost "32/1/2020" = None
      /\ @FirebaseDate.parseFrenchDate plainHost "32/1/2020" = None).
Proof.
  split; [|split].
  - exact (proj1 (proj2 (proj2 (slash_rule_validates plainHost))
                    (js " 5/6/2020 ") (js "5") (js "6") (js "2020")
                    eq_refl eq_refl) eq_refl).
  - exact (proj1 (proj2 (proj2 (proj2 (slash_rule_validates plainHost))
                    (js " 5/6/2020 ") (js "5") (js "6") (js "2020")
                    eq_refl eq_refl)) eq_refl eq_refl).
  - exact (proj2 (proj2 (proj2 (proj2 (slash_rule_validates plainHost))
                    (js "32/1/2020") (js "32") (js "1") (js "2020")
                    eq_refl eq_refl)) eq_refl).
Defined.

(** ** The connectivity probe, beyond the claims *)

Section ProbeMore.
Import Firebase.

Lemma errorMessageOf_not_refresh (e : ProbeError) :
  jsstring_eqb (errorMessageOf e) refreshMessage = false.
Proof.
  unfold errorMessageOf.
  destruct (code e) as [[|c r]|].
  2:{ destruct (jsstring_eqb _ refreshMessage) eqn:E; [|reflexivity].
      apply jsstring_eqb_eq in E. discriminate E. }
  all: destruct (messageIncludes e "timeout"); [reflexivity|];
    destruct (messageIncludes e "fetch"); [reflexivity|];
    cbn [orb]; rewrite andb_false_r;
    destruct (messageIncludes e "Failed to fetch"); reflexivity.
Qed.

(** How the probe completes: with one of its results, or, when a read
    was rejected with null or undefined, with the TypeError of its
    handler. *)
Lemma probe_outcome (platform : Platform) (m retryCount : nat)
  (log : list Event) :
  (maxRetries - retryCount <= m)%nat ->
  exists c l,
    Eff.exec (testFirebaseConnection platform retryCount) log
    = (c, log ++ l)
    /\ Eff.exec (testFirebaseConnection platform retryCount) [] = (c, l)
    /\ match c with
       | Eff.Normal r => outcome r
       | Eff.Throw _ => exists k, rejectsNullish (platform k) = true
       end.
Proof.
  revert retryCount log. induction m as [|m IH]; intros retryCount log E;
    rewrite (probe_step platform retryCount log),
      (probe_step platform retryCount []); cbv zeta;
    (destruct (negb (onLine (platform retryCount)));
     [exists (Eff.Normal (failed "Device is offline")), [];
      rewrite app_nil_r; repeat split; constructor|]);
    (destruct (negb (currentUser (platform retryCount)));
     [exists (Eff.Normal succeeded), []; rewrite app_nil_r; repeat split;
      constructor|]);
    (destruct (race (platform retryCount)) as [|e|] eqn:R;
     [exists (Eff.Normal succeeded), [theRead]; repeat split; constructor
     |
     |exists (Eff.Throw PropertyOfNullish), [theRead]; repeat split;
      exists retryCount; unfold rejectsNullish; rewrite R; reflexivity]);
    (destruct (codeIs e "permission-denied");
     [exists (Eff.Normal (failed rulesMessage)), [theRead]; repeat split;
      constructor|]);
    (destruct (codeIs e "failed-precondition");
     [exists (Eff.Normal (failed databaseMessage)), [theRead]; repeat split;
      constructor|]);
    (destruct (codeIs e "unavailable");
     [exists (Eff.Normal (failed unavailableMessage)), [theRead];
      repeat split; constructor|]).
  - assert (L : (retryCount <? maxRetries)%nat = false)
      by (apply Nat.ltb_ge; lia).
    rewrite L, andb_false_r.
    exists (Eff.Normal (failed (errorMessageOf e))), [theRead].
    repeat split. constructor.
  - destruct (transient e && (retryCount <? maxRetries)%nat) eqn:T.
    2:{ exists (Eff.Normal (failed (errorMessageOf e))), [theRead].
        repeat split. constructor. }
    apply andb_true_iff in T. destruct T as [_ T]. apply Nat.ltb_lt in T.
    destruct (IH (retryCount + 1)%nat
                ((log ++ [theRead]) ++ [Wait (delay retryCount)])
                ltac:(lia)) as (c & l & X & X0 & O).
    destruct (IH (retryCount + 1)%nat
                (([] ++ [theRead]) ++ [Wait (delay retryCount)])
                ltac:(lia)) as (c' & l' & X' & X0' & O').
    rewrite X0 in X0'. injection X0' as <- <-.
    exists c, ([theRead; Wait (delay retryCount)] ++ l).
    rewrite X, X'. rewrite <- !app_assoc. cbn [app]. repeat split. exact O.
Qed.

Lemma outcome_wellFormed (r : Result) : outcome r -> wellFormed r = true.
Proof. intros O. destruct O; reflexivity. Qed.

Lemma outcome_not_refresh (r : Result) :
  outcome r ->
  match error r with
  | Some msg => jsstring_eqb msg refreshMessage = false
  | None => True
  end.
Proof.
  intros O. destruct O; cbn [error failed succeeded]; try reflexivity;
    try exact I.
  apply errorMessageOf_not_refresh.
Qed.

(** The probe appends to the log it is given. *)
Lemma probe_appends (platform : Platform) (retryCount : nat)
  (log : list Event) :
  Eff.exec (testFirebaseConnection platform retryCount) log
  = (fst (Eff.run (testFirebaseConnection platform retryCount)),
     log ++ snd (Eff.run (testFirebaseConnection platform retryCount))).
Proof.
  destruct (probe_outcome platform (maxRetries - retryCount) retryCount log
              (le_n _)) as (c & l & X & X0 & _).
  unfold Eff.run. rewrite X, X0. reflexivity.
Qed.

End ProbeMore.

(** X14. When no read is rejected with null or undefined (a rejection
    is then an error object whose code, message and name are absent or
    strings), the probe never rejects: from every retry count it
    settles with one of its six kinds of result, a success without a
    text or a failure with one. When the read of an attempt is rejected
    with null or undefined, the handler throws at [error.code] and the
    probe itself rejects, after that read. *)
Theorem probe_settles_on_error_objects :
  forall (platform : Firebase.Platform) (retryCount : nat),
    ((forall k, rejectsNullish (platform k) = false) ->
     exists r log,
       Eff.run (Firebase.testFirebaseConnection platform retryCount)
       = (Eff.Normal r, log)
       /\ outcome r /\ wellFormed r = true)
    /\ (Firebase.onLine (platform retryCount) = true ->
        Firebase.currentUser (platform retryCount) = true ->
        rejectsNullish (platform retryCount) = true ->
        Eff.run (Firebase.testFirebaseConnection platform retryCount)
        = (Eff.Throw Firebase.PropertyOfNullish, [theRead])).
Proof.
  intros platform retryCount. split.
  - intros N.
    destruct (probe_outcome platform (Firebase.maxRetries - retryCount)
                retryCount [] (le_n _)) as ([r|x] & l & X & _ & O).
    + exists r, l. unfold Eff.run. rewrite X. split; [reflexivity|].
      split; [exact O|apply outcome_wellFormed, O].
    + destruct O as (k & K). rewrite N in K. discriminate.
  - intros O U N. unfold Eff.run. rewrite probe_step. cbv zeta.
    rewrite O, U. cbn [negb]. unfold rejectsNullish in N.
    destruct (Firebase.race (platform retryCount)); try discriminate.
    reflexivity.
Qed.

Lemma probe_settles_on_error_objects_witness :
  (exists r log,
     Eff.run (Firebase.testFirebaseConnection (failingWith fetchError) 0)
     = (Eff.Normal r, log)
     /\ outcome r /\ wellFormed r = true)
  /\ Eff.run (Firebase.testFirebaseConnection rejectingNull 0)
     = (Eff.Throw Firebase.PropertyOfNullish, [theRead]).
Proof.
  split.
  - exact (proj1 (probe_settles_on_error_objects (failingWith fetchError)
                    0%nat) (fun k => eq_refl)).
  - exact (proj2 (probe_settles_on_error_objects rejectingNull 0%nat)
             eq_refl eq_refl eq_refl).
Defined.

(** X15. The probe never reports "Network error - try refreshing the
    page": the branch that sets this text follows one that already
    takes every message with "fetch" in it. *)
Theorem probe_never_suggests_refresh :
  forall (platform : Firebase.Platform) (retryCount : nat)
         (r : Firebase.Result) (log : list Firebase.Event),
    Eff.run (Firebase.testFirebaseConnection platform retryCount)
    = (Eff.Normal r, log) ->
    match Firebase.error r with
    | Some msg => jsstring_eqb msg refreshMessage = false
    | None => True
    end.
Proof.
  intros platform retryCount r log H.
  destruct (probe_outcome platform (Firebase.maxRetries - retryCount)
              retryCount [] (le_n _)) as (c & l & X & _ & O).
  unfold Eff.run in H. rewrite X in H. injection H as -> _.
  apply outcome_not_refresh, O.
Qed.

Lemma probe_never_suggests_refresh_witness :
  match Firebase.error
          (Firebase.failed
             "Network connectivity issue - check your internet connection")
  with
  | Some msg => jsstring_eqb msg refreshMessage = false
  | None => True
  end.
Proof.
  exact (probe_never_suggests_refresh
           (fun _ => {| Firebase.onLine := true;
                        Firebase.currentUser := true;
                        Firebase.race := Firebase.Rejected
                          {| Firebase.code := None;
                             Firebase.message := Some (js "Failed to fetch");
                             Firebase.name := Some (js "TypeError") |} |})
           3%nat _ _ eq_refl).
Defined.

Lemma retryableFailure_fails (o : Firebase.Observation) :
  retryableFailure o = true -> failsRetryably o.
Proof.
  unfold retryableFailure, failsRetryably. intros H.
  apply andb_true_iff in H. destruct H as [H R].
  apply andb_true_iff in H. destruct H as [O U].
  destruct (Firebase.race o) as [|e|]; [discriminate| |discriminate].
  repeat split; try assumption. exists e. auto.
Qed.

(** X16. An attempt ends the probe unless it reaches the remote read,
    fails there with an error the probe retries on, and the retry count
    is below 3: the probe then makes no pause and at most the one
    read. *)
Theorem probe_stops_unless_retryable :
  forall (platform : Firebase.Platform) (retryCount : nat),
    retryableFailure (platform retryCount)
    && (retryCount <? Firebase.maxRetries)%nat = false ->
    snd (Eff.run (Firebase.testFirebaseConnection platform retryCount)) = []
    \/ snd (Eff.run (Firebase.testFirebaseConnection platform retryCount))
       = [theRead].
Proof.
  intros platform retryCount H. unfold Eff.run. rewrite probe_step.
  cbv zeta. unfold retryableFailure, retryable, terminalCode in H.
  destruct (Firebase.onLine (platform retryCount)); [|left; reflexivity].
  destruct (Firebase.currentUser (platform retryCount));
    [|left; reflexivity].
  cbn [negb andb] in *.
  destruct (Firebase.race (platform retryCount)) as [|e|];
    [right; reflexivity| |right; reflexivity].
  destruct (Firebase.codeIs e "permission-denied"); [right; reflexivity|].
  destruct (Firebase.codeIs e "failed-precondition"); [right; reflexivity|].
  destruct (Firebase.codeIs e "unavailable"); [right; reflexivity|].
  cbn [orb negb andb] in H. rewrite H. right. reflexivity.
Qed.

Lemma probe_stops_unless_retryable_witness :
  snd (Eff.run (Firebase.testFirebaseConnection (refusing "unavailable") 0))
  = []
  \/ snd (Eff.run (Firebase.testFirebaseConnection (refusing "unavailable") 0))
     = [theRead].
Proof.
  exact (probe_stops_unless_retryable (refusing "unavailable") 0%nat eq_refl).
Defined.

(** X17. After n attempts in a row that fail retryably, the probe goes
    on as a probe started at the next retry count: same result, and the
    log is the n reads and pauses followed by the log of that probe. *)
Theorem probe_resumes :
  forall (platform : Firebase.Platform) (retryCount n : nat),
    (retryCount + n <= Firebase.maxRetries)%nat ->
    (forall k, (retryCount <= k < retryCount + n)%nat ->
               retryableFailure (platform k) = true) ->
    Eff.run (Firebase.testFirebaseConnection platform retryCount)
    = (fst (Eff.run (Firebase.testFirebaseConnection platform
                       (retryCount + n))),
       retries retryCount n
       ++ snd (Eff.run (Firebase.testFirebaseConnection platform
                          (retryCount + n)))).
Proof.
  intros platform retryCount n L F. unfold Eff.run at 1.
  rewrite (probe_retries platform n retryCount [] L)
    by (intros k K; apply retryableFailure_fails, F, K).
  rewrite probe_appends. reflexivity.
Qed.

Lemma probe_resumes_witness :
  Eff.run (Firebase.testFirebaseConnection slowPlatform 0)
  = (fst (Eff.run (Firebase.testFirebaseConnection slowPlatform (0 + 2))),
     retries 0 2
     ++ snd (Eff.run (Firebase.testFirebaseConnection slowPlatform (0 + 2)))).
Proof.
  apply (probe_resumes slowPlatform 0 2).
  - unfold Firebase.maxRetries. lia.
  - intros k K. destruct k as [|[|k]]; [reflexivity|reflexivity|lia].
Defined.

(** ** Recovery of the connection *)

Section RecoveryMore.
Import Firebase Recovery.

Lemma exec_embed {Ev Ev' E A : Type} (tag : Ev -> Ev') (m : Eff.M Ev E A)
  (log : list Ev') :
  Eff.exec (embed tag m) log
  = (fst (Eff.run m), log ++ map tag (snd (Eff.run m))).
Proof.
  unfold embed, Eff.run. cbn [Eff.exec].
  destruct (Eff.exec m []) as [c events]. reflexivity.
Qed.

End RecoveryMore.

(** X18. The connection recovery asks the client once to switch its
    network on and then completes as the probe does: the same result,
    or the same rejection, and the reads and pauses of the probe.
    Whether the request to the client is granted or refused, with an
    error object or with null, changes nothing of this. *)
Theorem recovery_reports_the_probe :
  forall (sdk : Recovery.Sdk) (platform : Firebase.Platform),
    Eff.run (Recovery.attemptConnectionRecovery sdk platform)
    = (fst (Eff.run (Firebase.testFirebaseConnection platform 0)),
       Recovery.EnableNetwork
       :: map Recovery.Probe
            (snd (Eff.run (Firebase.testFirebaseConnection platform 0)))).
Proof.
  intros sdk platform.
  unfold Recovery.attemptConnectionRecovery, Eff.run.
  rewrite exec_bind, exec_try_handle. unfold Recovery.call.
  rewrite exec_bind, exec_emit.
  destruct (Recovery.enableNetwork sdk) as [|e|];
    cbn [Eff.exec Eff.ret Eff.throw app]; rewrite exec_embed;
    reflexivity.
Qed.

(** X19. Forcing the offline or the online mode makes the one request
    to the client. When the client grants it the result is a success;
    when the client refuses it with an error object the result is a
    failure that carries the message of that object, which is no text
    at all when the object has no message; when the client refuses it
    with null or undefined the [catch] throws at [error.message] and
    the function itself rejects. *)
Theorem force_modes_outcomes :
  forall (sdk : Recovery.Sdk),
    Eff.run (Recovery.forceOfflineMode sdk)
    = (match Recovery.disableNetwork sdk with
       | Firebase.Fulfilled => Eff.Normal Firebase.succeeded
       | Firebase.Rejected e =>
           Eff.Normal {| Firebase.success := false;
                         Firebase.error := Firebase.message e |}
       | Firebase.RejectedNullish => Eff.Throw Firebase.PropertyOfNullish
       end,
       [Recovery.DisableNetwork])
    /\ Eff.run (Recovery.forceOnlineMode sdk)
       = (match Recovery.enableNetwork sdk with
          | Firebase.Fulfilled => Eff.Normal Firebase.succeeded
          | Firebase.Rejected e =>
              Eff.Normal {| Firebase.success := false;
                            Firebase.error := Firebase.message e |}
          | Firebase.RejectedNullish => Eff.Throw Firebase.PropertyOfNullish
          end,
          [Recovery.EnableNetwork]).
Proof.
  intros sdk.
  unfold Recovery.forceOfflineMode, Recovery.forceOnlineMode, Eff.run.
  rewrite !exec_try_handle, !exec_bind. unfold Recovery.call.
  rewrite !exec_bind, !exec_emit.
  destruct (Recovery.disableNetwork sdk), (Recovery.enableNetwork sdk);
    split; reflexivity.
Qed.

(** ** Clearing the browser's storage *)

Section ResetMore.
Import Reset.

Lemma jsstring_eqb_refl (a : jsstring) : jsstring_eqb a a = true.
Proof.
  unfold jsstring_eqb. destruct (list_eq_dec N.eq_dec a a); [reflexivity|].
  contradiction.
Qed.

Lemma jsstring_eqb_neq (a b : jsstring) :
  jsstring_eqb a b = false -> a <> b.
Proof. intros H ->. rewrite jsstring_eqb_refl in H. discriminate. Qed.

Lemma occurrencesOf_removeParam (name : jsstring)
  (q : list (jsstring * jsstring)) :
  occurrencesOf name (removeParam name q) = 0%nat.
Proof.
  unfold occurrencesOf, removeParam.
  induction q as [|[n v] r IH]; [reflexivity|]. cbn [filter fst].
  destruct (jsstring_eqb n name) eqn:E; cbn [negb]; [exact IH|].
  cbn [filter fst]. rewrite E. exact IH.
Qed.

Lemma occurrencesOf_setParam (name value : jsstring)
  (q : list (jsstring * jsstring)) :
  occurrencesOf name (setParam name value q) = 1%nat.
Proof.
  induction q as [|[n v] r IH]; cbn [setParam].
  - unfold occurrencesOf. cbn [filter fst]. rewrite jsstring_eqb_refl.
    reflexivity.
  - destruct (jsstring_eqb n name) eqn:E.
    + pose proof (occurrencesOf_removeParam name r) as Z.
      unfold occurrencesOf in *. cbn [filter fst].
      rewrite jsstring_eqb_refl. cbn [List.length]. rewrite Z. reflexivity.
    + unfold occurrencesOf in *. cbn [filter fst]. rewrite E. exact IH.
Qed.

Lemma getParam_setParam (name value : jsstring)
  (q : list (jsstring * jsstring)) :
  getParam name (setParam name value q) = Some value.
Proof.
  unfold getParam.
  induction q as [|[n v] r IH]; cbn [setParam].
  - cbn [find fst]. rewrite jsstring_eqb_refl. reflexivity.
  - destruct (jsstring_eqb n name) eqn:E.
    + cbn [find fst]. rewrite jsstring_eqb_refl. reflexivity.
    + cbn [find fst]. rewrite E. exact IH.
Qed.

(** The pairs under other names stay as they are, in their order. *)
Lemma others_removeParam (name other : jsstring)
  (q : list (jsstring * jsstring)) :
  jsstring_eqb other name = false ->
  filter (fun p => jsstring_eqb (fst p) other) (removeParam name q)
  = filter (fun p => jsstring_eqb (fst p) other) q.
Proof.
  intros D. unfold removeParam.
  induction q as [|[n v] r IH]; [reflexivity|]. cbn [filter fst].
  destruct (jsstring_eqb n name) eqn:E; cbn [negb].
  - apply jsstring_eqb_eq in E. subst n.
    destruct (jsstring_eqb name other) eqn:F.
    + apply jsstring_eqb_eq in F. subst other.
      rewrite jsstring_eqb_refl in D. discriminate.
    + exact IH.
  - cbn [filter fst]. rewrite IH. reflexivity.
Qed.

Lemma others_setParam (name value other : jsstring)
  (q : list (jsstring * jsstring)) :
  jsstring_eqb other name = false ->
  filter (fun p => jsstring_eqb (fst p) other) (setParam name value q)
  = filter (fun p => jsstring_eqb (fst p) other) q.
Proof.
  intros D.
  assert (D' : jsstring_eqb name other = false).
  { destruct (jsstring_eqb name other) eqn:F; [|reflexivity].
    apply jsstring_eqb_eq in F. subst other.
    rewrite jsstring_eqb_refl in D. discriminate. }
  induction q as [|[n v] r IH]; cbn [setParam].
  - cbn [filter fst]. rewrite D'. reflexivity.
  - destruct (jsstring_eqb n name) eqn:E.
    + apply jsstring_eqb_eq in E. subst n. cbn [filter fst]. rewrite D'.
      apply others_removeParam, D.
    + cbn [filter fst]. rewrite IH. reflexivity.
Qed.

Lemma getParam_filter (name : jsstring) (q : list (jsstring * jsstring)) :
  getParam name q
  = match filter (fun p => jsstring_eqb (fst p) name) q with
    | p :: _ => Some (snd p)
    | [] => None
    end.
Proof.
  unfold getParam. induction q as [|[n v] r IH]; [reflexivity|].
  cbn [find filter fst]. destruct (jsstring_eqb n name); [reflexivity|].
  exact IH.
Qed.

Lemma exec_attempt (ev : Event) (okay : bool) (log : list Event) :
  Eff.exec (attempt ev okay) log
  = (if okay then Eff.Normal tt else Eff.Throw Failed, log ++ [ev]).
Proof.
  unfold attempt. rewrite exec_bind, exec_emit. destruct okay; reflexivity.
Qed.

Lemma exec_requests (evs log : list Event) :
  Eff.exec (requests evs) log = (Eff.Normal tt, log ++ evs).
Proof.
  revert log. induction evs as [|ev r IH]; intros log; cbn [requests].
  - rewrite exec_ret, app_nil_r. reflexivity.
  - rewrite exec_bind, exec_emit, IH, <- app_assoc. reflexivity.
Qed.

Lemma exec_clearAll (listing : Event) (request : jsstring -> Event)
  (interface : option (option (list (jsstring * bool)))) (log : list Event) :
  Eff.exec (clearAll listing request interface) log
  = (if clears interface then Eff.Normal tt else Eff.Throw Failed,
     log ++ clearing listing request interface).
Proof.
  unfold clearAll, clears, clearing.
  destruct interface as [[items|]|].
  - rewrite exec_bind, exec_emit, exec_bind, exec_orThrow_some.
    unfold requestAll. rewrite exec_bind, exec_requests.
    rewrite <- app_assoc. cbn [app].
    destruct (forallb snd items); reflexivity.
  - rewrite exec_bind, exec_emit, exec_bind, exec_orThrow_none. reflexivity.
  - rewrite exec_ret, app_nil_r. reflexivity.
Qed.

End ResetMore.

(** X20. The emergency recovery always asks for both stores to be
    cleared and then reloads the page, whether or not a clear throws. *)
Theorem emergency_always_reloads :
  forall (b : Reset.Browser),
    Eff.run (Reset.emergencyFirebaseRecovery b)
    = (Eff.Normal tt,
       [Reset.ClearLocalStorage; Reset.ClearSessionStorage; Reset.Reload]).
Proof.
  intros b. unfold Reset.emergencyFirebaseRecovery, Eff.run.
  rewrite !exec_bind, !exec_try_catch, exec_attempt.
  destruct (Reset.localStorageClears b);
    rewrite ?exec_ret, exec_bind, exec_try_catch, exec_attempt;
    destruct (Reset.sessionStorageClears b); reflexivity.
Qed.

Section AggressiveMore.
Context {host : Host}.
Import Reset.

Lemma exec_clearStorage (b : Browser) (log : list Event) :
  Eff.exec (clearStorage b) log
  = (Eff.Normal tt,
     log ++ [ClearLocalStorage]
     ++ (if localStorageClears b then
           [ClearSessionStorage]
           ++ (if sessionStorageClears b then
                 clearing ListDatabases DeleteDatabase (indexedDB b)
                 ++ (if clears (indexedDB b) then
                       clearing GetRegistrations Unregister (serviceWorker b)
                       ++ (if clears (serviceWorker b) then
                             clearing CacheKeys CacheDelete (caches b)
                           else [])
                     else [])
               else [])
         else [])).
Proof.
  unfold clearStorage.
  rewrite exec_try_catch, exec_bind, exec_attempt.
  destruct (localStorageClears b); [|rewrite exec_ret; reflexivity].
  rewrite exec_bind, exec_attempt.
  destruct (sessionStorageClears b);
    [|rewrite exec_ret, <- app_assoc; reflexivity].
  rewrite exec_bind, exec_clearAll.
  destruct (clears (indexedDB b));
    [|rewrite exec_ret, app_nil_r, <- !app_assoc; reflexivity].
  rewrite exec_bind, exec_clearAll.
  destruct (clears (serviceWorker b));
    [|rewrite exec_ret, app_nil_r, <- !app_assoc; reflexivity].
  rewrite exec_bind, exec_clearAll.
  destruct (clears (caches b)); rewrite ?exec_ret, <- !app_assoc;
    reflexivity.
Qed.

Lemma clearing_isClearing (listing : Event) (request : jsstring -> Event)
  (interface : option (option (list (jsstring * bool)))) :
  isClearing listing = true -> (forall n, isClearing (request n) = true) ->
  forallb isClearing (clearing listing request interface) = true.
Proof.
  intros L R. destruct interface as [[items|]|]; cbn [clearing forallb].
  - rewrite L. cbn [andb]. induction items as [|i r IH]; [reflexivity|].
    cbn [map forallb]. rewrite R, IH. reflexivity.
  - rewrite L. reflexivity.
  - reflexivity.
Qed.

Lemma exec_aggressive (b : Browser) :
  Eff.run (aggressiveFirebaseRecovery b)
  = (Eff.Normal tt,
     snd (Eff.run (clearStorage b)) ++ [Navigate (target b)]).
Proof.
  unfold aggressiveFirebaseRecovery, Eff.run.
  rewrite exec_bind, !exec_clearStorage. cbv zeta. rewrite exec_emit.
  reflexivity.
Qed.

End AggressiveMore.

(** X21. The aggressive recovery never rejects and always ends by
    navigating, once, to the current address with the two parameters
    set; before that it asks for the local storage to be cleared and
    does nothing but clearing. (Every request is taken to settle.) *)
Theorem aggressive_always_navigates :
  forall (host : Host) (b : Reset.Browser),
  exists cleared,
    Eff.run (Reset.aggressiveFirebaseRecovery b)
    = (Eff.Normal tt,
       Reset.ClearLocalStorage :: cleared ++ [Reset.Navigate (target b)])
    /\ forallb isClearing cleared = true.
Proof.
  intros host b. rewrite exec_aggressive. unfold Eff.run.
  rewrite exec_clearStorage. cbn [snd app].
  eexists. split; [reflexivity|].
  destruct (Reset.localStorageClears b); [|reflexivity].
  cbn [app forallb isClearing andb].
  destruct (Reset.sessionStorageClears b); [|reflexivity].
  rewrite forallb_app, clearing_isClearing by reflexivity. cbn [andb].
  destruct (clears (Reset.indexedDB b)); [|reflexivity].
  rewrite forallb_app, clearing_isClearing by reflexivity. cbn [andb].
  destruct (clears (Reset.serviceWorker b)); [|reflexivity].
  apply clearing_isClearing; reflexivity.
Qed.

(** X22. In the aggressive recovery the first step that throws ends the
    clearing: when the local storage cannot be cleared, nothing else is,
    unlike in the emergency recovery. When every step works, the two
    stores are cleared, and for each interface the browser has, its
    items are listed and a removal is requested for each, in the order
    databases, service workers, caches. *)
Theorem aggressive_stops_at_first_failure :
  forall (host : Host) (b : Reset.Browser),
    (Reset.localStorageClears b = false ->
     Eff.run (Reset.aggressiveFirebaseRecovery b)
     = (Eff.Normal tt, [Reset.ClearLocalStorage; Reset.Navigate (target b)]))
    /\ (Reset.localStorageClears b = true ->
        Reset.sessionStorageClears b = true ->
        clears (Reset.indexedDB b) = true ->
        clears (Reset.serviceWorker b) = true ->
        Eff.run (Reset.aggressiveFirebaseRecovery b)
        = (Eff.Normal tt,
           [Reset.ClearLocalStorage; Reset.ClearSessionStorage]
           ++ clearing Reset.ListDatabases Reset.DeleteDatabase
                (Reset.indexedDB b)
           ++ clearing Reset.GetRegistrations Reset.Unregister
                (Reset.serviceWorker b)
           ++ clearing Reset.CacheKeys Reset.CacheDelete (Reset.caches b)
           ++ [Reset.Navigate (target b)])).
Proof.
  intros host b. split.
  - intros L. rewrite exec_aggressive. unfold Eff.run.
    rewrite exec_clearStorage, L. reflexivity.
  - intros L S I W. rewrite exec_aggressive. unfold Eff.run.
    rewrite exec_clearStorage, L, S, I, W. cbn [snd app].
    rewrite <- !app_assoc. reflexivity.
Qed.

Lemma aggressive_stops_at_first_failure_witness :
  Eff.run (@Reset.aggressiveFirebaseRecovery plainHost lockedBrowser)
  = (Eff.Normal tt,
     [Reset.ClearLocalStorage;
      Reset.Navigate (@target plainHost lockedBrowser)])
  /\ Eff.run (@Reset.aggressiveFirebaseRecovery plainHost workingBrowser)
     = (Eff.Normal tt,
        [Reset.ClearLocalStorage; Reset.ClearSessionStorage]
        ++ clearing Reset.ListDatabases Reset.DeleteDatabase
             (Reset.indexedDB workingBrowser)
        ++ clearing Reset.GetRegistrations Reset.Unregister
             (Reset.serviceWorker workingBrowser)
        ++ clearing Reset.CacheKeys Reset.CacheDelete
             (Reset.caches workingBrowser)
        ++ [Reset.Navigate (@target plainHost workingBrowser)]).
Proof.
  split.
  - exact (proj1 (aggressive_stops_at_first_failure plainHost lockedBrowser)
             eq_refl).
  - exact (proj2 (aggressive_stops_at_first_failure plainHost workingBrowser)
             eq_refl eq_refl eq_refl eq_refl).
Defined.

(** X23. The address the aggressive recovery navigates to is the
    current one with [force_reload] set to "true" and [cache_bust] to
    the current time, each exactly once, also when the address had them
    already; the parameters under other names, the part before the
    query and the fragment are unchanged. *)
Theorem recovery_address :
  forall (host : Host) (b : Reset.Browser),
    Reset.getParam "force_reload" (Reset.query (target b)) = Some (js "true")
    /\ Reset.getParam "cache_bust" (Reset.query (target b))
       = Some (Num.toString (Int (Reset.now b)))
    /\ occurrencesOf "force_reload" (Reset.query (target b)) = 1%nat
    /\ occurrencesOf "cache_bust" (Reset.query (target b)) = 1%nat
    /\ (forall other,
          jsstring_eqb other "force_reload" = false ->
          jsstring_eqb other "cache_bust" = false ->
          filter (fun p => jsstring_eqb (fst p) other) (Reset.query (target b))
          = filter (fun p => jsstring_eqb (fst p) other)
              (Reset.query (Reset.href b)))
    /\ Reset.base (target b) = Reset.base (Reset.href b)
    /\ Reset.fragment (target b) = Reset.fragment (Reset.href b).
Proof.
  intros host b. unfold target, Reset.withParam.
  cbn [Reset.query Reset.base Reset.fragment].
  split; [apply getParam_setParam|].
  split.
  { rewrite getParam_filter, others_setParam by reflexivity.
    rewrite <- getParam_filter. apply getParam_setParam. }
  split; [apply occurrencesOf_setParam|].
  split.
  { unfold occurrencesOf. rewrite others_setParam by reflexivity.
    apply occurrencesOf_setParam. }
  split; [|split; reflexivity].
  intros other F C. rewrite !others_setParam by assumption. reflexivity.
Qed.
